(** * stemtool.util.pnccd: the frms6 reader and the container slice reader

    A shallow embedding of [src/stemtool/util/pnccd.py] together with the
    parts of the Python runtime the module leans on (the [struct] module,
    integer true division, binary file handles, a few numpy array
    operations, [str.find] and [str.replace]), followed by the properties
    of the reader that the specification states.  The runtime is first
    taken without bounds on its integers; module [Limits] adds the limits
    of a 64-bit CPython, and the properties that depend on them are stated
    there. *)

From Stdlib Require Import ZArith List String Ascii Bool Lia.
From Stdlib.Strings Require Import Byte.
Import ListNotations.
Open Scope Z_scope.

(** ** Exceptions and results *)

(** The Python exceptions the module can raise, directly or through the
    runtime.  [PyWarning] is the [Warning] class raised by
    [getDataShape]. *)
Inductive exn :=
| StructError
| ValueError
| OSError
| FileNotFoundError
| PyWarning
| TypeError
| KeyError
| IndexError
| AxisError
| ZeroDivisionError
| MemoryError
| OverflowError.

Inductive result (A : Type) :=
| Ok (a : A)
| Raise (e : exn).
Arguments Ok {A} a.
Arguments Raise {A} e.

Definition bind {A B} (r : result A) (k : A -> result B) : result B :=
  match r with
  | Ok a => k a
  | Raise e => Raise e
  end.

Notation "x <- r ;; k" := (bind r (fun x => k))
  (at level 61, r at next level, right associativity).
Notation "' p <- r ;; k" := (bind r (fun x => let p := x in k))
  (at level 61, p pattern, r at next level, right associativity).

Definition is_ok {A} (r : result A) : bool :=
  match r with Ok _ => true | Raise _ => false end.

(** The byte order of the host; [struct]'s [=] prefix and numpy's plain
    [uint16] both mean "whatever the host uses". *)
Inductive endianness := LittleEndian | BigEndian.

(** ** Bytes *)

Definition byte_val (b : byte) : Z := Z.of_N (Byte.to_N b).

Definition byte_of_Z (z : Z) : byte :=
  match Byte.of_N (Z.to_N (z mod 256)) with
  | Some b => b
  | None => x00
  end.

(** Little-endian value of a byte string. *)
Fixpoint le_value (bs : list byte) : Z :=
  match bs with
  | [] => 0
  | b :: rest => byte_val b + 256 * le_value rest
  end.

Definition uint_of_bytes (order : endianness) (bs : list byte) : Z :=
  match order with
  | LittleEndian => le_value bs
  | BigEndian => le_value (rev bs)
  end.

Definition sint_of_bytes (order : endianness) (bs : list byte) : Z :=
  let u := uint_of_bytes order bs in
  let w := 8 * Z.of_nat (List.length bs) in
  if u <? 2 ^ (w - 1) then u else u - 2 ^ w.

(** [n] bytes of [z], least significant first. *)
Fixpoint le_bytes (n : nat) (z : Z) : list byte :=
  match n with
  | O => []
  | S k => byte_of_Z z :: le_bytes k (z / 256)
  end.

Definition bytes_of_uint (order : endianness) (n : nat) (z : Z) : list byte :=
  match order with
  | LittleEndian => le_bytes n z
  | BigEndian => rev (le_bytes n z)
  end.

(** Python's [b[i:j]] for [0 <= i]. *)
Definition bytes_slice {A} (i len : Z) (bs : list A) : list A :=
  firstn (Z.to_nat len) (skipn (Z.to_nat i) bs).

Definition Zlength {A} (l : list A) : Z := Z.of_nat (List.length l).

(** ** The [struct] module *)

Module PyStruct.

Inductive order_mark := NativeOrder | LittleOrder | BigOrder.

(** A format table: native sizes with alignment ([@], the default), or
    standard sizes without ([=], [<], [>], [!]). *)
Record table := { tbl_native : bool; tbl_order : order_mark }.

Definition whichtable (fmt : list ascii) : table * list ascii :=
  match fmt with
  | "<"%char :: r => ({| tbl_native := false; tbl_order := LittleOrder |}, r)
  | ">"%char :: r => ({| tbl_native := false; tbl_order := BigOrder |}, r)
  | "!"%char :: r => ({| tbl_native := false; tbl_order := BigOrder |}, r)
  | "="%char :: r => ({| tbl_native := false; tbl_order := NativeOrder |}, r)
  | "@"%char :: r => ({| tbl_native := true; tbl_order := NativeOrder |}, r)
  | _ => ({| tbl_native := true; tbl_order := NativeOrder |}, fmt)
  end.

Record entry := { e_size : Z; e_align : Z }.

(** Sizes of the format characters.  The native table is the one of an
    LP64 host, where every scalar is aligned to its size. *)
Definition getentry (t : table) (c : ascii) : option entry :=
  let one := Some {| e_size := 1; e_align := 0 |} in
  let sz n := Some {| e_size := n; e_align := if tbl_native t then n else 0 |} in
  match c with
  | "x"%char | "c"%char | "b"%char | "B"%char | "?"%char
  | "s"%char | "p"%char => one
  | "h"%char | "H"%char | "e"%char => sz 2
  | "i"%char | "I"%char | "f"%char => sz 4
  | "l"%char | "L"%char => if tbl_native t then sz 8 else sz 4
  | "q"%char | "Q"%char | "d"%char => sz 8
  | "n"%char | "N"%char | "P"%char => if tbl_native t then sz 8 else None
  | _ => None
  end.

Definition is_digit (c : ascii) : bool :=
  let n := Z.of_nat (nat_of_ascii c) in (48 <=? n) && (n <=? 57).

Definition digit_val (c : ascii) : Z := Z.of_nat (nat_of_ascii c) - 48.

Definition is_space (c : ascii) : bool :=
  let n := Z.of_nat (nat_of_ascii c) in
  (n =? 32) || ((9 <=? n) && (n <=? 13)).

Definition align (size : Z) (e : entry) : Z :=
  if (0 <? e_align e) && (0 <? size)
  then ((size + e_align e - 1) / e_align e) * e_align e
  else size.

(** One item of a parsed format: repeat count, format character, byte
    offset of the item. *)
Record item := { it_count : Z; it_code : ascii; it_offset : Z }.

(** The scan of a format string: an optional pending repeat count,
    the items seen so far (latest first) and the running size.  Counts
    and sizes are Python ints here; the overflow checks of the
    interpreter are in [Limits.scan]. *)
Fixpoint scan (t : table) (fmt : list ascii) (num : option Z)
         (items : list item) (size : Z) : result (list item * Z) :=
  match fmt with
  | [] =>
      match num with
      | None => Ok (rev items, size)
      | Some _ => Raise StructError
      end
  | c :: rest =>
      if is_digit c then
        let n := match num with None => 0 | Some n => n end in
        scan t rest (Some (10 * n + digit_val c)) items size
      else if is_space c && (match num with None => true | _ => false end)
      then scan t rest None items size
      else
        match getentry t c with
        | None => Raise StructError
        | Some e =>
            let n := match num with None => 1 | Some n => n end in
            let off := align size e in
            scan t rest None
                 ({| it_count := n; it_code := c; it_offset := off |} :: items)
                 (off + n * e_size e)
        end
  end.

Definition prepare (fmt : string) : result (table * list item * Z) :=
  let '(t, body) := whichtable (list_ascii_of_string fmt) in
  '(items, size) <- scan t body None [] 0 ;;
  Ok (t, items, size).

(** [struct.calcsize(fmt)] *)
Definition calcsize (fmt : string) : result Z :=
  '(_, _, size) <- prepare fmt ;;
  Ok size.

(** Unpacked values.  A float keeps its IEEE bit pattern, which is all
    the reader ever does with it. *)
Inductive value :=
| VInt (z : Z)
| VBool (b : bool)
| VBytes (bs : list byte)
| VFloat (width : Z) (bits : Z).

Definition resolve (host : endianness) (t : table) : endianness :=
  match tbl_order t with
  | NativeOrder => host
  | LittleOrder => LittleEndian
  | BigOrder => BigEndian
  end.

Definition unpack_scalar (order : endianness) (c : ascii) (bs : list byte)
  : list value :=
  match c with
  | "c"%char => [VBytes bs]
  | "?"%char => [VBool (negb (uint_of_bytes order bs =? 0))]
  | "b"%char | "h"%char | "i"%char | "l"%char | "q"%char | "n"%char =>
      [VInt (sint_of_bytes order bs)]
  | "e"%char | "f"%char | "d"%char =>
      [VFloat (8 * Zlength bs) (uint_of_bytes order bs)]
  | _ => [VInt (uint_of_bytes order bs)]
  end.

Fixpoint unpack_repeat (order : endianness) (c : ascii) (sz : Z)
         (n : nat) (bs : list byte) : list value :=
  match n with
  | O => []
  | S k =>
      unpack_scalar order c (bytes_slice 0 sz bs)
        ++ unpack_repeat order c sz k (skipn (Z.to_nat sz) bs)
  end.

Definition unpack_item (order : endianness) (t : table) (buf : list byte)
           (it : item) : list value :=
  let field := skipn (Z.to_nat (it_offset it)) buf in
  match it_code it with
  | "x"%char => []
  | "s"%char => [VBytes (bytes_slice 0 (it_count it) field)]
  | "p"%char =>
      match field with
      | [] => [VBytes []]
      | len :: body =>
          [VBytes (bytes_slice 0 (Z.min (byte_val len) (it_count it - 1)) body)]
      end
  | c =>
      match getentry t c with
      | Some e =>
          unpack_repeat order c (e_size e) (Z.to_nat (it_count it)) field
      | None => []
      end
  end.

(** [struct.Struct(fmt).unpack(buf)]: the buffer must have exactly the
    size of the layout. *)
Definition unpack (host : endianness) (fmt : string) (buf : list byte)
  : result (list value) :=
  '(t, items, size) <- prepare fmt ;;
  if Zlength buf =? size
  then Ok (flat_map (unpack_item (resolve host t) t buf) items)
  else Raise StructError.

End PyStruct.

(** ** [str] of an integer *)

Definition digit_char (d : Z) : ascii := ascii_of_nat (Z.to_nat (48 + d)).

Fixpoint digits_acc (fuel : nat) (n : Z) (acc : list ascii) : list ascii :=
  match fuel with
  | O => acc
  | S f =>
      let acc' := digit_char (n mod 10) :: acc in
      if n <? 10 then acc' else digits_acc f (n / 10) acc'
  end.

(** [str(n)] for a Python int, of any length; the limit some
    interpreters put on the digits is in [Limits.str_of_int]. *)
Definition str_of_int (n : Z) : string :=
  let body := digits_acc (S (Z.to_nat (Z.log2 (Z.abs n)))) (Z.abs n) [] in
  string_of_list_ascii (if n <? 0 then "-"%char :: body else body).


(** ** Integer true division and floats *)

(** A Python float, as the dyadic number [f_man * 2 ^ f_exp].  The
    results produced below carry at most 53 significant bits; the exponent
    range of binary64 is not modelled (the quotients of this module are
    ratios of a file size and a record size, far from either end). *)
Record pyfloat := { f_man : Z; f_exp : Z }.

(** [floor (log2 (n / d))] for positive [n] and [d]. *)
Definition floor_log2_ratio (n d : Z) : Z :=
  let k := Z.log2 n - Z.log2 d in
  if (if 0 <=? k then d * 2 ^ k <=? n else d <=? n * 2 ^ (- k))
  then k else k - 1.

(** [num / den] rounded to the nearest integer, ties to even. *)
Definition round_half_even (num den : Z) : Z :=
  let q := num / den in
  let r := num mod den in
  if (den <? 2 * r) || ((den =? 2 * r) && Z.odd q) then q + 1 else q.

(** The correctly rounded binary64 quotient of two positive ints. *)
Definition pos_true_divide (n d : Z) : pyfloat :=
  let e := floor_log2_ratio n d - 52 in
  let m := if 0 <=? e
           then round_half_even n (d * 2 ^ e)
           else round_half_even (n * 2 ^ (- e)) d in
  {| f_man := m; f_exp := e |}.

(** [n / d] on Python ints (true division). *)
Definition int_true_divide (n d : Z) : result pyfloat :=
  if d =? 0 then Raise ZeroDivisionError
  else if n =? 0 then Ok {| f_man := 0; f_exp := 0 |}
  else
    let f := pos_true_divide (Z.abs n) (Z.abs d) in
    Ok {| f_man := Z.sgn n * Z.sgn d * f_man f; f_exp := f_exp f |}.

(** [x.is_integer()] *)
Definition float_is_integer (x : pyfloat) : bool :=
  if 0 <=? f_exp x then true else f_man x mod 2 ^ (- f_exp x) =? 0.

(** [int(x)] for a float: truncation towards zero. *)
Definition int_of_float (x : pyfloat) : Z :=
  if 0 <=? f_exp x then f_man x * 2 ^ f_exp x
  else Z.quot (f_man x) (2 ^ (- f_exp x)).

(** [float(n)] for an int: the nearest binary64. *)
Definition float_of_int (n : Z) : pyfloat :=
  match int_true_divide n 1 with
  | Ok f => f
  | Raise _ => {| f_man := 0; f_exp := 0 |}
  end.

(** ** Binary files *)

Definition filesystem := string -> option (list byte).

(** An open binary file: its contents, the position of the handle, and
    the reads issued so far as (offset, requested size), latest first. *)
Record file_handle :=
  { fh_data : list byte; fh_pos : Z; fh_reads : list (Z * Z) }.

(** [open(fn, 'rb')] *)
Definition py_open (fs : filesystem) (fn : string) : result file_handle :=
  match fs fn with
  | Some data => Ok {| fh_data := data; fh_pos := 0; fh_reads := [] |}
  | None => Raise FileNotFoundError
  end.

(** [os.path.getsize(fn)] *)
Definition getsize (fs : filesystem) (fn : string) : result Z :=
  match fs fn with
  | Some data => Ok (Zlength data)
  | None => Raise FileNotFoundError
  end.

(** [fh.seek(offset, whence)] for [whence] 0 (absolute) and 1 (relative
    to the position of the handle).  A position past the end of the file
    is accepted, a negative one is not.  Offsets are Python ints here;
    the limits of the interpreter and of the file system are in
    [Limits.seek]. *)
Definition seek (fh : file_handle) (offset whence : Z) : result file_handle :=
  let target := if whence =? 1 then fh_pos fh + offset else offset in
  if target <? 0 then Raise OSError
  else Ok {| fh_data := fh_data fh; fh_pos := target; fh_reads := fh_reads fh |}.

(** [fh.read(size)]: up to [size] bytes from the position of the handle,
    fewer at the end of the file; the limits on the size of the result
    are in [Limits.read]. *)
Definition read (fh : file_handle) (size : Z) : list byte * file_handle :=
  let avail := skipn (Z.to_nat (fh_pos fh)) (fh_data fh) in
  let got := if size <? 0 then avail else firstn (Z.to_nat size) avail in
  (got, {| fh_data := fh_data fh;
           fh_pos := fh_pos fh + Zlength got;
           fh_reads := (fh_pos fh, size) :: fh_reads fh |}).

(** ** Loops *)

(** [range(n)] *)
Definition py_range (n : Z) : list Z := map Z.of_nat (seq 0 (Z.to_nat n)).

(** [for x in xs: body], threading the variables the body assigns. *)
Fixpoint for_each {S : Type} (xs : list Z) (body : Z -> S -> result S) (s : S)
  : result S :=
  match xs with
  | [] => Ok s
  | x :: rest => s' <- body x s ;; for_each rest body s'
  end.

(** ** numpy arrays *)

Inductive dtype :=
| Bool8
| Int8 | UInt8 | Int16 | UInt16 | Int32 | UInt32 | Int64 | UInt64
| Float32 | Float64.

Inductive scalar :=
| SInt (z : Z)
| SFloat (f : pyfloat).

(** An array: element type, shape, and the elements in C order (last
    index fastest). *)
Record ndarray :=
  { nd_dtype : dtype; nd_shape : list nat; nd_data : list scalar }.

Definition size_of (shape : list nat) : nat := fold_right Nat.mul 1%nat shape.

(** All index tuples of a shape, in C order. *)
Fixpoint indices (shape : list nat) : list (list nat) :=
  match shape with
  | [] => [[]]
  | n :: rest => flat_map (fun i => map (cons i) (indices rest)) (seq 0 n)
  end.

Fixpoint offset_of (shape idx : list nat) : nat :=
  match shape, idx with
  | _ :: rest, i :: js => (i * size_of rest + offset_of rest js)%nat
  | _, _ => 0%nat
  end.

Fixpoint in_bounds (shape idx : list nat) : bool :=
  match shape, idx with
  | [], [] => true
  | n :: rest, i :: js => (i <? n)%nat && in_bounds rest js
  | _, _ => false
  end.

(** The element at an index tuple that is in bounds. *)
Definition nd_get (a : ndarray) (idx : list nat) : scalar :=
  nth (offset_of (nd_shape a) idx) (nd_data a) (SInt 0).

(** [a[i, j, ...]] with non-negative indices. *)
Definition nd_item (a : ndarray) (idx : list nat) : result scalar :=
  if in_bounds (nd_shape a) idx then Ok (nd_get a idx) else Raise IndexError.

(** The array of a given shape whose element at [idx] is [f idx]. *)
Definition nd_make (dt : dtype) (shape : list nat) (f : list nat -> scalar)
  : ndarray :=
  {| nd_dtype := dt; nd_shape := shape; nd_data := map f (indices shape) |}.

(** A shape given as Python ints. *)
Definition check_shape (dims : list Z) : result (list nat) :=
  if forallb (fun d => 0 <=? d) dims
  then Ok (map Z.to_nat dims)
  else Raise ValueError.

(** [np.zeros(shape, dtype)], of any size; the limits on the size of
    an array are in [Limits.np_zeros]. *)
Definition np_zeros (dims : list Z) (dt : dtype) : result ndarray :=
  shape <- check_shape dims ;;
  Ok (nd_make dt shape (fun _ => SInt 0)).

(** Consecutive 16-bit samples of a buffer of even length. *)
Fixpoint samples16 (host : endianness) (buf : list byte) : list scalar :=
  match buf with
  | b0 :: b1 :: rest => SInt (uint_of_bytes host [b0; b1]) :: samples16 host rest
  | _ => []
  end.

(** [np.frombuffer(buf, np.uint16)] *)
Definition np_frombuffer_uint16 (host : endianness) (buf : list byte)
  : result ndarray :=
  if Zlength buf mod 2 =? 0
  then
    let data := samples16 host buf in
    Ok {| nd_dtype := UInt16; nd_shape := [List.length data]; nd_data := data |}
  else Raise ValueError.

(** [a.reshape(shape)] in C order; the sizes must agree.  (The [-1]
    wildcard of numpy is left out: [readData] has allocated an array with
    the same extents before it reshapes, and that rejects negative
    ones.) *)
Definition nd_reshape (a : ndarray) (dims : list Z) : result ndarray :=
  shape <- check_shape dims ;;
  if (size_of shape =? List.length (nd_data a))%nat
  then Ok {| nd_dtype := nd_dtype a; nd_shape := shape; nd_data := nd_data a |}
  else Raise ValueError.

(** [np.transpose(a)]: the axes reversed. *)
Definition np_transpose (a : ndarray) : ndarray :=
  nd_make (nd_dtype a) (rev (nd_shape a)) (fun idx => nd_get a (rev idx)).

(** [chunk[:, :, k] = v] on a 3-D array, for a value of the shape of one
    frame; a negative [k] counts from the end of the axis. *)
Definition nd_set_frame (chunk : ndarray) (k : Z) (v : ndarray)
  : result ndarray :=
  match nd_shape chunk with
  | [nx; ny; n] =>
      let k := if k <? 0 then k + Z.of_nat n else k in
      if (k <? 0) || (Z.of_nat n <=? k) then Raise IndexError
      else if list_eq_dec Nat.eq_dec (nd_shape v) [nx; ny] then
        Ok (nd_make (nd_dtype chunk) [nx; ny; n]
              (fun idx =>
                 match idx with
                 | [x; y; j] =>
                     if (j =? Z.to_nat k)%nat then nd_get v [x; y]
                     else nd_get chunk idx
                 | _ => nd_get chunk idx
                 end))
      else Raise ValueError
  | _ => Raise IndexError
  end.

(** ** Dictionaries with string keys, in insertion order *)

Definition dict (V : Type) := list (string * V).

Fixpoint dict_get {V} (d : dict V) (key : string) : result V :=
  match d with
  | [] => Raise KeyError
  | (k, v) :: rest => if String.eqb k key then Ok v else dict_get rest key
  end.

(** [items[i]] on the tuple returned by [unpack]. *)
Definition tuple_get (items : list PyStruct.value) (i : nat)
  : result PyStruct.value :=
  match nth_error items i with
  | Some v => Ok v
  | None => Raise IndexError
  end.

(** [int(v)] on an unpacked integer field. *)
Definition py_int (v : PyStruct.value) : result Z :=
  match v with
  | PyStruct.VInt z => Ok z
  | PyStruct.VBool b => Ok (if b then 1 else 0)
  | _ => Raise TypeError
  end.

Fixpoint strip_leading_nul (bs : list byte) : list byte :=
  match bs with
  | x00 :: rest => strip_leading_nul rest
  | _ => bs
  end.

(** [v.rstrip(b'\x00')] *)
Definition rstrip_nul (v : PyStruct.value) : result PyStruct.value :=
  match v with
  | PyStruct.VBytes bs => Ok (PyStruct.VBytes (rev (strip_leading_nul (rev bs))))
  | _ => Raise TypeError
  end.

(** ** class Frms6Reader *)

Module Frms6Reader.

Definition fileHeaderFormat : string :=
  ("=" ++ "H" ++ "H" ++ "B" ++ "B" ++ "B" ++ "B" ++ "80s" ++ "H" ++ "H"
       ++ "932x")%string.

(** Class attributes are evaluated once, when the class is created;
    both formats are well formed, so [calcsize] returns there. *)
Definition fileHeaderSizeInBytes : Z :=
  match PyStruct.calcsize fileHeaderFormat with Ok n => n | Raise _ => 0 end.

Definition frameHeaderFormat : string :=
  ("=" ++ "B" ++ "B" ++ "B" ++ "B" ++ "I" ++ "I" ++ "I" ++ "d" ++ "H"
       ++ "H" ++ "I" ++ "Q" ++ "24x")%string.

Definition frameHeaderSizeInBytes : Z :=
  match PyStruct.calcsize frameHeaderFormat with Ok n => n | Raise _ => 0 end.

Definition getFrameSizeInBytes (frameWidth frameHeight : Z) : result Z :=
  PyStruct.calcsize (str_of_int (frameWidth * frameHeight) ++ "h")%string.

(** The nine lists [getFrameHeaders] fills, and the handle it reads
    from. *)
Record scan_state :=
  { frameStart : list PyStruct.value;
    frameInfo : list PyStruct.value;
    frameId : list PyStruct.value;
    frameHeight : list PyStruct.value;
    frameTvSec : list PyStruct.value;
    frameTvUsec : list PyStruct.value;
    frameIndex : list PyStruct.value;
    frameTemp : list PyStruct.value;
    frameMaxHeight : list PyStruct.value;
    scan_fh : file_handle }.

Section Host.

Variable host : endianness.
Variable fs : filesystem.

Definition getFileHeader (fn : string) : result (dict PyStruct.value) :=
  fh <- py_open fs fn ;;
  let '(fileHeaderRaw, _) := read fh fileHeaderSizeInBytes in
  fileHeaderItems <- PyStruct.unpack host fileHeaderFormat fileHeaderRaw ;;
  i0 <- tuple_get fileHeaderItems 0 ;;
  i1 <- tuple_get fileHeaderItems 1 ;;
  i2 <- tuple_get fileHeaderItems 2 ;;
  i3 <- tuple_get fileHeaderItems 3 ;;
  i4 <- tuple_get fileHeaderItems 4 ;;
  i5 <- tuple_get fileHeaderItems 5 ;;
  i6 <- (v <- tuple_get fileHeaderItems 6 ;; rstrip_nul v) ;;
  i7 <- tuple_get fileHeaderItems 7 ;;
  i8 <- tuple_get fileHeaderItems 8 ;;
  Ok [("fileHeaderSize", i0); ("frameHeaderSize", i1); ("nCCDs", i2);
      ("maxWidth", i3); ("maxHeight", i4); ("version", i5);
      ("dataSetId", i6); ("width", i7); ("height", i8)]%string.

Definition getDataShape (fn : string) : result (Z * Z * Z) :=
  fileHeader <- getFileHeader fn ;;
  frameWidth <- (v <- dict_get fileHeader "width" ;; py_int v) ;;
  frameHeight <- (v <- dict_get fileHeader "height" ;; py_int v) ;;
  let frameAndHeaderSizeInBytes := frameHeaderSizeInBytes in
  frameSize <- getFrameSizeInBytes frameWidth frameHeight ;;
  let frameAndHeaderSizeInBytes := frameAndHeaderSizeInBytes + frameSize in
  fileSize <- getsize fs fn ;;
  numberOfFrames <-
    int_true_divide (fileSize - fileHeaderSizeInBytes)
                    frameAndHeaderSizeInBytes ;;
  if negb (float_is_integer numberOfFrames)
  then Raise PyWarning
  else Ok (frameWidth, frameHeight, int_of_float numberOfFrames).

(** One turn of the loop of [getFrameHeaders]. *)
Definition scan_frame (frameSizeInBytes : Z) (frameIdx : Z) (s : scan_state)
  : result scan_state :=
  let '(frameHeaderRaw, fh) := read (scan_fh s) frameHeaderSizeInBytes in
  frameHeaderItems <- PyStruct.unpack host frameHeaderFormat frameHeaderRaw ;;
  i0 <- tuple_get frameHeaderItems 0 ;;
  i1 <- tuple_get frameHeaderItems 1 ;;
  i2 <- tuple_get frameHeaderItems 2 ;;
  i3 <- tuple_get frameHeaderItems 3 ;;
  i4 <- tuple_get frameHeaderItems 4 ;;
  i5 <- tuple_get frameHeaderItems 5 ;;
  i6 <- tuple_get frameHeaderItems 6 ;;
  i7 <- tuple_get frameHeaderItems 7 ;;
  i8 <- tuple_get frameHeaderItems 8 ;;
  fh <- seek fh frameSizeInBytes 1 ;;
  Ok {| frameStart := frameStart s ++ [i0];
        frameInfo := frameInfo s ++ [i1];
        frameId := frameId s ++ [i2];
        frameHeight := frameHeight s ++ [i3];
        frameTvSec := frameTvSec s ++ [i4];
        frameTvUsec := frameTvUsec s ++ [i5];
        frameIndex := frameIndex s ++ [i6];
        frameTemp := frameTemp s ++ [i7];
        frameMaxHeight := frameMaxHeight s ++ [i8];
        scan_fh := fh |}.

(** [getFrameHeaders], returning the handle as it is when the [with]
    block ends next to the dictionary. *)
Definition getFrameHeaders_run (fn : string)
  : result (dict (list PyStruct.value) * file_handle) :=
  '(frameHeight_, frameWidth_, numberOfFrames) <- getDataShape fn ;;
  frameSizeInBytes <- getFrameSizeInBytes frameWidth_ frameHeight_ ;;
  fh <- py_open fs fn ;;
  fh <- seek fh fileHeaderSizeInBytes 0 ;;
  s <- for_each (py_range numberOfFrames) (scan_frame frameSizeInBytes)
         {| frameStart := []; frameInfo := []; frameId := [];
            frameHeight := []; frameTvSec := []; frameTvUsec := [];
            frameIndex := []; frameTemp := []; frameMaxHeight := [];
            scan_fh := fh |} ;;
  Ok ([("start", frameStart s); ("info", frameInfo s); ("id", frameId s);
       ("height", frameHeight s); ("tv_sec", frameTvSec s);
       ("tv_usec", frameTvUsec s); ("index", frameIndex s);
       ("temp", frameTemp s); ("maxHeight", frameMaxHeight s)]%string,
      scan_fh s).

Definition getFrameHeaders (fn : string)
  : result (dict (list PyStruct.value)) :=
  '(headers, _) <- getFrameHeaders_run fn ;;
  Ok headers.

(** One turn of the loop of [readData]. *)
Definition read_frame (frameSizeInBytes pixelsX pixelsY : Z) (frameIdx : Z)
           (s : ndarray * file_handle) : result (ndarray * file_handle) :=
  let '(chunk, fh) := s in
  fh <- seek fh frameHeaderSizeInBytes 1 ;;
  let '(raw, fh) := read fh frameSizeInBytes in
  currentFrame <- np_frombuffer_uint16 host raw ;;
  currentFrame <- nd_reshape currentFrame [pixelsY; pixelsX] ;;
  chunk <- nd_set_frame chunk frameIdx (np_transpose currentFrame) ;;
  Ok (chunk, fh).

(** [readData], returning the handle as it is when the [with] block
    ends next to the array. *)
Definition readData_run (fn : string) (image_range : Z * Z)
           (pixels_x pixels_y : Z) : result (ndarray * file_handle) :=
  let '(startIdx, endIdx) := image_range in
  let numberOfFrames := endIdx - startIdx in
  let pixelsX := pixels_x in
  let pixelsY := pixels_y in
  frameSizeInBytes <- getFrameSizeInBytes pixelsX pixelsY ;;
  let offset := fileHeaderSizeInBytes in
  let offset :=
    offset + startIdx * (frameHeaderSizeInBytes + frameSizeInBytes) in
  chunk <- np_zeros [pixelsX; pixelsY; numberOfFrames] UInt16 ;;
  fh <- py_open fs fn ;;
  fh <- seek fh offset 0 ;;
  for_each (py_range numberOfFrames)
           (read_frame frameSizeInBytes pixelsX pixelsY) (chunk, fh).

Definition readData (fn : string) (image_range : Z * Z)
           (pixels_x pixels_y : Z) : result ndarray :=
  '(chunk, _) <- readData_run fn image_range pixels_x pixels_y ;;
  Ok chunk.

End Host.

End Frms6Reader.

(** ** The limits of the runtime *)

(** Above, a struct size, a file offset and the size of an array are
    Python ints without a bound: [calcsize] adds up any size, [seek]
    moves to any offset that is not negative, [np.zeros] allocates any
    shape.  A 64-bit CPython keeps all three in signed 64-bit integers,
    the file system has a largest offset, and memory is finite.  Module
    [Limits] states the calls with these limits, and the frame reader over
    them.  Three numbers describe the machine; the third is 0 on an
    interpreter that prints ints of any length. *)
Record platform :=
  { maxbytes : Z;         (* the largest offset the file system accepts *)
    memory : Z;           (* the largest block the allocator hands out *)
    max_str_digits : Z }. (* [sys.get_int_max_str_digits()] *)

Module Limits.

(** [sys.maxsize]: the largest [Py_ssize_t], [off_t] and [npy_intp]. *)
Definition ssize_max : Z := 2 ^ 63 - 1.

(** The scan of a format string, as [PyStruct.scan], with the overflow
    checks of the interpreter: a repeat count, an aligned offset and the
    running size all stay within [sys.maxsize] ("total struct size too
    long" otherwise). *)
Fixpoint scan (t : PyStruct.table) (fmt : list ascii) (num : option Z)
         (items : list PyStruct.item) (size : Z)
  : result (list PyStruct.item * Z) :=
  match fmt with
  | [] =>
      match num with
      | None => Ok (rev items, size)
      | Some _ => Raise StructError
      end
  | c :: rest =>
      if PyStruct.is_digit c then
        match num with
        | None => scan t rest (Some (PyStruct.digit_val c)) items size
        | Some n =>
            if ssize_max <? 10 * n + PyStruct.digit_val c
            then Raise StructError
            else scan t rest (Some (10 * n + PyStruct.digit_val c)) items size
        end
      else if PyStruct.is_space c
              && (match num with None => true | _ => false end)
      then scan t rest None items size
      else
        match PyStruct.getentry t c with
        | None => Raise StructError
        | Some e =>
            let n := match num with None => 1 | Some n => n end in
            let off := PyStruct.align size e in
            if ssize_max <? off then Raise StructError
            else if (ssize_max - off) / PyStruct.e_size e <? n
            then Raise StructError
            else
              scan t rest None
                   ({| PyStruct.it_count := n; PyStruct.it_code := c;
                       PyStruct.it_offset := off |} :: items)
                   (off + n * PyStruct.e_size e)
        end
  end.

(** [struct.calcsize(fmt)] *)
Definition calcsize (fmt : string) : result Z :=
  let '(t, body) := PyStruct.whichtable (list_ascii_of_string fmt) in
  '(_, size) <- scan t body None [] 0 ;;
  Ok size.

(** Bytes per element. *)
Definition itemsize (dt : dtype) : Z :=
  match dt with
  | Bool8 | Int8 | UInt8 => 1
  | Int16 | UInt16 => 2
  | Int32 | UInt32 | Float32 => 4
  | Int64 | UInt64 | Float64 => 8
  end.

(** The size check numpy makes on a new array: the item size is
    multiplied by one extent after the other, an extent of zero is passed
    over, and neither a negative extent nor a product beyond the largest
    [npy_intp] is accepted. *)
Fixpoint nbytes_checked (dims : list Z) (nbytes : Z) : result Z :=
  match dims with
  | [] => Ok nbytes
  | d :: rest =>
      if d =? 0 then nbytes_checked rest nbytes
      else if d <? 0 then Raise ValueError
      else if ssize_max <? nbytes * d then Raise ValueError
      else nbytes_checked rest (nbytes * d)
  end.

Section Platform.

Variable pf : platform.
Variable host : endianness.
Variable fs : filesystem.

(** [str(n)]: since Python 3.11 an int of more decimal digits than
    [sys.get_int_max_str_digits()] is not printed ([ValueError]).  The
    setting is 4300 unless changed, is never below 640, and 0 lifts the
    limit. *)
Definition str_of_int (n : Z) : result string :=
  if (0 <? max_str_digits pf)
     && (10 ^ Z.max (max_str_digits pf) 640 <=? Z.abs n)
  then Raise ValueError
  else Ok (str_of_int n).

Definition getFrameSizeInBytes (frameWidth frameHeight : Z) : result Z :=
  count <- str_of_int (frameWidth * frameHeight) ;;
  calcsize (count ++ "h")%string.

(** [fh.seek(offset, whence)]: the offset has to fit an [off_t]
    ([ValueError] otherwise), and the position it leads to has to lie
    between 0 and the largest offset of the file system ([OSError]
    otherwise). *)
Definition seek (fh : file_handle) (offset whence : Z) : result file_handle :=
  if (offset <? - ssize_max - 1) || (ssize_max <? offset) then Raise ValueError
  else
    let target := if whence =? 1 then fh_pos fh + offset else offset in
    if (target <? 0) || (maxbytes pf <? target) then Raise OSError
    else Ok {| fh_data := fh_data fh; fh_pos := target;
               fh_reads := fh_reads fh |}.

(** [fh.read(size)]: the bytes object for the result is allocated at
    the requested size before anything is read.  A bytes object holds at
    most [sys.maxsize - 33] bytes ([OverflowError] beyond), and the
    allocation can fail ([MemoryError]). *)
Definition read (fh : file_handle) (size : Z)
  : result (list byte * file_handle) :=
  if size <? -1 then Raise ValueError
  else if ssize_max - 33 <? size then Raise OverflowError
  else if memory pf <? size then Raise MemoryError
  else Ok (read fh size).

(** [np.zeros(shape, dtype)]: every extent has to fit an [npy_intp] and
    the size check has to pass ([ValueError] otherwise); then the block is
    allocated ([MemoryError] when it is not to be had).  An array without
    elements takes a block of a byte or two, which is always granted. *)
Definition np_zeros (dims : list Z) (dt : dtype) : result ndarray :=
  if forallb (fun d => (- ssize_max - 1 <=? d) && (d <=? ssize_max)) dims
  then
    nbytes <- nbytes_checked dims (itemsize dt) ;;
    if negb (existsb (Z.eqb 0) dims) && (memory pf <? nbytes)
    then Raise MemoryError
    else np_zeros dims dt
  else Raise ValueError.

(** One turn of the loop of [readData]. *)
Definition read_frame (frameSizeInBytes pixelsX pixelsY : Z) (frameIdx : Z)
           (s : ndarray * file_handle) : result (ndarray * file_handle) :=
  let '(chunk, fh) := s in
  fh <- seek fh Frms6Reader.frameHeaderSizeInBytes 1 ;;
  '(raw, fh) <- read fh frameSizeInBytes ;;
  currentFrame <- np_frombuffer_uint16 host raw ;;
  currentFrame <- nd_reshape currentFrame [pixelsY; pixelsX] ;;
  chunk <- nd_set_frame chunk frameIdx (np_transpose currentFrame) ;;
  Ok (chunk, fh).

(** [Frms6Reader.readData], returning the handle next to the array. *)
Definition readData_run (fn : string) (image_range : Z * Z)
           (pixels_x pixels_y : Z) : result (ndarray * file_handle) :=
  let '(startIdx, endIdx) := image_range in
  let numberOfFrames := endIdx - startIdx in
  let pixelsX := pixels_x in
  let pixelsY := pixels_y in
  frameSizeInBytes <- getFrameSizeInBytes pixelsX pixelsY ;;
  let offset := Frms6Reader.fileHeaderSizeInBytes in
  let offset :=
    offset + startIdx
             * (Frms6Reader.frameHeaderSizeInBytes + frameSizeInBytes) in
  chunk <- np_zeros [pixelsX; pixelsY; numberOfFrames] UInt16 ;;
  fh <- py_open fs fn ;;
  fh <- seek fh offset 0 ;;
  for_each (py_range numberOfFrames)
           (read_frame frameSizeInBytes pixelsX pixelsY) (chunk, fh).

Definition readData (fn : string) (image_range : Z * Z)
           (pixels_x pixels_y : Z) : result ndarray :=
  '(chunk, _) <- readData_run fn image_range pixels_x pixels_y ;;
  Ok chunk.

End Platform.

End Limits.

(** A machine for the examples: a file system whose largest offset is
    the one of ext4 with 4 KiB blocks, 16 GiB to allocate from, and the
    interpreter's own limit on the digits of an int. *)
Definition example_platform : platform :=
  {| maxbytes := 2 ^ 44 - 4096; memory := 2 ^ 34; max_str_digits := 4300 |}.

(** ** Building files, for the examples *)

Definition zeros (n : nat) : list byte := repeat x00 n.

Definition encode16 (host : endianness) (samples : list Z) : list byte :=
  flat_map (bytes_of_uint host 2) samples.

(** A file header that declares [w] by [h] frames. *)
Definition file_header_bytes (host : endianness) (w h : Z) : list byte :=
  bytes_of_uint host 2 1024 ++ bytes_of_uint host 2 64
    ++ [x01; byte_of_Z w; byte_of_Z h; x01]
    ++ zeros 80 ++ bytes_of_uint host 2 w ++ bytes_of_uint host 2 h
    ++ zeros 932.

(** A frame header whose index field is [i]. *)
Definition frame_header_bytes (host : endianness) (i : Z) : list byte :=
  zeros 12 ++ bytes_of_uint host 4 i ++ zeros 48.

Definition single_file (name : string) (data : list byte) : filesystem :=
  fun fn => if String.eqb fn name then Some data else None.

(** The file of the specification's example: 2 by 2 frames with the
    samples 1..4 and 5..8. *)
Definition example_file (host : endianness) : list byte :=
  file_header_bytes host 2 2
    ++ frame_header_bytes host 0 ++ encode16 host [1; 2; 3; 4]
    ++ frame_header_bytes host 1 ++ encode16 host [5; 6; 7; 8].

Definition example_fs (host : endianness) : filesystem :=
  single_file "run.frms6" (example_file host).


(** ** More numpy: slicing, axes, conversion *)

(** One entry of a basic index: [:] or [a:b]. *)
Definition slice_spec := option (Z * Z).

(** Start and extent of [a:b] on an axis of length [n]: negative bounds
    count from the end, and both are clamped to the axis. *)
Definition slice_bounds (n : nat) (s : slice_spec) : nat * nat :=
  match s with
  | None => (0%nat, n)
  | Some (a, b) =>
      let len := Z.of_nat n in
      let norm i := if i <? 0 then Z.max 0 (i + len) else Z.min i len in
      (Z.to_nat (norm a), Z.to_nat (norm b - norm a))
  end.

(** The bounds on every axis; axes without an entry are taken whole. *)
Fixpoint slice_all (shape : list nat) (sls : list slice_spec)
  : list (nat * nat) :=
  match shape with
  | [] => []
  | n :: rest =>
      match sls with
      | [] => (0%nat, n) :: slice_all rest []
      | s :: ss => slice_bounds n s :: slice_all rest ss
      end
  end.

Fixpoint shift_index (starts idx : list nat) : list nat :=
  match starts, idx with
  | s :: ss, i :: js => (s + i)%nat :: shift_index ss js
  | _, _ => []
  end.

(** [a[s0, s1, ...]] with slices only.  More entries than axes are
    numpy's [IndexError]; on a dataset of the container h5py signals them
    with an exception of its own, which is not told apart here. *)
Definition nd_slice (a : ndarray) (sls : list slice_spec) : result ndarray :=
  if (List.length sls <=? List.length (nd_shape a))%nat
  then
    let bs := slice_all (nd_shape a) sls in
    Ok (nd_make (nd_dtype a) (map snd bs)
          (fun idx => nd_get a (shift_index (map fst bs) idx)))
  else Raise IndexError.

(** [np.squeeze(a)]: the axes of length one removed. *)
Definition np_squeeze (a : ndarray) : ndarray :=
  {| nd_dtype := nd_dtype a;
     nd_shape := filter (fun n => negb (n =? 1)%nat) (nd_shape a);
     nd_data := nd_data a |}.

Fixpoint remove_at {A} (k : nat) (l : list A) : list A :=
  match l, k with
  | [], _ => []
  | _ :: rest, O => rest
  | x :: rest, S j => x :: remove_at j rest
  end.

Fixpoint insert_at {A} (k : nat) (x : A) (l : list A) : list A :=
  match k, l with
  | O, _ => x :: l
  | S j, y :: rest => y :: insert_at j x rest
  | S _, [] => [x]
  end.

(** [np.rollaxis(a, axis)]: the given axis moved to the front. *)
Definition np_rollaxis (a : ndarray) (axis : nat) : result ndarray :=
  match nth_error (nd_shape a) axis with
  | None => Raise AxisError
  | Some n =>
      Ok (nd_make (nd_dtype a) (n :: remove_at axis (nd_shape a))
            (fun idx =>
               match idx with
               | i :: rest => nd_get a (insert_at axis i rest)
               | [] => SInt 0
               end))
  end.

(** The value of a scalar as a binary64. *)
Definition to_float64 (v : scalar) : scalar :=
  match v with
  | SInt z => SFloat (float_of_int z)
  | SFloat f => SFloat f
  end.

(** [np.asarray(a, np.float64)] *)
Definition np_asarray_float64 (a : ndarray) : ndarray :=
  {| nd_dtype := Float64; nd_shape := nd_shape a;
     nd_data := map to_float64 (nd_data a) |}.

(** ** [str.find] and [str.replace] *)

Fixpoint starts_with (p s : list ascii) : bool :=
  match p, s with
  | [], _ => true
  | c :: p', d :: s' => Ascii.eqb c d && starts_with p' s'
  | _ :: _, [] => false
  end.

Fixpoint find_from (sub s : list ascii) (i : Z) : Z :=
  if starts_with sub s then i
  else match s with
       | [] => -1
       | _ :: rest => find_from sub rest (i + 1)
       end.

(** [s.find(sub)] *)
Definition str_find (s sub : string) : Z :=
  find_from (list_ascii_of_string sub) (list_ascii_of_string s) 0.

(** The scan of [replace] for a non-empty [old]: [skip] counts the
    characters of an occurrence still to be dropped. *)
Fixpoint replace_scan (old new s : list ascii) (skip : nat) : list ascii :=
  match s with
  | [] => []
  | c :: rest =>
      match skip with
      | S k => replace_scan old new rest k
      | O =>
          if starts_with old s
          then new ++ replace_scan old new rest (List.length old - 1)
          else c :: replace_scan old new rest 0
      end
  end.

(** [s.replace(old, new)] *)
Definition str_replace (s old new : string) : string :=
  let o := list_ascii_of_string old in
  let n := list_ascii_of_string new in
  let l := list_ascii_of_string s in
  string_of_list_ascii
    (match o with
     | [] => n ++ flat_map (fun c => c :: n) l
     | _ => replace_scan o n l 0
     end).

(** ** The container readers *)

(** What [h5py.File] is called with: the name, and the [family] driver
    with its member size when the file is a family. *)
Record h5_request :=
  { rq_name : string; rq_family : bool; rq_memb_size : option Z }.

(** An open container: its datasets by path. *)
Definition h5file := dict ndarray.

Record kwargs :=
  { image_range : option (Z * Z);
    x_range : option (Z * Z);
    y_range : option (Z * Z);
    pixels_x : option Z;
    pixels_y : option Z;
    simulated : bool }.

(** The call of [h5py.File] both readers start with. *)
Definition container_request (filename : string) : h5_request :=
  if negb (str_find filename "00000" =? -1) then
    let filenameFam := str_replace filename "00000" "%05d" in
    {| rq_name := filenameFam; rq_family := true;
       rq_memb_size := Some (20 * 1024 ^ 3) |}
  else
    {| rq_name := filename; rq_family := false; rq_memb_size := None |}.

Section Container.

(** The container library: what opening a request yields. *)
Variable h5py_File : h5_request -> result h5file.

Definition readData (filename path : string) (kw : kwargs) : result ndarray :=
  let imageRange := image_range kw in
  let pixelXRange := x_range kw in
  let pixelYRange := y_range kw in
  f <- h5py_File (container_request filename) ;;
  din <- match imageRange with
         | None => dict_get f path
         | Some (lo, hi) =>
             ds <- dict_get f path ;;
             if negb (simulated kw)
             then nd_slice ds [None; None; Some (lo, hi)]
             else nd_slice ds [Some (lo, hi); None; None]
         end ;;
  din <- (if simulated kw then
            let din := np_squeeze din in
            din <- np_rollaxis din 2 ;;
            din <- np_rollaxis din 2 ;;
            din <- np_rollaxis din 1 ;;
            Ok din
          else Ok din) ;;
  d <- match pixelXRange, pixelYRange with
       | None, None => nd_slice din [None; None; None]
       | Some xr, Some yr => nd_slice din [Some xr; Some yr; None]
       | _, _ => Raise TypeError
       end ;;
  Ok (np_asarray_float64 d).

Definition getDataSize (filename path : string) : result (list nat) :=
  f <- h5py_File (container_request filename) ;;
  ds <- dict_get f path ;;
  Ok (nd_shape ds).

End Container.

(** A container library that serves one stored dataset, under
    [/stream], whatever the request. *)
Definition example_dataset : ndarray :=
  nd_make UInt16 [2; 3; 4]%nat
    (fun idx => SInt (Z.of_nat (offset_of [2; 3; 4]%nat idx))).

Definition example_h5 (rq : h5_request) : result h5file :=
  Ok [("/stream"%string, example_dataset)].

Definition no_kwargs : kwargs :=
  {| image_range := None; x_range := None; y_range := None;
     pixels_x := None; pixels_y := None; simulated := false |}.
(** ** The layout of a file, for the statements *)

(** Size of one record: a frame header and its payload. *)
Definition recordSize (pixelsX pixelsY : Z) : Z :=
  Frms6Reader.frameHeaderSizeInBytes + pixelsX * pixelsY * 2.

(** Where the record of frame [k] starts. *)
Definition frame_offset (pixelsX pixelsY k : Z) : Z :=
  Frms6Reader.fileHeaderSizeInBytes + k * recordSize pixelsX pixelsY.

(** The header bytes of frame [k]. *)
Definition frame_header (data : list byte) (pixelsX pixelsY k : Z) : list byte :=
  bytes_slice (frame_offset pixelsX pixelsY k)
              Frms6Reader.frameHeaderSizeInBytes data.

(** The payload bytes of frame [k]. *)
Definition frame_payload (data : list byte) (pixelsX pixelsY k : Z) : list byte :=
  bytes_slice (frame_offset pixelsX pixelsY k + Frms6Reader.frameHeaderSizeInBytes)
              (pixelsX * pixelsY * 2) data.

(** The sample of frame [k] at column [x] of line [y]: the payload is
    line after line. *)
Definition frame_sample (host : endianness) (data : list byte)
           (pixelsX pixelsY k : Z) (x y : nat) : scalar :=
  nth (y * Z.to_nat pixelsX + x)
      (samples16 host (frame_payload data pixelsX pixelsY k)) (SInt 0).

(** The payload reads of [j] consecutive frames from frame [a] on, latest
    first. *)
Definition payload_reads (pixelsX pixelsY a : Z) (j : nat) : list (Z * Z) :=
  rev (map (fun k => (frame_offset pixelsX pixelsY (a + Z.of_nat k)
                      + Frms6Reader.frameHeaderSizeInBytes,
                      pixelsX * pixelsY * 2))
           (seq 0 j)).

(** The header reads of a scan of [j] frames, latest first. *)
Definition header_reads (pixelsX pixelsY : Z) (j : nat) : list (Z * Z) :=
  rev (map (fun k => (frame_offset pixelsX pixelsY (Z.of_nat k),
                      Frms6Reader.frameHeaderSizeInBytes))
           (seq 0 j)).

(** [chunk[:, :, k]] *)
Definition nd_frame (chunk : ndarray) (k : nat) : ndarray :=
  nd_make (nd_dtype chunk) (firstn 2 (nd_shape chunk))
          (fun idx => nd_get chunk (idx ++ [k])).

(** A 2-D array as the list of its rows. *)
Definition nd_rows (a : ndarray) : list (list scalar) :=
  match nd_shape a with
  | [r; c] => map (fun i => map (fun j => nd_get a [i; j]) (seq 0 c)) (seq 0 r)
  | _ => []
  end.

(** Width and height as the file header declares them. *)
Definition declared_width (host : endianness) (data : list byte) : Z :=
  uint_of_bytes host (bytes_slice 88 2 data).

Definition declared_height (host : endianness) (data : list byte) : Z :=
  uint_of_bytes host (bytes_slice 90 2 data).

(** Item [i] of the unpacked header of frame [k]. *)
Definition header_item (host : endianness) (data : list byte)
           (pixelsX pixelsY : Z) (k : nat) (i : nat) : PyStruct.value :=
  match PyStruct.unpack host Frms6Reader.frameHeaderFormat
          (frame_header data pixelsX pixelsY (Z.of_nat k)) with
  | Ok items => nth i items (PyStruct.VInt 0)
  | Raise _ => PyStruct.VInt 0
  end.

(** What [readData] assembles from frame [a] on: element [[x; y; k]] is
    the sample of frame [a + k] at column [x] of line [y]. *)
Definition chunk_of (host : endianness) (data : list byte)
           (pixelsX pixelsY a : Z) (n : nat) : ndarray :=
  nd_make UInt16 [Z.to_nat pixelsX; Z.to_nat pixelsY; n]
    (fun idx =>
       match idx with
       | [x; y; k] => frame_sample host data pixelsX pixelsY (a + Z.of_nat k) x y
       | _ => SInt 0
       end).

(** The array of [readData] after [j] turns of its loop. *)
Definition partial_chunk (host : endianness) (data : list byte)
           (pixelsX pixelsY a : Z) (n j : nat) : ndarray :=
  nd_make UInt16 [Z.to_nat pixelsX; Z.to_nat pixelsY; n]
    (fun idx =>
       match idx with
       | [x; y; k] =>
           if (k <? j)%nat
           then frame_sample host data pixelsX pixelsY (a + Z.of_nat k) x y
           else SInt 0
       | _ => SInt 0
       end).

(** The example file without its last byte. *)
Definition truncated_example (host : endianness) : list byte :=
  removelast (example_file host).

(** The state of the scan of [getFrameHeaders] after [j] turns. *)
Definition scan_state_after (host : endianness) (data : list byte)
           (pixelsX pixelsY : Z) (j : nat) : Frms6Reader.scan_state :=
  let column i := map (fun k => header_item host data pixelsX pixelsY k i) (seq 0 j) in
  {| Frms6Reader.frameStart := column 0%nat;
     Frms6Reader.frameInfo := column 1%nat;
     Frms6Reader.frameId := column 2%nat;
     Frms6Reader.frameHeight := column 3%nat;
     Frms6Reader.frameTvSec := column 4%nat;
     Frms6Reader.frameTvUsec := column 5%nat;
     Frms6Reader.frameIndex := column 6%nat;
     Frms6Reader.frameTemp := column 7%nat;
     Frms6Reader.frameMaxHeight := column 8%nat;
     Frms6Reader.scan_fh :=
       {| fh_data := data;
          fh_pos := frame_offset pixelsX pixelsY (Z.of_nat j);
          fh_reads := header_reads pixelsX pixelsY j |} |}.

(** ** Occurrences of a substring, for the statements *)

(** [sub] occurs in [s]. *)
Definition occurs_in (sub s : list ascii) : Prop :=
  exists pre post, s = (pre ++ sub ++ post)%list.

Definition occurs (sub s : string) : Prop :=
  occurs_in (list_ascii_of_string sub) (list_ascii_of_string s).

(** The segments joined by a separator. *)
Fixpoint join (sep : list ascii) (segs : list (list ascii)) : list ascii :=
  match segs with
  | [] => []
  | seg :: rest =>
      match rest with
      | [] => seg
      | _ => (seg ++ sep ++ join sep rest)%list
      end
  end.

(** The cuts [str.replace] makes: every piece but the last, followed
    by all of [old] but its last character, is free of [old], so that
    the occurrence cut out after a piece is the first one that ends
    after it; the last piece is free of [old]. *)
Fixpoint leftmost_cut (old : list ascii) (segs : list (list ascii)) : Prop :=
  match segs with
  | [] => True
  | seg :: rest =>
      match rest with
      | [] => ~ occurs_in old seg
      | _ => ~ occurs_in old (seg ++ removelast old)%list
             /\ leftmost_cut old rest
      end
  end.

Definition is_float (v : scalar) : bool :=
  match v with SFloat _ => true | SInt _ => false end.

(** A 16-bit sample. *)
Definition is_uint16 (v : scalar) : Prop :=
  match v with
  | SInt z => 0 <= z < 65536
  | SFloat _ => False
  end.

(** * Properties *)

(** ** Results *)

Lemma bind_ok {A B} (r : result A) (k : A -> result B) (b : B) :
  bind r k = Ok b -> exists a, r = Ok a /\ k a = Ok b.
Proof.
  destruct r as [a|e]; simpl; intros H; [eauto | discriminate].
Qed.

(** ** The layouts *)

Lemma fileHeaderSizeInBytes_eq : Frms6Reader.fileHeaderSizeInBytes = 1024.
Proof. reflexivity. Qed.

Lemma frameHeaderSizeInBytes_eq : Frms6Reader.frameHeaderSizeInBytes = 64.
Proof. reflexivity. Qed.

(** ** [str] of an int, read back by [struct] *)

Lemma digit_char_is_digit d :
  0 <= d < 10 ->
  PyStruct.is_digit (digit_char d) = true /\ PyStruct.digit_val (digit_char d) = d.
Proof.
  intros H.
  assert (E : d = 0 \/ d = 1 \/ d = 2 \/ d = 3 \/ d = 4 \/ d = 5 \/ d = 6
              \/ d = 7 \/ d = 8 \/ d = 9) by lia.
  repeat (destruct E as [E | E]; [subst d; split; reflexivity |]).
  subst d; split; reflexivity.
Qed.

Lemma whichtable_digit c rest :
  PyStruct.is_digit c = true ->
  PyStruct.whichtable (c :: rest)
  = ({| PyStruct.tbl_native := true; PyStruct.tbl_order := PyStruct.NativeOrder |},
     c :: rest).
Proof.
  destruct c as [[] [] [] [] [] [] [] []]; intros H;
    first [discriminate H | reflexivity].
Qed.

Lemma digits_acc_head f n acc :
  0 <= n ->
  exists d rest, digits_acc (S f) n acc = d :: rest /\ PyStruct.is_digit d = true.
Proof.
  revert n acc. induction f as [|f IH]; intros n acc Hn.
  - simpl. destruct (n <? 10);
      (do 2 eexists; split; [reflexivity |];
       apply digit_char_is_digit, Z.mod_pos_bound; lia).
  - change (digits_acc (S (S f)) n acc)
      with (let acc' := digit_char (n mod 10) :: acc in
            if n <? 10 then acc' else digits_acc (S f) (n / 10) acc').
    cbv zeta. destruct (n <? 10).
    + do 2 eexists; split; [reflexivity |].
      apply digit_char_is_digit, Z.mod_pos_bound; lia.
    + apply IH. apply Z.div_pos; lia.
Qed.

Lemma scan_digit t d rest num items size :
  0 <= d < 10 ->
  PyStruct.scan t (digit_char d :: rest) num items size
  = PyStruct.scan t rest
      (Some (10 * match num with None => 0 | Some n => n end + d)) items size.
Proof.
  intros H. destruct (digit_char_is_digit d H) as [H1 H2].
  simpl. rewrite H1, H2. reflexivity.
Qed.

(** The scan reads the digits [str] printed back as the number. *)
Lemma scan_digits t f n acc items size :
  0 <= n < 10 ^ Z.of_nat (S f) ->
  PyStruct.scan t (digits_acc (S f) n acc) None items size
  = PyStruct.scan t acc (Some n) items size.
Proof.
  revert n acc. induction f as [|f IH]; intros n acc Hn.
  - change (10 ^ Z.of_nat 1) with 10 in Hn.
    simpl. replace (n <? 10) with true by (symmetry; apply Z.ltb_lt; lia).
    rewrite scan_digit by (apply Z.mod_pos_bound; lia).
    rewrite Z.mod_small by lia. reflexivity.
  - change (digits_acc (S (S f)) n acc)
      with (let acc' := digit_char (n mod 10) :: acc in
            if n <? 10 then acc' else digits_acc (S f) (n / 10) acc').
    cbv zeta. destruct (Z.ltb_spec n 10) as [Hlt | Hge].
    + rewrite scan_digit by (apply Z.mod_pos_bound; lia).
      rewrite Z.mod_small by lia. reflexivity.
    + rewrite IH.
      * rewrite scan_digit by (apply Z.mod_pos_bound; lia).
        f_equal. f_equal. pose proof (Z.div_mod n 10). lia.
      * split; [apply Z.div_pos; lia |].
        apply Z.div_lt_upper_bound; [lia |].
        rewrite (Nat2Z.inj_succ (S f)), Z.pow_succ_r in Hn by lia. lia.
Qed.

Lemma lt_pow10_log2 n : 0 <= n -> n < 10 ^ Z.of_nat (S (Z.to_nat (Z.log2 n))).
Proof.
  intros Hn. rewrite Nat2Z.inj_succ, Z2Nat.id by apply Z.log2_nonneg.
  destruct (Z.eq_dec n 0) as [-> | Hnz]; [reflexivity |].
  pose proof (Z.log2_spec n ltac:(lia)) as [_ Hup].
  eapply Z.lt_le_trans; [exact Hup |].
  apply Z.pow_le_mono_l. lia.
Qed.

Lemma list_ascii_of_string_app s1 s2 :
  list_ascii_of_string (s1 ++ s2)
  = (list_ascii_of_string s1 ++ list_ascii_of_string s2)%list.
Proof. induction s1 as [|c s1 IH]; simpl; [reflexivity | now rewrite IH]. Qed.

Lemma digits_acc_app f n acc l :
  (digits_acc f n acc ++ l)%list = digits_acc f n (acc ++ l)%list.
Proof.
  revert n acc. induction f as [|f IH]; intros n acc; simpl; [reflexivity |].
  destruct (n <? 10); [reflexivity | apply IH].
Qed.

(** [calcsize] of a count followed by [h]. *)
Lemma calcsize_count_h n :
  0 <= n -> PyStruct.calcsize (str_of_int n ++ "h") = Ok (n * 2).
Proof.
  intros Hn. unfold PyStruct.calcsize, PyStruct.prepare, str_of_int.
  replace (n <? 0) with false by (symmetry; apply Z.ltb_ge; lia).
  rewrite Z.abs_eq by lia.
  rewrite list_ascii_of_string_app, list_ascii_of_string_of_list_ascii.
  rewrite digits_acc_app. simpl app.
  destruct (digits_acc_head (Z.to_nat (Z.log2 n)) n ["h"%char] Hn)
    as (d & rest & E & Hd).
  rewrite E, (whichtable_digit _ _ Hd), <- E.
  rewrite scan_digits by (split; [lia | apply lt_pow10_log2; lia]).
  simpl. f_equal; lia.
Qed.

Lemma getFrameSizeInBytes_ok (frameWidth frameHeight : Z) :
  0 <= frameWidth -> 0 <= frameHeight ->
  Frms6Reader.getFrameSizeInBytes frameWidth frameHeight
  = Ok (frameWidth * frameHeight * 2).
Proof.
  intros Hw Hh. unfold Frms6Reader.getFrameSizeInBytes.
  apply calcsize_count_h. apply Z.mul_nonneg_nonneg; assumption.
Qed.

(** A negative count is no format: [calcsize] returns only on a product
    that is not negative. *)
Lemma getFrameSizeInBytes_negative (frameWidth frameHeight : Z) :
  frameWidth * frameHeight < 0 ->
  Frms6Reader.getFrameSizeInBytes frameWidth frameHeight = Raise StructError.
Proof.
  intros Hneg. unfold Frms6Reader.getFrameSizeInBytes, PyStruct.calcsize,
    PyStruct.prepare, str_of_int.
  replace (frameWidth * frameHeight <? 0) with true
    by (symmetry; apply Z.ltb_lt; lia).
  rewrite list_ascii_of_string_app, list_ascii_of_string_of_list_ascii.
  reflexivity.
Qed.

(** ** Index arithmetic of arrays *)

Lemma length_indices shape : List.length (indices shape) = size_of shape.
Proof.
  induction shape as [|n rest IH]; [reflexivity |].
  simpl. generalize 0%nat. induction n as [|n IHn]; intros s; [reflexivity |].
  simpl. rewrite length_app, length_map, IH, IHn. reflexivity.
Qed.

Lemma nth_error_flat_map_seq {B} (g : nat -> list B) (m : nat) :
  (forall i, List.length (g i) = m) ->
  forall n s i j, (i < n)%nat -> (j < m)%nat ->
    nth_error (flat_map g (seq s n)) (i * m + j) = nth_error (g (s + i)%nat) j.
Proof.
  intros Hlen. induction n as [|n IH]; intros s i j Hi Hj; [lia |].
  simpl. destruct i as [|i].
  - rewrite nth_error_app1 by (rewrite Hlen; exact Hj).
    now rewrite Nat.add_0_r.
  - rewrite nth_error_app2 by (rewrite Hlen; simpl; lia).
    rewrite Hlen. replace (S i * m + j - m)%nat with (i * m + j)%nat by (simpl; lia).
    rewrite IH by lia. f_equal. f_equal. lia.
Qed.

Lemma offset_of_lt shape idx :
  in_bounds shape idx = true -> (offset_of shape idx < size_of shape)%nat.
Proof.
  revert idx. induction shape as [|n rest IH]; intros [|i js] H;
    simpl in *; try discriminate; [lia |].
  apply andb_prop in H as [Hi Hr]. apply Nat.ltb_lt in Hi.
  specialize (IH _ Hr). nia.
Qed.

Lemma nth_error_indices shape idx :
  in_bounds shape idx = true ->
  nth_error (indices shape) (offset_of shape idx) = Some idx.
Proof.
  revert idx. induction shape as [|n rest IH]; intros [|i js] H;
    simpl in *; try discriminate; [reflexivity |].
  apply andb_prop in H as [Hi Hr]. apply Nat.ltb_lt in Hi.
  rewrite (nth_error_flat_map_seq _ (size_of rest)).
  - simpl. rewrite nth_error_map, (IH _ Hr). reflexivity.
  - intros k. now rewrite length_map, length_indices.
  - exact Hi.
  - now apply offset_of_lt.
Qed.

Lemma In_indices shape idx :
  In idx (indices shape) -> in_bounds shape idx = true.
Proof.
  revert idx. induction shape as [|n rest IH]; intros idx H; simpl in *.
  - destruct H as [<- | []]. reflexivity.
  - apply in_flat_map in H as (i & Hi & H).
    apply in_map_iff in H as (js & <- & Hjs).
    apply in_seq in Hi. simpl.
    rewrite (IH _ Hjs), andb_true_r. apply Nat.ltb_lt. lia.
Qed.

Lemma nd_get_make dt shape f idx :
  in_bounds shape idx = true -> nd_get (nd_make dt shape f) idx = f idx.
Proof.
  intros H. unfold nd_get, nd_make. simpl.
  apply nth_error_nth. rewrite nth_error_map, (nth_error_indices _ _ H).
  reflexivity.
Qed.

Lemma nd_make_ext dt shape f g :
  (forall idx, in_bounds shape idx = true -> f idx = g idx) ->
  nd_make dt shape f = nd_make dt shape g.
Proof.
  intros H. unfold nd_make. f_equal. apply map_ext_in.
  intros idx Hin. apply H, In_indices, Hin.
Qed.

Lemma in_bounds3 nx ny n idx :
  in_bounds [nx; ny; n] idx = true ->
  exists x y k, idx = [x; y; k] /\ (x < nx)%nat /\ (y < ny)%nat /\ (k < n)%nat.
Proof.
  destruct idx as [|x [|y [|k [|? ?]]]]; simpl; try discriminate;
    try (intros H; apply andb_prop in H as [_ H]; try apply andb_prop in H as [_ H];
         try apply andb_prop in H as [_ H]; discriminate).
  intros H. apply andb_prop in H as [Hx H]. apply andb_prop in H as [Hy H].
  apply andb_prop in H as [Hk _].
  apply Nat.ltb_lt in Hx, Hy, Hk. eauto 8.
Qed.

Lemma in_bounds3_intro nx ny n x y k :
  (x < nx)%nat -> (y < ny)%nat -> (k < n)%nat ->
  in_bounds [nx; ny; n] [x; y; k] = true.
Proof.
  intros Hx Hy Hk. simpl.
  apply Nat.ltb_lt in Hx, Hy, Hk. now rewrite Hx, Hy, Hk.
Qed.

(** ** Reading from a handle *)

Lemma Zlength_nonneg {A} (l : list A) : 0 <= Zlength l.
Proof. unfold Zlength. lia. Qed.

Lemma seek_rel data pos reads off :
  0 <= pos + off ->
  seek {| fh_data := data; fh_pos := pos; fh_reads := reads |} off 1
  = Ok {| fh_data := data; fh_pos := pos + off; fh_reads := reads |}.
Proof.
  intros H. unfold seek. simpl.
  replace (pos + off <? 0) with false by (symmetry; apply Z.ltb_ge; lia).
  reflexivity.
Qed.

Lemma seek_abs data pos reads off :
  0 <= off ->
  seek {| fh_data := data; fh_pos := pos; fh_reads := reads |} off 0
  = Ok {| fh_data := data; fh_pos := off; fh_reads := reads |}.
Proof.
  intros H. unfold seek. simpl.
  replace (off <? 0) with false by (symmetry; apply Z.ltb_ge; lia).
  reflexivity.
Qed.

Lemma bytes_slice_length {A} (i len : Z) (bs : list A) :
  0 <= i -> 0 <= len -> i + len <= Zlength bs ->
  Zlength (bytes_slice i len bs) = len.
Proof.
  intros Hi Hl Hb. unfold bytes_slice, Zlength in *.
  rewrite length_firstn, length_skipn. lia.
Qed.

Lemma read_exact data pos reads size :
  0 <= pos -> 0 <= size -> pos + size <= Zlength data ->
  read {| fh_data := data; fh_pos := pos; fh_reads := reads |} size
  = (bytes_slice pos size data,
     {| fh_data := data; fh_pos := pos + size;
        fh_reads := (pos, size) :: reads |}).
Proof.
  intros Hp Hs Hb. unfold read. simpl.
  replace (size <? 0) with false by (symmetry; apply Z.ltb_ge; lia).
  fold (bytes_slice pos size data).
  now rewrite bytes_slice_length.
Qed.

Lemma samples16_length host n : forall buf,
  List.length buf = (2 * n)%nat -> List.length (samples16 host buf) = n.
Proof.
  induction n as [|n IH]; intros buf H.
  - destruct buf; [reflexivity | discriminate].
  - destruct buf as [|b0 [|b1 rest]]; simpl in H; try lia.
    simpl. f_equal. apply IH. lia.
Qed.

Lemma frombuffer_ok host buf c :
  0 <= c -> Zlength buf = c * 2 ->
  np_frombuffer_uint16 host buf
  = Ok {| nd_dtype := UInt16; nd_shape := [Z.to_nat c];
          nd_data := samples16 host buf |}.
Proof.
  intros Hc Hl. unfold np_frombuffer_uint16.
  rewrite Hl, Z.mod_mul by lia. simpl.
  rewrite (samples16_length host (Z.to_nat c)); [reflexivity |].
  unfold Zlength in Hl. lia.
Qed.

Lemma check_shape_ok dims :
  Forall (fun d => 0 <= d) dims -> check_shape dims = Ok (map Z.to_nat dims).
Proof.
  intros H. unfold check_shape.
  replace (forallb (fun d => 0 <=? d) dims) with true; [reflexivity |].
  symmetry. apply forallb_forall. intros d Hd.
  rewrite Forall_forall in H. apply Z.leb_le, H, Hd.
Qed.

(** One turn of the loop of [readData] on a file that holds the frame. *)
Lemma read_frame_step host data X Y n a j reads f :
  0 <= X -> 0 <= Y ->
  0 <= frame_offset X Y (a + Z.of_nat j) ->
  frame_offset X Y (a + Z.of_nat j + 1) <= Zlength data ->
  (j < n)%nat ->
  Frms6Reader.read_frame host (X * Y * 2) X Y (Z.of_nat j)
    (nd_make UInt16 [Z.to_nat X; Z.to_nat Y; n] f,
     {| fh_data := data; fh_pos := frame_offset X Y (a + Z.of_nat j);
        fh_reads := reads |})
  = Ok (nd_make UInt16 [Z.to_nat X; Z.to_nat Y; n]
          (fun idx =>
             match idx with
             | [x; y; k] =>
                 if (k =? j)%nat
                 then frame_sample host data X Y (a + Z.of_nat j) x y
                 else f idx
             | _ => f idx
             end),
        {| fh_data := data; fh_pos := frame_offset X Y (a + Z.of_nat j + 1);
           fh_reads :=
             (frame_offset X Y (a + Z.of_nat j)
              + Frms6Reader.frameHeaderSizeInBytes, X * Y * 2) :: reads |}).
Proof.
  intros HX HY Hoff Hend Hj.
  assert (HXY : 0 <= X * Y) by (apply Z.mul_nonneg_nonneg; assumption).
  assert (Hnext : frame_offset X Y (a + Z.of_nat j + 1)
                  = frame_offset X Y (a + Z.of_nat j)
                    + Frms6Reader.frameHeaderSizeInBytes + X * Y * 2).
  { unfold frame_offset, recordSize. lia. }
  pose proof frameHeaderSizeInBytes_eq as H64.
  unfold Frms6Reader.read_frame.
  rewrite seek_rel by lia. cbn [bind].
  rewrite read_exact by lia.
  fold (frame_payload data X Y (a + Z.of_nat j)).
  rewrite (frombuffer_ok host _ (X * Y))
    by (try lia; apply bytes_slice_length; lia).
  cbn [bind]. unfold nd_reshape.
  rewrite check_shape_ok by (repeat constructor; assumption).
  cbn [bind map nd_data size_of fold_right].
  rewrite (samples16_length host (Z.to_nat (X * Y)))
    by (pose proof (bytes_slice_length
                      (frame_offset X Y (a + Z.of_nat j)
                       + Frms6Reader.frameHeaderSizeInBytes)
                      (X * Y * 2) data ltac:(lia) ltac:(lia) ltac:(lia)) as Hl;
        unfold frame_payload, Zlength in *; lia).
  replace (Z.to_nat Y * (Z.to_nat X * 1) =? Z.to_nat (X * Y))%nat with true
    by (symmetry; apply Nat.eqb_eq; rewrite Z2Nat.inj_mul by lia; lia).
  cbn [bind nd_dtype]. unfold nd_set_frame, np_transpose.
  cbn [nd_shape nd_make nd_dtype rev app].
  replace (Z.of_nat j <? 0) with false by (symmetry; apply Z.ltb_ge; lia).
  cbv zeta.
  replace ((Z.of_nat j <? 0) || (Z.of_nat n <=? Z.of_nat j)) with false
    by (symmetry; apply orb_false_iff; split;
        [apply Z.ltb_ge | apply Z.leb_gt]; lia).
  destruct (list_eq_dec Nat.eq_dec [Z.to_nat X; Z.to_nat Y]
                        [Z.to_nat X; Z.to_nat Y]) as [_ | Hne];
    [| exfalso; apply Hne; reflexivity].
  cbn [bind]. rewrite Hnext. f_equal. f_equal.
  apply nd_make_ext. intros idx Hb.
  apply in_bounds3 in Hb as (x & y & k & -> & Hx & Hy & Hk).
  rewrite Nat2Z.id.
  destruct (k =? j)%nat.
  - rewrite nd_get_make
      by (simpl; apply andb_true_intro; split;
          [apply Nat.ltb_lt; lia
          | apply andb_true_intro; split; [apply Nat.ltb_lt; lia | reflexivity]]).
    unfold nd_get, frame_sample. simpl. f_equal. lia.
  - apply nd_get_make. now apply in_bounds3_intro.
Qed.

Lemma recordSize_pos X Y : 0 <= X -> 0 <= Y -> 0 < recordSize X Y.
Proof.
  intros HX HY. unfold recordSize. rewrite frameHeaderSizeInBytes_eq.
  pose proof (Z.mul_nonneg_nonneg X Y HX HY). lia.
Qed.

Lemma frame_offset_add X Y a k :
  frame_offset X Y (a + k) = frame_offset X Y a + k * recordSize X Y.
Proof. unfold frame_offset. lia. Qed.

(** The loop of [readData] from turn [j] on. *)
Lemma read_loop host data X Y n a :
  0 <= X -> 0 <= Y -> 0 <= frame_offset X Y a ->
  ((0 < n)%nat -> frame_offset X Y (a + Z.of_nat n) <= Zlength data) ->
  forall m j reads, (j + m = n)%nat ->
    for_each (map Z.of_nat (seq j m))
      (Frms6Reader.read_frame host (X * Y * 2) X Y)
      (partial_chunk host data X Y a n j,
       {| fh_data := data; fh_pos := frame_offset X Y (a + Z.of_nat j);
          fh_reads := reads |})
    = Ok (partial_chunk host data X Y a n n,
          {| fh_data := data; fh_pos := frame_offset X Y (a + Z.of_nat n);
             fh_reads :=
               rev (map (fun k =>
                           (frame_offset X Y (a + Z.of_nat k)
                            + Frms6Reader.frameHeaderSizeInBytes, X * Y * 2))
                        (seq j m)) ++ reads |}).
Proof.
  intros HX HY Hoff Hend.
  pose proof (recordSize_pos X Y HX HY) as Hrec.
  induction m as [|m IH]; intros j reads Hjm.
  - replace j with n by lia. reflexivity.
  - cbn [seq map for_each]. unfold partial_chunk at 1.
    rewrite (read_frame_step host data X Y n a j reads).
    + cbn [bind].
      replace (a + Z.of_nat j + 1) with (a + Z.of_nat (S j)) by lia.
      match goal with
      | |- for_each _ _ (?c, _) = _ =>
          replace c with (partial_chunk host data X Y a n (S j))
      end.
      * rewrite IH by lia. f_equal. f_equal. f_equal.
        cbn [rev map]. now rewrite <- app_assoc.
      * apply nd_make_ext. intros idx Hb.
        apply in_bounds3 in Hb as (x & y & k & -> & Hx & Hy & Hk).
        destruct (Nat.eqb_spec k j) as [-> | Hne].
        -- replace (j <? S j)%nat with true
             by (symmetry; apply Nat.ltb_lt; lia).
           reflexivity.
        -- destruct (Nat.ltb_spec k (S j)), (Nat.ltb_spec k j);
             first [reflexivity | lia].
    + exact HX.
    + exact HY.
    + rewrite frame_offset_add. nia.
    + specialize (Hend ltac:(lia)).
      rewrite frame_offset_add in Hend |- *.
      assert ((Z.of_nat j + 1) * recordSize X Y <= Z.of_nat n * recordSize X Y)
        by (apply Z.mul_le_mono_nonneg_r; lia).
      replace (a + Z.of_nat j + 1) with (a + (Z.of_nat j + 1)) by lia.
      rewrite frame_offset_add. lia.
    + lia.
Qed.

(** [readData] on a file that holds the frames of the range. *)
Lemma readData_run_ok host fs fn data X Y a b :
  fs fn = Some data -> 0 <= X -> 0 <= Y -> a <= b ->
  0 <= frame_offset X Y a ->
  (a < b -> frame_offset X Y b <= Zlength data) ->
  Frms6Reader.readData_run host fs fn (a, b) X Y
  = Ok (chunk_of host data X Y a (Z.to_nat (b - a)),
        {| fh_data := data; fh_pos := frame_offset X Y b;
           fh_reads := payload_reads X Y a (Z.to_nat (b - a)) |}).
Proof.
  intros Hfs HX HY Hab Hoff Hend.
  unfold Frms6Reader.readData_run.
  rewrite getFrameSizeInBytes_ok by assumption. cbn [bind].
  unfold np_zeros.
  rewrite check_shape_ok by (repeat constructor; lia).
  cbn [bind map]. unfold py_open. rewrite Hfs. cbn [bind].
  fold (recordSize X Y). fold (frame_offset X Y a).
  rewrite seek_abs by exact Hoff. cbn [bind]. unfold py_range.
  set (n := Z.to_nat (b - a)).
  replace (nd_make UInt16 [Z.to_nat X; Z.to_nat Y; n] (fun _ => SInt 0))
    with (partial_chunk host data X Y a n 0).
  2:{ apply nd_make_ext. intros idx Hb.
      apply in_bounds3 in Hb as (x & y & k & -> & _). reflexivity. }
  replace (frame_offset X Y a) with (frame_offset X Y (a + Z.of_nat 0%nat))
    by (f_equal; lia).
  rewrite (read_loop host data X Y n a HX HY Hoff).
  - rewrite app_nil_r. unfold payload_reads. f_equal. f_equal.
    + apply nd_make_ext. intros idx Hb.
      apply in_bounds3 in Hb as (x & y & k & -> & Hx & Hy & Hk).
      replace (k <? n)%nat with true by (symmetry; apply Nat.ltb_lt; lia).
      reflexivity.
    + f_equal. f_equal. subst n. lia.
  - intros Hn. subst n. replace (a + Z.of_nat (Z.to_nat (b - a))) with b by lia.
    apply Hend. lia.
  - lia.
Qed.

Lemma readData_ok host fs fn data X Y a b :
  fs fn = Some data -> 0 <= X -> 0 <= Y -> a <= b ->
  0 <= frame_offset X Y a ->
  (a < b -> frame_offset X Y b <= Zlength data) ->
  Frms6Reader.readData host fs fn (a, b) X Y
  = Ok (chunk_of host data X Y a (Z.to_nat (b - a))).
Proof.
  intros. unfold Frms6Reader.readData.
  now rewrite (readData_run_ok host fs fn data X Y a b).
Qed.

Lemma frame_offset_nonneg X Y a : 0 <= X -> 0 <= Y -> 0 <= a -> 0 <= frame_offset X Y a.
Proof.
  intros HX HY Ha. pose proof (recordSize_pos X Y HX HY).
  unfold frame_offset. rewrite fileHeaderSizeInBytes_eq. nia.
Qed.

Lemma in_bounds2 nx ny idx :
  in_bounds [nx; ny] idx = true ->
  exists x y, idx = [x; y] /\ (x < nx)%nat /\ (y < ny)%nat.
Proof.
  destruct idx as [|x [|y [|? ?]]]; simpl; try discriminate;
    try (intros H; apply andb_prop in H as [_ H];
         try apply andb_prop in H as [_ H]; discriminate).
  intros H. apply andb_prop in H as [Hx H]. apply andb_prop in H as [Hy _].
  apply Nat.ltb_lt in Hx, Hy. eauto.
Qed.

(** C2: every frame [readData] reads is the flat run of 16-bit samples of
    its payload, reshaped line by line into (height, width), transposed
    to (width, height) and stored at the frame's place on the third axis;
    and the two frames 1..4 and 5..8 of the 2 by 2 example come out as
    [[1,3],[2,4]] and [[5,7],[6,8]]. *)
Theorem readData_reshapes_then_transposes :
  (forall host fs fn data X Y a b,
      fs fn = Some data -> 0 <= X -> 0 <= Y -> 0 <= a <= b ->
      frame_offset X Y b <= Zlength data ->
      exists chunk,
        Frms6Reader.readData host fs fn (a, b) X Y = Ok chunk /\
        nd_dtype chunk = UInt16 /\
        nd_shape chunk = [Z.to_nat X; Z.to_nat Y; Z.to_nat (b - a)] /\
        forall k, (k < Z.to_nat (b - a))%nat ->
          exists flat shaped,
            np_frombuffer_uint16 host (frame_payload data X Y (a + Z.of_nat k))
            = Ok flat /\
            nd_reshape flat [Y; X] = Ok shaped /\
            nd_frame chunk k = np_transpose shaped /\
            forall x y, (x < Z.to_nat X)%nat -> (y < Z.to_nat Y)%nat ->
              nd_item chunk [x; y; k]
              = Ok (nd_get flat [(y * Z.to_nat X + x)%nat]))
  /\
  (forall host, exists chunk,
      Frms6Reader.readData host (example_fs host) "run.frms6" (0, 2) 2 2
      = Ok chunk /\
      nd_rows (nd_frame chunk 0) = [[SInt 1; SInt 3]; [SInt 2; SInt 4]] /\
      nd_rows (nd_frame chunk 1) = [[SInt 5; SInt 7]; [SInt 6; SInt 8]]).
Proof.
  split.
  - intros host fs fn data X Y a b Hfs HX HY [Ha Hab] Hend.
    assert (HXY : 0 <= X * Y) by (apply Z.mul_nonneg_nonneg; assumption).
    pose proof (recordSize_pos X Y HX HY) as Hrec.
    pose proof frameHeaderSizeInBytes_eq as H64.
    eexists. split.
    { apply (readData_ok host fs fn data); try assumption.
      - now apply frame_offset_nonneg.
      - intros _. exact Hend. }
    split; [reflexivity |]. split; [reflexivity |].
    intros k Hk.
    assert (Hlen : Zlength (frame_payload data X Y (a + Z.of_nat k)) = X * Y * 2).
    { apply bytes_slice_length; try lia.
      - pose proof (frame_offset_nonneg X Y (a + Z.of_nat k) HX HY ltac:(lia)). lia.
      - replace b with (a + Z.of_nat k + (b - a - Z.of_nat k)) in Hend by lia.
        rewrite frame_offset_add in Hend. unfold recordSize in *. nia. }
    do 2 eexists. split; [apply (frombuffer_ok host _ (X * Y)); assumption |].
    split.
    { unfold nd_reshape.
      rewrite check_shape_ok by (repeat constructor; assumption).
      cbn [bind map nd_data size_of fold_right].
      rewrite (samples16_length host (Z.to_nat (X * Y)))
        by (unfold Zlength in Hlen; lia).
      replace (Z.to_nat Y * (Z.to_nat X * 1) =? Z.to_nat (X * Y))%nat with true
        by (symmetry; apply Nat.eqb_eq; rewrite Z2Nat.inj_mul by lia; lia).
      reflexivity. }
    split.
    { unfold nd_frame, np_transpose, chunk_of.
      cbn [nd_dtype nd_shape nd_make firstn rev app].
      apply nd_make_ext. intros idx Hb.
      apply in_bounds2 in Hb as (x & y & -> & Hx & Hy).
      cbn [app rev].
      rewrite (nd_get_make UInt16 [Z.to_nat X; Z.to_nat Y; Z.to_nat (b - a)])
        by now apply in_bounds3_intro.
      unfold nd_get, frame_sample. simpl. f_equal. lia. }
    intros x y Hx Hy. unfold nd_item, chunk_of.
    cbn [nd_shape nd_make].
    rewrite in_bounds3_intro by assumption.
    rewrite (nd_get_make UInt16 [Z.to_nat X; Z.to_nat Y; Z.to_nat (b - a)])
      by now apply in_bounds3_intro.
    unfold nd_get, frame_sample. simpl. do 2 f_equal. lia.
  - intros []; eexists; (split; [vm_compute; reflexivity |]);
      split; vm_compute; reflexivity.
Qed.

Lemma readData_reshapes_then_transposes_witness :
  example_fs LittleEndian "run.frms6"%string = Some (example_file LittleEndian) /\
  0 <= 2 /\ 0 <= 0 <= 2 /\
  frame_offset 2 2 2 <= Zlength (example_file LittleEndian) /\
  exists chunk,
    Frms6Reader.readData LittleEndian (example_fs LittleEndian) "run.frms6"
                         (0, 2) 2 2 = Ok chunk /\
    nd_shape chunk = [2; 2; 2]%nat.
Proof.
  assert (H1 : example_fs LittleEndian "run.frms6"%string
               = Some (example_file LittleEndian)) by reflexivity.
  assert (H2 : frame_offset 2 2 2 <= Zlength (example_file LittleEndian))
    by (vm_compute; discriminate).
  split; [exact H1 |]. split; [lia |]. split; [lia |]. split; [exact H2 |].
  destruct (proj1 readData_reshapes_then_transposes LittleEndian
              (example_fs LittleEndian) "run.frms6"%string
              (example_file LittleEndian) 2 2 0 2 H1
              ltac:(lia) ltac:(lia) ltac:(lia) H2)
    as (chunk & Hrun & _ & Hshape & _).
  exists chunk. split; [exact Hrun | exact Hshape].
Defined.

(** C5: on a file of [N] frames, reading the range from [a] to [b] gives
    the slice from [a] to [b], along the third axis, of what reading the
    whole file gives. *)
Theorem readData_subrange_is_slice host fs fn data X Y N a b :
  fs fn = Some data -> 0 <= X -> 0 <= Y ->
  Zlength data = frame_offset X Y N ->
  0 <= a <= b /\ b <= N ->
  exists full sub,
    Frms6Reader.readData host fs fn (0, N) X Y = Ok full /\
    Frms6Reader.readData host fs fn (a, b) X Y = Ok sub /\
    nd_slice full [None; None; Some (a, b)] = Ok sub.
Proof.
  intros Hfs HX HY Hlen [[Ha Hab] HbN].
  pose proof (recordSize_pos X Y HX HY) as Hrec.
  assert (Hb : frame_offset X Y b <= Zlength data).
  { rewrite Hlen. unfold frame_offset. nia. }
  do 2 eexists. split.
  { apply (readData_ok host fs fn data); try assumption; try lia.
    apply frame_offset_nonneg; lia. }
  split.
  { apply (readData_ok host fs fn data); try assumption.
    - apply frame_offset_nonneg; lia.
    - intros _. exact Hb. }
  unfold nd_slice, chunk_of. cbn [nd_shape nd_make nd_dtype List.length].
  cbn [Nat.leb slice_all slice_bounds map fst snd].
  replace (a <? 0) with false by (symmetry; apply Z.ltb_ge; lia).
  replace (b <? 0) with false by (symmetry; apply Z.ltb_ge; lia).
  rewrite Z.sub_0_r, Z2Nat.id by lia.
  rewrite !Z.min_l by lia.
  f_equal. apply nd_make_ext. intros idx Hin.
  apply in_bounds3 in Hin as (x & y & k & -> & Hx & Hy & Hk).
  cbn [shift_index Nat.add].
  rewrite (nd_get_make UInt16 [Z.to_nat X; Z.to_nat Y; Z.to_nat N])
    by (apply in_bounds3_intro; lia).
  f_equal. lia.
Qed.

Lemma readData_subrange_is_slice_witness :
  example_fs BigEndian "run.frms6"%string = Some (example_file BigEndian) /\
  Zlength (example_file BigEndian) = frame_offset 2 2 2 /\
  exists full sub,
    Frms6Reader.readData BigEndian (example_fs BigEndian) "run.frms6" (0, 2) 2 2
    = Ok full /\
    Frms6Reader.readData BigEndian (example_fs BigEndian) "run.frms6" (1, 2) 2 2
    = Ok sub /\
    nd_slice full [None; None; Some (1, 2)] = Ok sub.
Proof.
  split; [reflexivity |]. split; [reflexivity |].
  apply (readData_subrange_is_slice BigEndian (example_fs BigEndian)
           "run.frms6"%string (example_file BigEndian) 2 2 2 1 2);
    first [reflexivity | lia].
Defined.

(** C1, as the code has it: the layout of a frame header is 64 bytes
    long (four 1-byte fields, three 4-byte fields, an 8-byte float, two
    2-byte fields, a 4-byte field, an 8-byte field, 24 bytes of fill). *)
Theorem frame_header_layout_is_64_bytes :
  PyStruct.calcsize Frms6Reader.frameHeaderFormat = Ok 64 /\
  Frms6Reader.frameHeaderSizeInBytes = 64.
Proof. split; reflexivity. Qed.

(** The size of the frame header is not 52. *)
Lemma frame_header_layout_not_52_bytes :
  PyStruct.calcsize Frms6Reader.frameHeaderFormat <> Ok 52 /\
  Frms6Reader.frameHeaderSizeInBytes <> 52.
Proof. split; discriminate. Qed.

(** ** True division *)

Lemma floor_log2_ratio_spec n d :
  0 < n -> 0 < d ->
  floor_log2_ratio n d <= Z.log2 n /\
  (0 <= floor_log2_ratio n d -> d * 2 ^ floor_log2_ratio n d <= n) /\
  (floor_log2_ratio n d < 0 -> d <= n * 2 ^ (- floor_log2_ratio n d)).
Proof.
  intros Hn Hd. unfold floor_log2_ratio.
  pose proof (Z.log2_spec n Hn) as [Hn1 Hn2].
  pose proof (Z.log2_spec d Hd) as [Hd1 Hd2].
  pose proof (Z.log2_nonneg n) as Hln. pose proof (Z.log2_nonneg d) as Hld.
  set (ln := Z.log2 n) in *. set (ld := Z.log2 d) in *.
  destruct (Z.leb_spec 0 (ln - ld)) as [Hk | Hk].
  - destruct (Z.leb_spec (d * 2 ^ (ln - ld)) n) as [Ht | Ht].
    + repeat split; lia.
    + split; [lia |]. split; intros Hs.
      * assert (E : 2 ^ ln = 2 ^ Z.succ ld * 2 ^ (ln - ld - 1))
          by (rewrite <- Z.pow_add_r by lia; f_equal; lia).
        assert (0 < 2 ^ (ln - ld - 1)) by (apply Z.pow_pos_nonneg; lia).
        nia.
      * assert (ln - ld = 0) by lia.
        replace (- (ln - ld - 1)) with 1 by lia.
        replace ld with ln in * by lia.
        rewrite Z.pow_succ_r in Hd2 by lia. change (2 ^ 1) with 2. lia.
  - destruct (Z.leb_spec d (n * 2 ^ (- (ln - ld)))) as [Ht | Ht].
    + repeat split; lia.
    + split; [lia |]. split; intros Hs; [lia |].
      assert (E : 2 ^ Z.succ ld = 2 ^ ln * 2 ^ (- (ln - ld - 1)))
        by (rewrite <- Z.pow_add_r by lia; f_equal; lia).
      assert (0 < 2 ^ (- (ln - ld - 1))) by (apply Z.pow_pos_nonneg; lia).
      nia.
Qed.

Lemma round_half_even_nonneg num den :
  0 <= num -> 0 < den -> 0 <= round_half_even num den.
Proof.
  intros Hn Hd. unfold round_half_even.
  pose proof (Z.div_pos num den Hn Hd).
  destruct (_ || _); lia.
Qed.

(** Rounding [n * T / d] gives a multiple of [T] exactly when [d]
    divides [n], as long as [d] stays below [2 * T]. *)
Lemma round_half_even_multiple n d T :
  0 <= n -> 0 < d -> 0 < T -> d < 2 * T ->
  (round_half_even (n * T) d mod T = 0 <-> n mod d = 0) /\
  (n mod d = 0 -> round_half_even (n * T) d / T = n / d).
Proof.
  intros Hn Hd HT HdT.
  assert (Hexact : n mod d = 0 -> round_half_even (n * T) d = (n / d) * T).
  { intros Hz. unfold round_half_even.
    assert (En : n = d * (n / d)) by (apply Z.div_exact; lia).
    assert (E1 : n * T = (n / d * T) * d) by lia.
    assert (Hq : n * T / d = n / d * T) by (rewrite E1; apply Z.div_mul; lia).
    assert (Hr : (n * T) mod d = 0) by (rewrite E1; apply Z.mod_mul; lia).
    rewrite Hq, Hr.
    replace (d <? 2 * 0) with false by (symmetry; apply Z.ltb_ge; lia).
    replace (d =? 2 * 0) with false by (symmetry; apply Z.eqb_neq; lia).
    reflexivity. }
  split; [split |].
  - intros Hm. unfold round_half_even in Hm.
    pose proof (Z.div_mod (n * T) d ltac:(lia)) as Hdm.
    pose proof (Z.mod_pos_bound (n * T) d Hd) as Hr.
    set (q := n * T / d) in *. set (r := (n * T) mod d) in *.
    destruct (Z.ltb_spec d (2 * r)) as [Hup | Hlow]; cbn [orb] in Hm.
    + apply Z.mod_divide in Hm; [| lia]. destruct Hm as [j Hj].
      exfalso.
      assert (E : T * (d * j - n) = d - r) by nia.
      assert (0 < d * j - n) by nia. nia.
    + destruct (Z.eqb_spec d (2 * r)) as [Heq | Hneq]; cbn [andb] in Hm.
      * destruct (Z.odd q).
        -- apply Z.mod_divide in Hm; [| lia]. destruct Hm as [j Hj].
           exfalso.
           assert (E : T * (d * j - n) = d - r) by nia.
           assert (0 < d * j - n) by nia. nia.
        -- apply Z.mod_divide in Hm; [| lia]. destruct Hm as [j Hj].
           assert (E : T * (n - d * j) = r) by nia.
           assert (n - d * j = 0) by nia.
           replace n with (j * d) by lia. apply Z.mod_mul. lia.
      * apply Z.mod_divide in Hm; [| lia]. destruct Hm as [j Hj].
        assert (E : T * (n - d * j) = r) by nia.
        assert (n - d * j = 0) by nia.
        replace n with (j * d) by lia. apply Z.mod_mul. lia.
  - intros Hz. rewrite (Hexact Hz). apply Z.mod_mul. lia.
  - intros Hz. rewrite (Hexact Hz). apply Z.div_mul. lia.
Qed.

(** Below [2 ^ 53] the float quotient is an integer exactly when the
    division is exact, and then it is the quotient. *)
Lemma int_true_divide_exactness n d :
  0 <= n < 2 ^ 53 -> 0 < d ->
  exists f,
    int_true_divide n d = Ok f /\
    (float_is_integer f = true <-> n mod d = 0) /\
    (n mod d = 0 -> int_of_float f = n / d).
Proof.
  intros [Hn0 Hn] Hd. unfold int_true_divide.
  replace (d =? 0) with false by (symmetry; apply Z.eqb_neq; lia).
  destruct (Z.eqb_spec n 0) as [-> | Hnz].
  { eexists. split; [reflexivity |]. split; [split |].
    - intros _. apply Z.mod_0_l. lia.
    - reflexivity.
    - intros _. rewrite Z.div_0_l by lia. reflexivity. }
  assert (Hnpos : 0 < n) by lia.
  eexists. split; [reflexivity |].
  rewrite !Z.abs_eq by lia. rewrite !Z.sgn_pos by lia.
  unfold pos_true_divide, float_is_integer, int_of_float. cbn [f_man f_exp].
  destruct (floor_log2_ratio_spec n d Hnpos Hd) as (Hfl & Hge & Hlt).
  assert (Hl53 : Z.log2 n < 53) by (apply Z.log2_lt_pow2; lia).
  set (fl := floor_log2_ratio n d) in *.
  destruct (Z.leb_spec 0 (fl - 52)) as [He | He].
  - (* the quotient needs all 53 bits: [d] is one *)
    assert (Hfl52 : fl = 52) by lia.
    specialize (Hge ltac:(lia)). rewrite Hfl52 in Hge.
    assert (d = 1) by (change (2 ^ 53) with (2 * 2 ^ 52) in Hn; lia). subst d.
    assert (Hr : round_half_even n (1 * 2 ^ (52 - 52)) = n).
    { unfold round_half_even. change (1 * 2 ^ (52 - 52)) with 1.
      rewrite Z.mod_1_r, Z.div_1_r. reflexivity. }
    rewrite Hfl52, Hr, Z.mod_1_r, Z.div_1_r. change (2 ^ (52 - 52)) with 1.
    split; [split; intros _; reflexivity |]. intros _. lia.
  - set (T := 2 ^ (- (fl - 52))).
    assert (HT : 0 < T) by (apply Z.pow_pos_nonneg; lia).
    assert (HdT : d < 2 * T).
    { unfold T. destruct (Z.leb_spec 0 fl) as [Hs | Hs].
      - specialize (Hge Hs).
        assert (E : 2 ^ 53 = 2 * 2 ^ (- (fl - 52)) * 2 ^ fl).
        { replace 53 with (1 + (- (fl - 52)) + fl) by lia.
          rewrite !Z.pow_add_r by lia. reflexivity. }
        assert (0 < 2 ^ fl) by (apply Z.pow_pos_nonneg; lia). nia.
      - specialize (Hlt Hs).
        assert (E : 2 * 2 ^ (- (fl - 52)) = 2 ^ 53 * 2 ^ (- fl)).
        { replace (- (fl - 52)) with (52 + - fl) by lia.
          rewrite Z.pow_add_r by lia. change (2 ^ 53) with (2 * 2 ^ 52). lia. }
        assert (0 < 2 ^ (- fl)) by (apply Z.pow_pos_nonneg; lia). nia. }
    destruct (round_half_even_multiple n d T Hn0 Hd HT HdT) as [Hiff Hquot].
    replace (1 * 1 * round_half_even (n * T) d)
      with (round_half_even (n * T) d) by lia.
    split.
    + rewrite Z.eqb_eq. exact Hiff.
    + intros Hz. rewrite Z.quot_div_nonneg; [now apply Hquot | | lia].
      apply round_half_even_nonneg; nia.
Qed.

(** The quotient of a size by a positive record size is never negative. *)
Lemma int_true_divide_nonneg n d f :
  0 <= n -> 0 < d -> int_true_divide n d = Ok f -> 0 <= int_of_float f.
Proof.
  intros Hn Hd. unfold int_true_divide.
  replace (d =? 0) with false by (symmetry; apply Z.eqb_neq; lia).
  destruct (Z.eqb_spec n 0) as [-> | Hnz]; intros H; inversion H; subst; clear H.
  { cbn. lia. }
  rewrite !Z.abs_eq by lia. rewrite !Z.sgn_pos by lia.
  unfold pos_true_divide, int_of_float. cbn [f_man f_exp].
  set (e := floor_log2_ratio n d - 52).
  assert (Hm : 0 <= (if 0 <=? e then round_half_even n (d * 2 ^ e)
                     else round_half_even (n * 2 ^ (- e)) d)).
  { destruct (Z.leb_spec 0 e).
    - apply round_half_even_nonneg; [lia |].
      apply Z.mul_pos_pos; [lia | apply Z.pow_pos_nonneg; lia].
    - apply round_half_even_nonneg; [| lia].
      apply Z.mul_nonneg_nonneg; [lia | apply Z.pow_nonneg; lia]. }
  destruct (Z.leb_spec 0 e).
  - apply Z.mul_nonneg_nonneg; [lia | apply Z.pow_nonneg; lia].
  - apply Z.quot_pos; [lia | apply Z.pow_pos_nonneg; lia].
Qed.

(** ** The headers *)

Lemma slice_of_prefix {A} (i len L : nat) (l : list A) :
  (i + len <= L)%nat ->
  firstn len (skipn i (firstn L l)) = firstn len (skipn i l).
Proof.
  intros H. rewrite skipn_firstn_comm, firstn_firstn.
  f_equal. lia.
Qed.

Lemma getFileHeader_ok host fs fn data :
  fs fn = Some data -> 1024 <= Zlength data ->
  exists d,
    Frms6Reader.getFileHeader host fs fn = Ok d /\
    dict_get d "width" = Ok (PyStruct.VInt (declared_width host data)) /\
    dict_get d "height" = Ok (PyStruct.VInt (declared_height host data)).
Proof.
  intros Hfs Hlen. unfold Frms6Reader.getFileHeader, py_open.
  rewrite Hfs. cbn [bind]. rewrite fileHeaderSizeInBytes_eq.
  rewrite read_exact by lia.
  unfold PyStruct.unpack.
  let r := eval vm_compute in (PyStruct.prepare Frms6Reader.fileHeaderFormat) in
  change (PyStruct.prepare Frms6Reader.fileHeaderFormat) with r.
  cbn [bind]. rewrite bytes_slice_length by lia. cbn [Z.eqb Pos.eqb].
  set (buf := bytes_slice 0 1024 data).
  eexists. split.
  { cbv -[buf bytes_slice skipn firstn uint_of_bytes rev strip_leading_nul].
    reflexivity. }
  split.
  - cbv -[buf bytes_slice skipn firstn uint_of_bytes rev strip_leading_nul
          declared_width].
    unfold declared_width, buf, bytes_slice. do 3 f_equal.
    apply (slice_of_prefix 88 2 (Z.to_nat 1024) data).
    apply Nat.leb_le. vm_compute. reflexivity.
  - cbv -[buf bytes_slice skipn firstn uint_of_bytes rev strip_leading_nul
          declared_height].
    unfold declared_height, buf, bytes_slice. do 3 f_equal.
    apply (slice_of_prefix 90 2 (Z.to_nat 1024) data).
    apply Nat.leb_le. vm_compute. reflexivity.
Qed.

Lemma getFileHeader_short host fs fn data :
  fs fn = Some data -> Zlength data < 1024 ->
  Frms6Reader.getFileHeader host fs fn = Raise StructError.
Proof.
  intros Hfs Hlen. unfold Frms6Reader.getFileHeader, py_open.
  rewrite Hfs. cbn [bind]. rewrite fileHeaderSizeInBytes_eq.
  unfold read. cbn [fh_pos fh_data Z.ltb Z.compare].
  change (skipn (Z.to_nat 0) data) with data.
  rewrite firstn_all2 by (unfold Zlength in Hlen; lia).
  unfold PyStruct.unpack.
  let r := eval vm_compute in (PyStruct.prepare Frms6Reader.fileHeaderFormat) in
  change (PyStruct.prepare Frms6Reader.fileHeaderFormat) with r.
  cbn [bind].
  replace (Zlength data =? 1024) with false by (symmetry; apply Z.eqb_neq; lia).
  reflexivity.
Qed.

Lemma le_value_nonneg bs : 0 <= le_value bs.
Proof.
  induction bs as [|b rest IH]; cbn [le_value]; [lia |].
  unfold byte_val. pose proof (N2Z.is_nonneg (Byte.to_N b)). lia.
Qed.

Lemma uint_of_bytes_nonneg order bs : 0 <= uint_of_bytes order bs.
Proof. destruct order; apply le_value_nonneg. Qed.

(** [getDataShape] on a file that holds a whole file header. *)
Lemma getDataShape_eq host fs fn data :
  fs fn = Some data -> 1024 <= Zlength data ->
  Frms6Reader.getDataShape host fs fn
  = (numberOfFrames <-
       int_true_divide (Zlength data - 1024)
         (recordSize (declared_width host data) (declared_height host data)) ;;
     if negb (float_is_integer numberOfFrames) then Raise PyWarning
     else Ok (declared_width host data, declared_height host data,
              int_of_float numberOfFrames)).
Proof.
  intros Hfs Hlen. unfold Frms6Reader.getDataShape.
  destruct (getFileHeader_ok host fs fn data Hfs Hlen) as (d & Hd & Hw & Hh).
  rewrite Hd. cbn [bind]. rewrite Hw, Hh. cbn [bind py_int].
  rewrite getFrameSizeInBytes_ok by apply uint_of_bytes_nonneg.
  cbn [bind]. unfold getsize. rewrite Hfs. cbn [bind].
  rewrite fileHeaderSizeInBytes_eq. reflexivity.
Qed.

Lemma getDataShape_short host fs fn data :
  fs fn = Some data -> Zlength data < 1024 ->
  Frms6Reader.getDataShape host fs fn = Raise StructError.
Proof.
  intros Hfs Hlen. unfold Frms6Reader.getDataShape.
  now rewrite (getFileHeader_short host fs fn data).
Qed.

(** C3, as the code has it: on a file that holds a whole file header
    and is smaller than 2^53 + 1024 bytes, [getDataShape] raises its
    [Warning] whenever the size after the file header is not a multiple
    of the record size, in particular one byte before the end of a valid
    file with a frame in it, and returns the quotient otherwise.  A file
    shorter than the file header fails in the decoding of the header. *)
Theorem getDataShape_checks_exact_division host fs fn data :
  fs fn = Some data ->
  (Zlength data < 1024 ->
   Frms6Reader.getDataShape host fs fn = Raise StructError) /\
  (1024 <= Zlength data -> Zlength data - 1024 < 2 ^ 53 ->
   let w := declared_width host data in
   let h := declared_height host data in
   ((Zlength data - 1024) mod recordSize w h <> 0 ->
    Frms6Reader.getDataShape host fs fn = Raise PyWarning) /\
   ((Zlength data - 1024) mod recordSize w h = 0 ->
    Frms6Reader.getDataShape host fs fn
    = Ok (w, h, (Zlength data - 1024) / recordSize w h)) /\
   (forall N, 1 <= N -> Zlength data = frame_offset w h N - 1 ->
              Frms6Reader.getDataShape host fs fn = Raise PyWarning)).
Proof.
  intros Hfs. split; [apply getDataShape_short, Hfs |].
  intros Hlen Hbound w h.
  pose proof (recordSize_pos w h (uint_of_bytes_nonneg _ _)
                (uint_of_bytes_nonneg _ _)) as Hrec.
  destruct (int_true_divide_exactness (Zlength data - 1024) (recordSize w h)
              ltac:(lia) Hrec) as (f & Hdiv & Hint & Hquot).
  assert (Hbad : (Zlength data - 1024) mod recordSize w h <> 0 ->
                 Frms6Reader.getDataShape host fs fn = Raise PyWarning).
  { intros Hne. rewrite (getDataShape_eq host fs fn data Hfs Hlen).
    fold w h. rewrite Hdiv. cbn [bind].
    destruct (float_is_integer f); [| reflexivity].
    exfalso. apply Hne, Hint. reflexivity. }
  split; [exact Hbad |]. split.
  - intros Hz. rewrite (getDataShape_eq host fs fn data Hfs Hlen).
    fold w h. rewrite Hdiv. cbn [bind].
    replace (float_is_integer f) with true by (symmetry; apply Hint, Hz).
    cbn [negb]. now rewrite (Hquot Hz).
  - intros N HN HlenN. apply Hbad.
    unfold frame_offset in HlenN. rewrite fileHeaderSizeInBytes_eq in HlenN.
    replace (Zlength data - 1024) with ((recordSize w h - 1) + (N - 1) * recordSize w h)
      by lia.
    rewrite Z.mod_add by lia.
    assert (64 <= recordSize w h).
    { unfold recordSize. rewrite frameHeaderSizeInBytes_eq.
      pose proof (Z.mul_nonneg_nonneg w h (uint_of_bytes_nonneg _ _)
                    (uint_of_bytes_nonneg _ _)). lia. }
    rewrite Z.mod_small; lia.
Qed.

Lemma getDataShape_checks_exact_division_witness :
  single_file "cut.frms6" (truncated_example LittleEndian) "cut.frms6"%string
  = Some (truncated_example LittleEndian) /\
  1024 <= Zlength (truncated_example LittleEndian) /\
  Zlength (truncated_example LittleEndian) - 1024 < 2 ^ 53 /\
  Zlength (truncated_example LittleEndian)
  = frame_offset (declared_width LittleEndian (truncated_example LittleEndian))
                 (declared_height LittleEndian (truncated_example LittleEndian)) 2
    - 1 /\
  Frms6Reader.getDataShape LittleEndian
    (single_file "cut.frms6" (truncated_example LittleEndian)) "cut.frms6"
  = Raise PyWarning.
Proof.
  assert (H1 : single_file "cut.frms6" (truncated_example LittleEndian)
                 "cut.frms6"%string = Some (truncated_example LittleEndian))
    by reflexivity.
  assert (H2 : 1024 <= Zlength (truncated_example LittleEndian))
    by (vm_compute; discriminate).
  assert (H3 : Zlength (truncated_example LittleEndian) - 1024 < 2 ^ 53)
    by (vm_compute; reflexivity).
  assert (H4 : Zlength (truncated_example LittleEndian)
               = frame_offset
                   (declared_width LittleEndian (truncated_example LittleEndian))
                   (declared_height LittleEndian (truncated_example LittleEndian)) 2
                 - 1) by (vm_compute; reflexivity).
  repeat (split; [assumption |]).
  exact (proj2 (proj2 (proj2 (getDataShape_checks_exact_division LittleEndian _ _ _ H1)
                         H2 H3)) 2 ltac:(lia) H4).
Defined.

(** A file of zero frames is valid; without its last byte it fails in the
    decoding of the file header, not in the check of the frame count. *)
Lemma getDataShape_truncated_header :
  let valid := file_header_bytes LittleEndian 2 2 in
  Frms6Reader.getDataShape LittleEndian (single_file "h.frms6" valid) "h.frms6"
  = Ok (2, 2, 0) /\
  Zlength (removelast valid) = Zlength valid - 1 /\
  Frms6Reader.getDataShape LittleEndian
    (single_file "h.frms6" (removelast valid)) "h.frms6"
  = Raise StructError /\
  Frms6Reader.getDataShape LittleEndian
    (single_file "h.frms6" (removelast valid)) "h.frms6"
  <> Raise PyWarning.
Proof.
  cbv zeta. split; [vm_compute; reflexivity |].
  split; [vm_compute; reflexivity |].
  assert (E : Frms6Reader.getDataShape LittleEndian
                (single_file "h.frms6" (removelast (file_header_bytes LittleEndian 2 2)))
                "h.frms6" = Raise StructError) by (vm_compute; reflexivity).
  split; [exact E | rewrite E; discriminate].
Qed.

(** Past 2^53 the float quotient can be an integer although the division
    is not exact: 2^58 - 1 bytes of 64-byte records count as 2^52
    frames. *)
Lemma getDataShape_float_rounding host fs fn data :
  fs fn = Some data ->
  Zlength data = 1024 + (2 ^ 58 - 1) ->
  declared_width host data = 0 ->
  (Zlength data - 1024) mod recordSize (declared_width host data)
                                       (declared_height host data) <> 0 /\
  Frms6Reader.getDataShape host fs fn
  = Ok (0, declared_height host data, 2 ^ 52).
Proof.
  intros Hfs Hlen Hw.
  rewrite (getDataShape_eq host fs fn data Hfs ltac:(lia)).
  rewrite Hw, Hlen. unfold recordSize. rewrite Z.mul_0_l.
  split; [vm_compute; discriminate | vm_compute; reflexivity].
Qed.

(** ** The scan of the frame headers *)

Lemma unpack_frame_header host buf :
  Zlength buf = 64 ->
  exists v0 v1 v2 v3 v4 v5 v6 v7 v8 v9 v10 v11,
    PyStruct.unpack host Frms6Reader.frameHeaderFormat buf
    = Ok [v0; v1; v2; v3; v4; v5; v6; v7; v8; v9; v10; v11].
Proof.
  intros Hlen. unfold PyStruct.unpack.
  let r := eval vm_compute in (PyStruct.prepare Frms6Reader.frameHeaderFormat) in
  change (PyStruct.prepare Frms6Reader.frameHeaderFormat) with r.
  cbn [bind]. rewrite Hlen. cbn [Z.eqb Pos.eqb].
  do 12 eexists.
  cbv -[bytes_slice skipn firstn uint_of_bytes sint_of_bytes Zlength].
  reflexivity.
Qed.

Lemma frame_header_length data X Y k :
  0 <= X -> 0 <= Y -> 0 <= k ->
  frame_offset X Y (k + 1) <= Zlength data ->
  Zlength (frame_header data X Y k) = 64.
Proof.
  intros HX HY Hk Hend. unfold frame_header.
  rewrite frameHeaderSizeInBytes_eq.
  pose proof (frame_offset_nonneg X Y k HX HY Hk).
  pose proof (Z.mul_nonneg_nonneg X Y HX HY).
  rewrite frame_offset_add in Hend. unfold recordSize in Hend.
  rewrite frameHeaderSizeInBytes_eq in Hend.
  apply bytes_slice_length; lia.
Qed.

(** One turn of the scan on a file that holds the frame. *)
Lemma scan_frame_step host data X Y j :
  0 <= X -> 0 <= Y ->
  frame_offset X Y (Z.of_nat j + 1) <= Zlength data ->
  Frms6Reader.scan_frame host (X * Y * 2) (Z.of_nat j)
    (scan_state_after host data X Y j)
  = Ok (scan_state_after host data X Y (S j)).
Proof.
  intros HX HY Hend.
  pose proof (frame_offset_nonneg X Y (Z.of_nat j) HX HY ltac:(lia)) as Hoff.
  pose proof (Z.mul_nonneg_nonneg X Y HX HY) as HXY.
  pose proof (frame_header_length data X Y (Z.of_nat j) HX HY ltac:(lia) Hend)
    as Hlen.
  pose proof frameHeaderSizeInBytes_eq as H64.
  assert (Hnext : frame_offset X Y (Z.of_nat (S j))
                  = frame_offset X Y (Z.of_nat j)
                    + Frms6Reader.frameHeaderSizeInBytes + X * Y * 2).
  { unfold frame_offset, recordSize. lia. }
  unfold Frms6Reader.scan_frame, scan_state_after.
  cbn [Frms6Reader.scan_fh Frms6Reader.frameStart Frms6Reader.frameInfo
       Frms6Reader.frameId Frms6Reader.frameHeight Frms6Reader.frameTvSec
       Frms6Reader.frameTvUsec Frms6Reader.frameIndex Frms6Reader.frameTemp
       Frms6Reader.frameMaxHeight].
  rewrite read_exact
    by (try lia; rewrite frame_offset_add in Hend; unfold recordSize in Hend; lia).
  fold (frame_header data X Y (Z.of_nat j)).
  destruct (unpack_frame_header host _ Hlen)
    as (v0 & v1 & v2 & v3 & v4 & v5 & v6 & v7 & v8 & v9 & v10 & v11 & Hun).
  rewrite Hun. cbn [bind tuple_get nth_error].
  rewrite seek_rel by lia. cbn [bind].
  rewrite !seq_S, !map_app. cbn [map Nat.add].
  assert (Hi : forall i, header_item host data X Y j i
                         = nth i [v0; v1; v2; v3; v4; v5; v6; v7; v8; v9; v10; v11]
                               (PyStruct.VInt 0))
    by (intros i; unfold header_item; now rewrite Hun).
  rewrite !Hi. cbn [nth].
  unfold header_reads. rewrite seq_S, map_app, rev_app_distr.
  cbn [map rev app Nat.add]. rewrite Hnext. reflexivity.
Qed.

Lemma scan_loop host data X Y n :
  0 <= X -> 0 <= Y ->
  ((0 < n)%nat -> frame_offset X Y (Z.of_nat n) <= Zlength data) ->
  forall m j, (j + m = n)%nat ->
    for_each (map Z.of_nat (seq j m)) (Frms6Reader.scan_frame host (X * Y * 2))
             (scan_state_after host data X Y j)
    = Ok (scan_state_after host data X Y n).
Proof.
  intros HX HY Hend.
  pose proof (recordSize_pos X Y HX HY) as Hrec.
  induction m as [|m IH]; intros j Hjm.
  - replace j with n by lia. reflexivity.
  - cbn [seq map for_each].
    rewrite scan_frame_step; try assumption.
    + cbn [bind]. apply IH. lia.
    + specialize (Hend ltac:(lia)).
      unfold frame_offset in *.
      assert ((Z.of_nat j + 1) * recordSize X Y <= Z.of_nat n * recordSize X Y)
        by (apply Z.mul_le_mono_nonneg_r; lia).
      lia.
Qed.

Lemma getDataShape_inv host fs fn data w h N :
  fs fn = Some data ->
  Frms6Reader.getDataShape host fs fn = Ok (w, h, N) ->
  1024 <= Zlength data /\
  w = declared_width host data /\ h = declared_height host data /\ 0 <= N.
Proof.
  intros Hfs H.
  destruct (Z.lt_ge_cases (Zlength data) 1024) as [Hshort | Hlen].
  { rewrite (getDataShape_short host fs fn data Hfs Hshort) in H. discriminate. }
  rewrite (getDataShape_eq host fs fn data Hfs Hlen) in H.
  destruct (int_true_divide _ _) as [f|e] eqn:Hdiv; [| discriminate].
  cbn [bind] in H. destruct (float_is_integer f); [| discriminate].
  inversion H; subst. repeat split; try assumption.
  eapply int_true_divide_nonneg; [| | exact Hdiv]; [lia |].
  apply recordSize_pos; apply uint_of_bytes_nonneg.
Qed.

(** On a file laid out as the format says, and smaller than 2^53 + 1024
    bytes, [getDataShape] returns the declared extents and the number of
    frames. *)
Lemma getDataShape_of_layout host fs fn data N :
  fs fn = Some data -> 0 <= N ->
  Zlength data
  = frame_offset (declared_width host data) (declared_height host data) N ->
  Zlength data - 1024 < 2 ^ 53 ->
  Frms6Reader.getDataShape host fs fn
  = Ok (declared_width host data, declared_height host data, N).
Proof.
  intros Hfs HN Hlen Hbound.
  pose proof (recordSize_pos _ _ (uint_of_bytes_nonneg host (bytes_slice 88 2 data))
                (uint_of_bytes_nonneg host (bytes_slice 90 2 data))) as Hrec.
  fold (declared_width host data) (declared_height host data) in Hrec.
  unfold frame_offset in Hlen. rewrite fileHeaderSizeInBytes_eq in Hlen.
  assert (H1024 : 1024 <= Zlength data) by nia.
  rewrite (getDataShape_eq host fs fn data Hfs H1024).
  destruct (int_true_divide_exactness (Zlength data - 1024)
              (recordSize (declared_width host data) (declared_height host data))
              ltac:(lia) Hrec) as (f & Hdiv & Hint & Hquot).
  assert (Hz : (Zlength data - 1024)
               mod recordSize (declared_width host data) (declared_height host data)
               = 0).
  { replace (Zlength data - 1024)
      with (N * recordSize (declared_width host data) (declared_height host data))
      by lia.
    apply Z.mod_mul. lia. }
  rewrite Hdiv. cbn [bind].
  replace (float_is_integer f) with true by (symmetry; apply Hint, Hz).
  cbn [negb]. rewrite (Hquot Hz). do 2 f_equal.
  replace (Zlength data - 1024)
    with (N * recordSize (declared_width host data) (declared_height host data))
    by lia.
  apply Z.div_mul. lia.
Qed.

(** C6: on a file that holds the frames [getDataShape] counts,
    [getFrameHeaders] returns nine sequences of that many entries, the
    k-th entry of each taken from the k-th frame header of the file; the
    scan reads one frame header per frame, and nothing past the last
    frame. *)
Theorem getFrameHeaders_one_entry_per_frame host fs fn data w h N :
  fs fn = Some data ->
  Frms6Reader.getDataShape host fs fn = Ok (w, h, N) ->
  frame_offset w h N <= Zlength data ->
  exists headers fh,
    Frms6Reader.getFrameHeaders_run host fs fn = Ok (headers, fh) /\
    Frms6Reader.getFrameHeaders host fs fn = Ok headers /\
    map fst headers
    = ["start"; "info"; "id"; "height"; "tv_sec"; "tv_usec"; "index"; "temp";
       "maxHeight"]%string /\
    (forall i key vals, nth_error headers i = Some (key, vals) ->
                        Zlength vals = N) /\
    (forall k, (k < Z.to_nat N)%nat ->
       exists items,
         PyStruct.unpack host Frms6Reader.frameHeaderFormat
                         (frame_header data w h (Z.of_nat k)) = Ok items /\
         forall i key vals, nth_error headers i = Some (key, vals) ->
                            nth_error vals k = nth_error items i) /\
    Zlength (fh_reads fh) = N /\
    fh_reads fh = header_reads w h (Z.to_nat N) /\
    Forall (fun r => fst r + snd r <= frame_offset w h N) (fh_reads fh) /\
    fh_pos fh = frame_offset w h N.
Proof.
  intros Hfs Hshape Hend.
  destruct (getDataShape_inv host fs fn data w h N Hfs Hshape)
    as (Hlen & Hw & Hh & HN).
  assert (HX : 0 <= w) by (subst w; apply uint_of_bytes_nonneg).
  assert (HY : 0 <= h) by (subst h; apply uint_of_bytes_nonneg).
  pose proof (recordSize_pos w h HX HY) as Hrec.
  assert (Hrun : Frms6Reader.getFrameHeaders_run host fs fn
                 = let s := scan_state_after host data w h (Z.to_nat N) in
                   Ok ([("start", Frms6Reader.frameStart s);
                        ("info", Frms6Reader.frameInfo s);
                        ("id", Frms6Reader.frameId s);
                        ("height", Frms6Reader.frameHeight s);
                        ("tv_sec", Frms6Reader.frameTvSec s);
                        ("tv_usec", Frms6Reader.frameTvUsec s);
                        ("index", Frms6Reader.frameIndex s);
                        ("temp", Frms6Reader.frameTemp s);
                        ("maxHeight", Frms6Reader.frameMaxHeight s)]%string,
                       Frms6Reader.scan_fh s)).
  { unfold Frms6Reader.getFrameHeaders_run. rewrite Hshape. cbn [bind].
    rewrite getFrameSizeInBytes_ok by assumption. cbn [bind].
    unfold py_open. rewrite Hfs. cbn [bind].
    rewrite seek_abs by (rewrite fileHeaderSizeInBytes_eq; lia). cbn [bind].
    unfold py_range. replace (h * w * 2) with (w * h * 2) by lia.
    change {| Frms6Reader.frameStart := []; Frms6Reader.frameInfo := [];
              Frms6Reader.frameId := []; Frms6Reader.frameHeight := [];
              Frms6Reader.frameTvSec := []; Frms6Reader.frameTvUsec := [];
              Frms6Reader.frameIndex := []; Frms6Reader.frameTemp := [];
              Frms6Reader.frameMaxHeight := [];
              Frms6Reader.scan_fh :=
                {| fh_data := data;
                   fh_pos := Frms6Reader.fileHeaderSizeInBytes;
                   fh_reads := [] |} |}
      with (scan_state_after host data w h 0).
    rewrite (scan_loop host data w h (Z.to_nat N) HX HY).
    - reflexivity.
    - intros _. now rewrite Z2Nat.id by lia.
    - lia. }
  cbv zeta in Hrun.
  do 2 eexists. split; [exact Hrun |]. split.
  { unfold Frms6Reader.getFrameHeaders. now rewrite Hrun. }
  split; [reflexivity |].
  assert (Hcol : forall i key vals,
             nth_error
               [("start"%string, Frms6Reader.frameStart (scan_state_after host data w h (Z.to_nat N)));
                ("info"%string, Frms6Reader.frameInfo (scan_state_after host data w h (Z.to_nat N)));
                ("id"%string, Frms6Reader.frameId (scan_state_after host data w h (Z.to_nat N)));
                ("height"%string, Frms6Reader.frameHeight (scan_state_after host data w h (Z.to_nat N)));
                ("tv_sec"%string, Frms6Reader.frameTvSec (scan_state_after host data w h (Z.to_nat N)));
                ("tv_usec"%string, Frms6Reader.frameTvUsec (scan_state_after host data w h (Z.to_nat N)));
                ("index"%string, Frms6Reader.frameIndex (scan_state_after host data w h (Z.to_nat N)));
                ("temp"%string, Frms6Reader.frameTemp (scan_state_after host data w h (Z.to_nat N)));
                ("maxHeight"%string, Frms6Reader.frameMaxHeight (scan_state_after host data w h (Z.to_nat N)))]
               i = Some (key, vals) ->
             vals = map (fun k => header_item host data w h k i) (seq 0 (Z.to_nat N))).
  { intros i key vals Hi.
    do 9 (destruct i as [|i]; [inversion Hi; reflexivity |]).
    destruct i; discriminate Hi. }
  split.
  { intros i key vals Hi. rewrite (Hcol i key vals Hi).
    unfold Zlength. rewrite length_map, length_seq. lia. }
  split.
  { intros k Hk.
    assert (Hk1 : frame_offset w h (Z.of_nat k + 1) <= Zlength data).
    { unfold frame_offset in *.
      assert ((Z.of_nat k + 1) * recordSize w h <= N * recordSize w h)
        by (apply Z.mul_le_mono_nonneg_r; lia).
      lia. }
    destruct (unpack_frame_header host (frame_header data w h (Z.of_nat k))
                (frame_header_length data w h (Z.of_nat k) HX HY
                   (Nat2Z.is_nonneg k) Hk1))
      as (v0 & v1 & v2 & v3 & v4 & v5 & v6 & v7 & v8 & v9 & v10 & v11 & Hun).
    eexists. split; [exact Hun |].
    intros i key vals Hi. rewrite (Hcol i key vals Hi).
    rewrite nth_error_map, nth_error_seq.
    replace (k <? Z.to_nat N)%nat with true by (symmetry; apply Nat.ltb_lt; lia).
    cbn [option_map Nat.add]. unfold header_item. rewrite Hun.
    do 9 (destruct i as [|i]; [reflexivity |]).
    destruct i; discriminate Hi. }
  cbn [Frms6Reader.scan_fh scan_state_after fh_reads fh_pos].
  split.
  { unfold header_reads, Zlength. rewrite length_rev, length_map, length_seq. lia. }
  split; [reflexivity |]. split; [| now rewrite Z2Nat.id by lia].
  apply Forall_forall. intros [off size] Hin.
  unfold header_reads in Hin. rewrite <- in_rev in Hin.
  apply in_map_iff in Hin as (k & E & Hk). apply in_seq in Hk.
  injection E as <- <-. cbn [fst snd].
  rewrite frameHeaderSizeInBytes_eq. unfold frame_offset.
  assert ((Z.of_nat k + 1) * recordSize w h <= N * recordSize w h)
    by (apply Z.mul_le_mono_nonneg_r; lia).
  unfold recordSize in *. rewrite frameHeaderSizeInBytes_eq in *.
  pose proof (Z.mul_nonneg_nonneg w h HX HY). lia.
Qed.

Lemma getFrameHeaders_one_entry_per_frame_witness :
  example_fs LittleEndian "run.frms6"%string = Some (example_file LittleEndian) /\
  Frms6Reader.getDataShape LittleEndian (example_fs LittleEndian) "run.frms6"
  = Ok (2, 2, 2) /\
  frame_offset 2 2 2 <= Zlength (example_file LittleEndian) /\
  exists headers,
    Frms6Reader.getFrameHeaders LittleEndian (example_fs LittleEndian) "run.frms6"
    = Ok headers /\
    forall i key vals, nth_error headers i = Some (key, vals) -> Zlength vals = 2.
Proof.
  assert (H1 : example_fs LittleEndian "run.frms6"%string
               = Some (example_file LittleEndian)) by reflexivity.
  assert (H2 : Frms6Reader.getDataShape LittleEndian (example_fs LittleEndian)
                 "run.frms6" = Ok (2, 2, 2)) by (vm_compute; reflexivity).
  assert (H3 : frame_offset 2 2 2 <= Zlength (example_file LittleEndian))
    by (vm_compute; discriminate).
  split; [exact H1 |]. split; [exact H2 |]. split; [exact H3 |].
  destruct (getFrameHeaders_one_entry_per_frame LittleEndian
              (example_fs LittleEndian) "run.frms6"%string
              (example_file LittleEndian) 2 2 2 H1 H2 H3)
    as (headers & fh & _ & Hrun & _ & Hlen & _).
  exists headers. split; [exact Hrun | exact Hlen].
Defined.

(** ** The container readers *)

Lemma length_slice_all shape sls :
  List.length (slice_all shape sls) = List.length shape.
Proof.
  revert sls. induction shape as [|n rest IH]; intros sls; [reflexivity |].
  destruct sls; simpl; now rewrite IH.
Qed.

Lemma nd_slice_ok a sls :
  (List.length sls <= List.length (nd_shape a))%nat ->
  exists b, nd_slice a sls = Ok b /\
            List.length (nd_shape b) = List.length (nd_shape a).
Proof.
  intros H. unfold nd_slice.
  replace (List.length sls <=? List.length (nd_shape a))%nat with true
    by (symmetry; apply Nat.leb_le; exact H).
  eexists. split; [reflexivity |].
  cbn [nd_shape nd_make]. now rewrite length_map, length_slice_all.
Qed.

(** C7: whatever the options and the stored element type, what the
    container reader returns is an array of 64-bit floats; and it does
    return on a stored array of three or more axes that is not flagged
    simulated, with both pixel ranges or neither. *)
Theorem readData_returns_float64
        (h5py_File : h5_request -> result h5file)
        (filename path : string) (kw : kwargs) :
  (forall arr,
      readData h5py_File filename path kw = Ok arr ->
      nd_dtype arr = Float64 /\
      Forall (fun v => is_float v = true) (nd_data arr)) /\
  (forall f ds,
      h5py_File (container_request filename) = Ok f ->
      dict_get f path = Ok ds ->
      (3 <= List.length (nd_shape ds))%nat ->
      simulated kw = false ->
      (x_range kw = None <-> y_range kw = None) ->
      exists arr, readData h5py_File filename path kw = Ok arr).
Proof.
  split.
  - intros arr H. unfold readData in H.
    apply bind_ok in H as (f & _ & H).
    apply bind_ok in H as (din & _ & H).
    apply bind_ok in H as (din' & _ & H).
    apply bind_ok in H as (d & _ & H).
    injection H as <-. split; [reflexivity |].
    cbn [nd_data np_asarray_float64].
    apply Forall_forall. intros v Hv.
    apply in_map_iff in Hv as ([z | x] & <- & _); reflexivity.
  - intros f ds Hf Hds Hrank Hsim Hranges. unfold readData.
    rewrite Hf, Hsim. cbn [bind negb].
    assert (Hdin : exists din,
               match image_range kw with
               | Some (lo, hi) =>
                   ds0 <- dict_get f path ;; nd_slice ds0 [None; None; Some (lo, hi)]
               | None => dict_get f path
               end = Ok din /\ (3 <= List.length (nd_shape din))%nat).
    { destruct (image_range kw) as [[lo hi] |].
      - rewrite Hds. cbn [bind].
        destruct (nd_slice_ok ds [None; None; Some (lo, hi)] Hrank) as (b & Hb & Hl).
        exists b. split; [exact Hb | lia].
      - exists ds. split; assumption. }
    destruct Hdin as (din & Hdin & Hrank'). rewrite Hdin. cbn [bind].
    destruct (x_range kw) as [xr |], (y_range kw) as [yr |].
    + destruct (nd_slice_ok din [Some xr; Some yr; None] Hrank') as (b & Hb & _).
      rewrite Hb. cbn [bind]. eauto.
    + destruct Hranges as [_ Hr]. discriminate (Hr eq_refl).
    + destruct Hranges as [Hr _]. discriminate (Hr eq_refl).
    + destruct (nd_slice_ok din [None; None; None] Hrank') as (b & Hb & _).
      rewrite Hb. cbn [bind]. eauto.
Qed.

Lemma readData_returns_float64_witness :
  readData example_h5 "a.h5" "/stream" no_kwargs
  = Ok (np_asarray_float64 example_dataset) /\
  nd_dtype (np_asarray_float64 example_dataset) = Float64 /\
  Forall (fun v => is_float v = true)
         (nd_data (np_asarray_float64 example_dataset)).
Proof.
  assert (H : readData example_h5 "a.h5" "/stream" no_kwargs
              = Ok (np_asarray_float64 example_dataset))
    by (vm_compute; reflexivity).
  split; [exact H |].
  exact (proj1 (readData_returns_float64 example_h5 "a.h5" "/stream" no_kwargs)
               _ H).
Defined.

(** ** [find] and [replace] *)

Lemma starts_with_app p s :
  starts_with p s = true <-> exists post, s = (p ++ post)%list.
Proof.
  revert s. induction p as [|c p IH]; intros s; simpl.
  - split; [intros _; now exists s | reflexivity].
  - destruct s as [|d s].
    + split; [discriminate | intros [post H]; discriminate].
    + rewrite andb_true_iff, Ascii.eqb_eq, IH. split.
      * intros [-> [post ->]]. now exists post.
      * intros [post H]. injection H as -> ->. split; [reflexivity | now exists post].
Qed.

Lemma occurs_in_cons sub c l :
  occurs_in sub (c :: l) -> starts_with sub (c :: l) = true \/ occurs_in sub l.
Proof.
  intros ([|d pre] & post & H).
  - left. apply starts_with_app. now exists post.
  - right. injection H as _ ->. now exists pre, post.
Qed.

Lemma find_from_occurs sub s i :
  0 <= i -> (find_from sub s i <> -1 <-> occurs_in sub s).
Proof.
  revert i. induction s as [|c rest IH]; intros i Hi.
  - cbn [find_from]. destruct (starts_with sub []) eqn:E.
    + split; [intros _ | lia]. apply starts_with_app in E as [post E].
      now exists [], post.
    + split; [congruence |]. intros (pre & post & H). exfalso.
      destruct pre; [| discriminate H].
      assert (starts_with sub [] = true) by (apply starts_with_app; now exists post).
      congruence.
  - cbn [find_from]. destruct (starts_with sub (c :: rest)) eqn:E.
    + split; [intros _ | lia]. apply starts_with_app in E as [post E].
      now exists [], post.
    + rewrite (IH (i + 1)) by lia. split.
      * intros (pre & post & ->). now exists (c :: pre), post.
      * intros H. apply occurs_in_cons in H as [H | H]; [congruence | exact H].
Qed.

Lemma replace_scan_skip old new s k :
  replace_scan old new s k = replace_scan old new (skipn k s) 0.
Proof.
  revert k. induction s as [|c rest IH]; intros k.
  - now destruct k.
  - destruct k as [|k]; [reflexivity |]. cbn [replace_scan skipn]. apply IH.
Qed.

Lemma replace_scan_match old new post :
  old <> [] ->
  replace_scan old new (old ++ post) 0
  = (new ++ replace_scan old new post 0)%list.
Proof.
  intros Hne. destruct old as [|c old']; [congruence |].
  cbn [app replace_scan].
  replace (starts_with (c :: old') (c :: (old' ++ post)%list)) with true
    by (symmetry; apply starts_with_app; now exists post).
  rewrite replace_scan_skip. f_equal. f_equal.
  replace (List.length (c :: old') - 1)%nat with (List.length old')
    by (cbn [List.length]; lia).
  rewrite skipn_app, skipn_all, Nat.sub_diag. reflexivity.
Qed.

Lemma replace_scan_step old new c rest :
  starts_with old (c :: rest) = false ->
  replace_scan old new (c :: rest) 0 = c :: replace_scan old new rest 0.
Proof. intros H. cbn [replace_scan]. now rewrite H. Qed.

(** Induction along the scan of [replace]. *)
Lemma replace_scan_ind old (P : list ascii -> Prop) :
  old <> [] ->
  P [] ->
  (forall post, P post -> P (old ++ post)%list) ->
  (forall c rest, starts_with old (c :: rest) = false -> P rest -> P (c :: rest)) ->
  forall s, P s.
Proof.
  intros Hne Hnil Hmatch Hstep s.
  remember (List.length s) as n eqn:Hn. revert s Hn.
  induction n as [n IH] using lt_wf_ind. intros s Hn.
  destruct s as [|c rest]; [exact Hnil |].
  destruct (starts_with old (c :: rest)) eqn:E.
  - apply starts_with_app in E as [post E]. rewrite E.
    apply Hmatch. apply (IH (List.length post)); [| reflexivity].
    subst n. rewrite E, length_app.
    destruct old; [congruence | simpl; lia].
  - apply Hstep; [exact E |].
    apply (IH (List.length rest)); [subst n; simpl; lia | reflexivity].
Qed.

Lemma starts_with_prefix p l1 l2 :
  starts_with p l1 = true -> starts_with p (l1 ++ l2) = true.
Proof.
  intros H. apply starts_with_app in H as [post ->].
  apply starts_with_app. exists (post ++ l2)%list. now rewrite app_assoc.
Qed.

Lemma join_cons sep seg rest :
  exists tail, join sep (seg :: rest) = (seg ++ tail)%list.
Proof.
  destruct rest as [|seg' rest]; cbn [join].
  - exists []. now rewrite app_nil_r.
  - eexists. reflexivity.
Qed.

Lemma occurs_in_length sub s :
  occurs_in sub s -> (List.length sub <= List.length s)%nat.
Proof.
  intros (pre & post & ->). rewrite !length_app. lia.
Qed.

Lemma not_occurs_in_removelast old :
  old <> [] -> ~ occurs_in old (removelast old).
Proof.
  intros Hne H. apply occurs_in_length in H.
  rewrite (app_removelast_last "0"%char Hne) in H at 1.
  rewrite length_app in H. simpl in H. lia.
Qed.

(** [replace] cuts the string at the occurrences of [old] it meets from
    left to right and joins the pieces with [new]. *)
Lemma replace_scan_segments old new :
  old <> [] ->
  forall s, exists segs,
    segs <> [] /\
    s = join old segs /\
    replace_scan old new s 0 = join new segs /\
    Forall (fun seg => ~ occurs_in old seg) segs /\
    leftmost_cut old segs /\
    (occurs_in old s -> (2 <= List.length segs)%nat).
Proof.
  intros Hne. apply (replace_scan_ind old); [exact Hne | | |].
  - assert (Hnil : ~ occurs_in old []).
    { intros (pre & post & H). destruct pre, old; try discriminate; congruence. }
    exists [[]]. repeat split; try reflexivity; try discriminate.
    + constructor; [exact Hnil | constructor].
    + exact Hnil.
    + intros H. now apply Hnil in H.
  - intros post (segs & Hn & Hs & Hr & Hf & Hcut & _).
    exists ([] :: segs). destruct segs as [|seg segs]; [congruence |].
    repeat split.
    + discriminate.
    + cbn [join app]. cbn [join] in Hs. now rewrite <- Hs.
    + rewrite replace_scan_match by exact Hne.
      cbn [join app]. cbn [join] in Hr. now rewrite <- Hr.
    + constructor; [| exact Hf]. intros (pre & post' & H).
      destruct pre, old; try discriminate; congruence.
    + cbn [app]. now apply not_occurs_in_removelast.
    + exact Hcut.
    + intros _. simpl. lia.
  - intros c rest Hstart (segs & Hn & Hs & Hr & Hf & Hcut & Hocc).
    destruct segs as [|seg segs]; [congruence |].
    exists ((c :: seg) :: segs).
    assert (Hseg : ~ occurs_in old (c :: seg)).
    { inversion Hf as [| ? ? Hseg Hrest]; subst.
      intros H. apply occurs_in_cons in H as [H | H]; [| exact (Hseg H)].
      destruct (join_cons old seg segs) as [tail Htail].
      rewrite Htail in Hstart.
      pose proof (starts_with_prefix old (c :: seg) tail H) as H'.
      cbn [app] in H'. congruence. }
    split; [discriminate |]. split.
    { rewrite Hs. destruct segs; reflexivity. }
    split.
    { rewrite replace_scan_step by exact Hstart. rewrite Hr.
      destruct segs; reflexivity. }
    split.
    { inversion Hf as [| ? ? _ Hrest]; subst. now constructor. }
    split.
    { destruct segs as [|seg' segs]; [exact Hseg |].
      destruct Hcut as [Hfree Hcut]. split; [| exact Hcut].
      intros H. cbn [app] in H.
      apply occurs_in_cons in H as [H | H]; [| exact (Hfree H)].
      change (join old (seg :: seg' :: segs))
        with (seg ++ old ++ join old (seg' :: segs))%list in Hs.
      rewrite (app_removelast_last "0"%char Hne) in Hs at 1.
      rewrite <- !app_assoc in Hs. rewrite app_assoc in Hs.
      rewrite Hs in Hstart.
      pose proof (starts_with_prefix old (c :: seg ++ removelast old)%list
                    ([last old "0"%char] ++ join old (seg' :: segs))%list H)
        as H'.
      rewrite <- app_comm_cons in H'. congruence. }
    intros H. apply occurs_in_cons in H as [H | H]; [congruence |].
    specialize (Hocc H). simpl in *. lia.
Qed.

Lemma app_prefix_of_shorter {A} (a b x y : list A) :
  (a ++ x = b ++ y)%list -> (List.length a <= List.length b)%nat ->
  exists d, b = (a ++ d)%list.
Proof.
  intros H Hlen. apply app_eq_app in H as [l [[-> _] | [-> _]]].
  - rewrite length_app in Hlen. destruct l; [| simpl in Hlen; lia].
    exists []. now rewrite !app_nil_r.
  - now exists l.
Qed.

(** Two cuts of one string at an occurrence of [old], none of them
    after a place where [old] has already ended, are the same cut. *)
Lemma leftmost_cut_first old l1 l2 t1 t2 :
  old <> [] ->
  ~ occurs_in old (l2 ++ removelast old)%list ->
  (l1 ++ old ++ t1 = l2 ++ old ++ t2)%list ->
  (List.length l1 <= List.length l2)%nat ->
  l1 = l2.
Proof.
  intros Hne Hfree H Hlen.
  destruct (app_prefix_of_shorter _ _ _ _ H Hlen) as [l ->].
  destruct l as [|c l]; [now rewrite app_nil_r |]. exfalso.
  rewrite <- app_assoc in H. apply app_inv_head in H.
  rewrite (app_removelast_last "0"%char Hne) in H at 2.
  rewrite <- app_assoc in H. rewrite (app_assoc (c :: l)) in H.
  destruct (app_prefix_of_shorter old ((c :: l) ++ removelast old)%list _ _ H)
    as [d Hd].
  { rewrite length_app. cbn [List.length].
    rewrite (app_removelast_last "0"%char Hne) at 1.
    rewrite length_app. cbn [List.length]. lia. }
  apply Hfree. exists l1, d. rewrite <- app_assoc. now rewrite Hd.
Qed.

(** The cuts of [replace] are the only ones of their kind. *)
Lemma leftmost_cut_unique old :
  old <> [] ->
  forall segs segs',
    segs <> [] -> segs' <> [] ->
    leftmost_cut old segs -> leftmost_cut old segs' ->
    join old segs = join old segs' ->
    segs = segs'.
Proof.
  intros Hne. induction segs as [|seg rest IH]; intros segs' Hn Hn' Hc Hc' Hj;
    [congruence |].
  destruct segs' as [|seg' rest']; [congruence |].
  destruct rest as [|r rest], rest' as [|r' rest'].
  - cbn [join] in Hj. now subst.
  - exfalso. cbn [leftmost_cut] in Hc.
    change (join old (seg' :: r' :: rest'))
      with (seg' ++ old ++ join old (r' :: rest'))%list in Hj.
    cbn [join] in Hj. apply Hc. rewrite Hj. now eexists _, _.
  - exfalso. cbn [leftmost_cut] in Hc'.
    change (join old (seg :: r :: rest))
      with (seg ++ old ++ join old (r :: rest))%list in Hj.
    cbn [join] in Hj. apply Hc'. rewrite <- Hj. now eexists _, _.
  - destruct Hc as [Hfree Hc], Hc' as [Hfree' Hc'].
    change (join old (seg :: r :: rest))
      with (seg ++ old ++ join old (r :: rest))%list in Hj.
    change (join old (seg' :: r' :: rest'))
      with (seg' ++ old ++ join old (r' :: rest'))%list in Hj.
    assert (Hseg : seg = seg').
    { destruct (Nat.le_ge_cases (List.length seg) (List.length seg')) as [L | L].
      - exact (leftmost_cut_first old _ _ _ _ Hne Hfree' Hj L).
      - symmetry. exact (leftmost_cut_first old _ _ _ _ Hne Hfree (eq_sym Hj) L). }
    subst seg'. apply app_inv_head in Hj. apply app_inv_head in Hj.
    f_equal. apply IH; try assumption; discriminate.
Qed.

(** No run of five zeros is left once each has become the placeholder. *)
Lemma replace_scan_zeros_head k s :
  starts_with (repeat "0"%char k)
              (replace_scan (repeat "0"%char 5) (list_ascii_of_string "%05d") s 0)
  = true ->
  starts_with (repeat "0"%char k) s = true.
Proof.
  revert s. induction k as [|k IH]; intros s H; [reflexivity |].
  destruct s as [|c rest]; [discriminate H |].
  destruct (starts_with (repeat "0"%char 5) (c :: rest)) eqn:E.
  - apply starts_with_app in E as [post E]. rewrite E in H.
    rewrite replace_scan_match in H by discriminate.
    discriminate H.
  - rewrite replace_scan_step in H by exact E.
    cbn [repeat starts_with] in H |- *.
    apply andb_prop in H as [Hc Hrest].
    rewrite Hc. cbn [andb]. apply IH, Hrest.
Qed.

Lemma replace_scan_no_zeros s :
  ~ occurs_in (repeat "0"%char 5)
      (replace_scan (repeat "0"%char 5) (list_ascii_of_string "%05d") s 0).
Proof.
  revert s. apply (replace_scan_ind (repeat "0"%char 5)); [discriminate | | |].
  - intros (pre & post & H). destruct pre; discriminate H.
  - intros post IH H. rewrite replace_scan_match in H by discriminate.
    cbn [list_ascii_of_string app] in H.
    do 4 (apply occurs_in_cons in H as [H | H]; [discriminate H |]).
    exact (IH H).
  - intros c rest Hstart IH H. rewrite replace_scan_step in H by exact Hstart.
    apply occurs_in_cons in H as [H | H]; [| exact (IH H)].
    rewrite <- (replace_scan_step _ (list_ascii_of_string "%05d")) in H
      by exact Hstart.
    apply (replace_scan_zeros_head 5) in H. congruence.
Qed.

(** C10: the container readers open the family of files exactly when
    [00000] occurs somewhere in the path they are given, and the name
    they then pass on is the path with every [00000], met from left to
    right, turned into [%05d] (the path is cut at these occurrences, in
    the one way that leaves no [00000] ending before a cut, and the
    pieces are joined by [%05d]).  Both readers start by calling
    [h5py.File] with that request: what they give is what the rest of
    their code gives on the file the call returns, an exception of the
    call is theirs, and nothing else of the library is used. *)
Theorem container_request_family (filename : string) :
  (rq_family (container_request filename) = true <-> occurs "00000" filename) /\
  (occurs "00000" filename ->
   rq_memb_size (container_request filename) = Some (20 * 1024 ^ 3) /\
   ~ occurs "00000" (rq_name (container_request filename)) /\
   exists segs,
     (2 <= List.length segs)%nat /\
     Forall (fun seg => ~ occurs_in (list_ascii_of_string "00000") seg) segs /\
     leftmost_cut (list_ascii_of_string "00000") segs /\
     list_ascii_of_string filename = join (list_ascii_of_string "00000") segs /\
     list_ascii_of_string (rq_name (container_request filename))
     = join (list_ascii_of_string "%05d") segs /\
     (forall segs',
         segs' <> [] ->
         leftmost_cut (list_ascii_of_string "00000") segs' ->
         list_ascii_of_string filename
         = join (list_ascii_of_string "00000") segs' ->
         segs' = segs)) /\
  (~ occurs "00000" filename ->
   container_request filename
   = {| rq_name := filename; rq_family := false; rq_memb_size := None |}) /\
  (forall lib path kw,
      readData lib filename path kw
      = (f <- lib (container_request filename) ;;
         readData (fun _ => Ok f) filename path kw) /\
      getDataSize lib filename path
      = (f <- lib (container_request filename) ;;
         getDataSize (fun _ => Ok f) filename path)) /\
  (forall lib path kw e,
      lib (container_request filename) = Raise e ->
      readData lib filename path kw = Raise e /\
      getDataSize lib filename path = Raise e) /\
  (forall lib lib' path kw,
      lib (container_request filename) = lib' (container_request filename) ->
      readData lib filename path kw = readData lib' filename path kw /\
      getDataSize lib filename path = getDataSize lib' filename path).
Proof.
  assert (Hfind : str_find filename "00000" <> -1 <-> occurs "00000" filename).
  { unfold str_find, occurs. apply find_from_occurs. lia. }
  split; [| split; [| split; [| split; [| split]]]].
  - unfold container_request.
    destruct (Z.eqb_spec (str_find filename "00000") (-1)) as [E | E]; cbn [negb rq_family].
    + split; [discriminate | intros H; apply Hfind in H; congruence].
    + split; [intros _; apply Hfind, E | reflexivity].
  - intros Hocc. apply Hfind in Hocc as Hne. unfold container_request.
    apply Z.eqb_neq in Hne. rewrite Hne. cbn [negb rq_memb_size rq_name].
    split; [reflexivity |]. unfold occurs, str_replace.
    cbn [list_ascii_of_string]. rewrite list_ascii_of_string_of_list_ascii.
    split; [apply replace_scan_no_zeros |].
    destruct (replace_scan_segments (repeat "0"%char 5)
                (list_ascii_of_string "%05d") ltac:(discriminate)
                (list_ascii_of_string filename))
      as (segs & Hn & Hs & Hr & Hf & Hcut & Hlen).
    exists segs.
    split; [apply Hlen, Hocc |]. split; [exact Hf |]. split; [exact Hcut |].
    split; [exact Hs |]. split; [exact Hr |].
    intros segs' Hn' Hcut' Hs'.
    apply (leftmost_cut_unique (repeat "0"%char 5)); try assumption;
      [discriminate | exact (eq_trans (eq_sym Hs') Hs)].
  - intros Hno. unfold container_request.
    destruct (Z.eqb_spec (str_find filename "00000") (-1)) as [E | E];
      [reflexivity |]. exfalso. apply Hno, Hfind, E.
  - intros lib path kw. unfold readData, getDataSize.
    destruct (lib (container_request filename)); split; reflexivity.
  - intros lib path kw e Hfail. unfold readData, getDataSize.
    rewrite Hfail. split; reflexivity.
  - intros lib lib' path kw Hsame. unfold readData, getDataSize.
    rewrite Hsame. split; reflexivity.
Qed.

Lemma container_request_family_witness :
  occurs "00000" "/data/run00000/part_000000.h5" /\
  container_request "/data/run00000/part_000000.h5"
  = {| rq_name := "/data/run%05d/part_%05d0.h5"; rq_family := true;
       rq_memb_size := Some (20 * 1024 ^ 3) |} /\
  ~ occurs "00000" (rq_name (container_request "/data/run00000/part_000000.h5")).
Proof.
  assert (H : occurs "00000" "/data/run00000/part_000000.h5").
  { exists (list_ascii_of_string "/data/run"),
           (list_ascii_of_string "/part_000000.h5"). reflexivity. }
  split; [exact H |]. split; [vm_compute; reflexivity |].
  exact (proj1 (proj2 (proj1 (proj2 (container_request_family
                                       "/data/run00000/part_000000.h5")) H))).
Defined.

(** * Further properties of the reader *)

(** ** The file header *)

Lemma strip_leading_nul_spec l :
  exists k, l = (repeat x00 k ++ strip_leading_nul l)%list /\
            forall t, strip_leading_nul l <> x00 :: t.
Proof.
  induction l as [|b rest IH].
  - exists 0%nat. split; [reflexivity | discriminate].
  - destruct (Byte.byte_eq_dec b x00) as [-> | Hne].
    + destruct IH as (k & E & Hk). exists (S k). cbn [strip_leading_nul repeat app].
      split; [now rewrite <- E | exact Hk].
    + exists 0%nat.
      assert (E : strip_leading_nul (b :: rest) = b :: rest)
        by (destruct b; first [reflexivity | congruence]).
      rewrite E. split; [reflexivity |]. intros t H. congruence.
Qed.

(** What [rstrip(b'\x00')] leaves: the field without its trailing NUL
    bytes. *)
Lemma rstrip_nul_spec bs :
  exists k,
    bs = (rev (strip_leading_nul (rev bs)) ++ repeat x00 k)%list /\
    forall pre, rev (strip_leading_nul (rev bs)) <> (pre ++ [x00])%list.
Proof.
  destruct (strip_leading_nul_spec (rev bs)) as (k & E & Hk).
  exists k. split.
  - rewrite <- (rev_involutive bs) at 1. rewrite E at 1.
    rewrite rev_app_distr. f_equal. apply rev_repeat.
  - intros pre H. apply (f_equal (@rev byte)) in H.
    rewrite rev_involutive, rev_app_distr in H. cbn [rev app] in H.
    exact (Hk _ H).
Qed.

Lemma header_field_slice (data : list byte) (off n : nat) :
  (off + n <= 1024)%nat ->
  bytes_slice 0 (Z.of_nat n) (skipn off (bytes_slice 0 1024 data))
  = bytes_slice (Z.of_nat off) (Z.of_nat n) data.
Proof.
  intros H. unfold bytes_slice. rewrite !Nat2Z.id.
  change (Z.to_nat 0) with 0%nat. cbn [skipn].
  apply slice_of_prefix. change (Z.to_nat 1024) with 1024%nat. exact H.
Qed.

(** X1: on a file of 1024 bytes or more, [getFileHeader] returns its nine
    entries in order, each decoded from its place in the first 1024
    bytes; the data set id is the 80-byte field without its trailing NUL
    bytes. *)
Theorem getFileHeader_decodes_fields host fs fn data :
  fs fn = Some data -> 1024 <= Zlength data ->
  exists dataSetId k,
    Frms6Reader.getFileHeader host fs fn
    = Ok [("fileHeaderSize", PyStruct.VInt (uint_of_bytes host (bytes_slice 0 2 data)));
          ("frameHeaderSize", PyStruct.VInt (uint_of_bytes host (bytes_slice 2 2 data)));
          ("nCCDs", PyStruct.VInt (uint_of_bytes host (bytes_slice 4 1 data)));
          ("maxWidth", PyStruct.VInt (uint_of_bytes host (bytes_slice 5 1 data)));
          ("maxHeight", PyStruct.VInt (uint_of_bytes host (bytes_slice 6 1 data)));
          ("version", PyStruct.VInt (uint_of_bytes host (bytes_slice 7 1 data)));
          ("dataSetId", PyStruct.VBytes dataSetId);
          ("width", PyStruct.VInt (uint_of_bytes host (bytes_slice 88 2 data)));
          ("height", PyStruct.VInt (uint_of_bytes host (bytes_slice 90 2 data)))]%string /\
    bytes_slice 8 80 data = (dataSetId ++ repeat x00 k)%list /\
    forall pre, dataSetId <> (pre ++ [x00])%list.
Proof.
  intros Hfs Hlen.
  destruct (rstrip_nul_spec (bytes_slice 8 80 data)) as (k & Hk & Hlast).
  exists (rev (strip_leading_nul (rev (bytes_slice 8 80 data)))), k.
  split; [| split; assumption].
  unfold Frms6Reader.getFileHeader, py_open.
  rewrite Hfs. cbn [bind]. rewrite fileHeaderSizeInBytes_eq.
  rewrite read_exact by lia.
  unfold PyStruct.unpack.
  let r := eval vm_compute in (PyStruct.prepare Frms6Reader.fileHeaderFormat) in
  change (PyStruct.prepare Frms6Reader.fileHeaderFormat) with r.
  cbn [bind]. rewrite bytes_slice_length by lia. cbn [Z.eqb Pos.eqb].
  pose proof (header_field_slice data 0 2 ltac:(lia)) as E0.
  pose proof (header_field_slice data 2 2 ltac:(lia)) as E2.
  pose proof (header_field_slice data 4 1 ltac:(lia)) as E4.
  pose proof (header_field_slice data 5 1 ltac:(lia)) as E5.
  pose proof (header_field_slice data 6 1 ltac:(lia)) as E6.
  pose proof (header_field_slice data 7 1 ltac:(lia)) as E7.
  pose proof (header_field_slice data 8 80 ltac:(lia)) as E8.
  pose proof (header_field_slice data 88 2 ltac:(lia)) as E88.
  pose proof (header_field_slice data 90 2 ltac:(lia)) as E90.
  set (buf := bytes_slice 0 1024 data) in *.
  cbv -[buf bytes_slice skipn firstn uint_of_bytes rev strip_leading_nul] in *.
  rewrite E0, E2, E4, E5, E6, E7, E8, E88, E90. reflexivity.
Qed.

Lemma getFileHeader_decodes_fields_witness :
  example_fs LittleEndian "run.frms6"%string = Some (example_file LittleEndian) /\
  1024 <= Zlength (example_file LittleEndian) /\
  dict_get
    match Frms6Reader.getFileHeader LittleEndian (example_fs LittleEndian)
            "run.frms6" with
    | Ok d => d
    | Raise _ => []
    end "width"
  = Ok (PyStruct.VInt
          (uint_of_bytes LittleEndian (bytes_slice 88 2 (example_file LittleEndian)))).
Proof.
  assert (H1 : example_fs LittleEndian "run.frms6"%string
               = Some (example_file LittleEndian)) by reflexivity.
  assert (H2 : 1024 <= Zlength (example_file LittleEndian))
    by (vm_compute; discriminate).
  split; [exact H1 |]. split; [exact H2 |].
  destruct (getFileHeader_decodes_fields LittleEndian (example_fs LittleEndian)
              "run.frms6"%string (example_file LittleEndian) H1 H2)
    as (id & k & Hhdr & _).
  rewrite Hhdr. reflexivity.
Defined.

(** X2: [getFileHeader] returns exactly on the files that hold a whole
    file header: a missing file raises [FileNotFoundError], a file of
    fewer than 1024 bytes raises [struct.error]. *)
Theorem getFileHeader_needs_whole_header host fs fn :
  (fs fn = None ->
   Frms6Reader.getFileHeader host fs fn = Raise FileNotFoundError) /\
  (forall data, fs fn = Some data ->
     (Zlength data < 1024 ->
      Frms6Reader.getFileHeader host fs fn = Raise StructError) /\
     (1024 <= Zlength data ->
      is_ok (Frms6Reader.getFileHeader host fs fn) = true)).
Proof.
  split.
  - intros Hfs. unfold Frms6Reader.getFileHeader, py_open. now rewrite Hfs.
  - intros data Hfs. split.
    + apply getFileHeader_short, Hfs.
    + intros Hlen.
      destruct (getFileHeader_ok host fs fn data Hfs Hlen) as (d & Hd & _).
      now rewrite Hd.
Qed.

Lemma getFileHeader_needs_whole_header_witness :
  single_file "h.frms6" (removelast (file_header_bytes BigEndian 2 2))
              "h.frms6"%string
  = Some (removelast (file_header_bytes BigEndian 2 2)) /\
  Zlength (removelast (file_header_bytes BigEndian 2 2)) < 1024 /\
  Frms6Reader.getFileHeader BigEndian
    (single_file "h.frms6" (removelast (file_header_bytes BigEndian 2 2)))
    "h.frms6" = Raise StructError.
Proof.
  assert (H1 : single_file "h.frms6" (removelast (file_header_bytes BigEndian 2 2))
                 "h.frms6"%string
               = Some (removelast (file_header_bytes BigEndian 2 2)))
    by reflexivity.
  assert (H2 : Zlength (removelast (file_header_bytes BigEndian 2 2)) < 1024)
    by (vm_compute; reflexivity).
  split; [exact H1 |]. split; [exact H2 |].
  exact (proj1 (proj2 (getFileHeader_needs_whole_header BigEndian _ _) _ H1) H2).
Defined.

(** ** The shape of a file *)

Lemma byte_val_bound b : 0 <= byte_val b < 256.
Proof.
  unfold byte_val. pose proof (Byte.to_N_bounded b). lia.
Qed.

Lemma le_value_bound bs : 0 <= le_value bs < 256 ^ Zlength bs.
Proof.
  unfold Zlength. induction bs as [|b rest IH].
  - cbn. lia.
  - cbn [le_value List.length]. rewrite Nat2Z.inj_succ, Z.pow_succ_r by lia.
    pose proof (byte_val_bound b). lia.
Qed.

Lemma uint_of_bytes_bound order bs :
  0 <= uint_of_bytes order bs < 256 ^ Zlength bs.
Proof.
  destruct order; cbn [uint_of_bytes]; [apply le_value_bound |].
  replace (Zlength bs) with (Zlength (rev bs))
    by (unfold Zlength; now rewrite length_rev).
  apply le_value_bound.
Qed.

Lemma uint16_field_bound order off (data : list byte) :
  0 <= uint_of_bytes order (bytes_slice off 2 data) < 65536.
Proof.
  pose proof (uint_of_bytes_bound order (bytes_slice off 2 data)) as [H0 H1].
  split; [exact H0 |]. eapply Z.lt_le_trans; [exact H1 |].
  change 65536 with (256 ^ 2). apply Z.pow_le_mono_r; [lia |].
  unfold Zlength, bytes_slice. rewrite length_firstn. lia.
Qed.

(** X3: whatever [getDataShape] returns is the width and the height the
    file header declares, in that order, each below 65536, and a frame
    count that is not negative; on a file smaller than 2^53 + 1024 bytes
    the file is then exactly the file header and that many records. *)
Theorem getDataShape_sound host fs fn data w h N :
  fs fn = Some data ->
  Frms6Reader.getDataShape host fs fn = Ok (w, h, N) ->
  1024 <= Zlength data /\
  w = uint_of_bytes host (bytes_slice 88 2 data) /\
  h = uint_of_bytes host (bytes_slice 90 2 data) /\
  0 <= w < 65536 /\ 0 <= h < 65536 /\ 0 <= N /\
  (Zlength data - 1024 < 2 ^ 53 -> Zlength data = frame_offset w h N).
Proof.
  intros Hfs H.
  destruct (getDataShape_inv host fs fn data w h N Hfs H) as (Hlen & Hw & Hh & HN).
  split; [exact Hlen |]. split; [exact Hw |]. split; [exact Hh |].
  split; [subst w; apply uint16_field_bound |].
  split; [subst h; apply uint16_field_bound |].
  split; [exact HN |]. intros Hbound.
  rewrite (getDataShape_eq host fs fn data Hfs Hlen) in H.
  rewrite <- Hw, <- Hh in H.
  assert (Hrec : 0 < recordSize w h)
    by (subst w h; apply recordSize_pos; apply uint_of_bytes_nonneg).
  destruct (int_true_divide_exactness (Zlength data - 1024) (recordSize w h)
              ltac:(lia) Hrec) as (f & Hdiv & Hint & Hquot).
  rewrite Hdiv in H. cbn [bind] in H.
  destruct (float_is_integer f) eqn:Hf; [| discriminate H].
  cbn [negb] in H. injection H as HNf.
  assert (Hz : (Zlength data - 1024) mod recordSize w h = 0)
    by (apply Hint; reflexivity).
  rewrite (Hquot Hz) in HNf.
  unfold frame_offset. rewrite fileHeaderSizeInBytes_eq.
  pose proof (Z.div_exact (Zlength data - 1024) (recordSize w h) ltac:(lia)) as [_ Hex].
  specialize (Hex Hz). rewrite HNf in Hex. lia.
Qed.

Lemma getDataShape_sound_witness :
  example_fs LittleEndian "run.frms6"%string = Some (example_file LittleEndian) /\
  Frms6Reader.getDataShape LittleEndian (example_fs LittleEndian) "run.frms6"
  = Ok (2, 2, 2) /\
  Zlength (example_file LittleEndian) - 1024 < 2 ^ 53 /\
  Zlength (example_file LittleEndian) = frame_offset 2 2 2.
Proof.
  assert (H1 : example_fs LittleEndian "run.frms6"%string
               = Some (example_file LittleEndian)) by reflexivity.
  assert (H2 : Frms6Reader.getDataShape LittleEndian (example_fs LittleEndian)
                 "run.frms6" = Ok (2, 2, 2)) by (vm_compute; reflexivity).
  assert (H3 : Zlength (example_file LittleEndian) - 1024 < 2 ^ 53)
    by (vm_compute; reflexivity).
  split; [exact H1 |]. split; [exact H2 |]. split; [exact H3 |].
  destruct (getDataShape_sound LittleEndian (example_fs LittleEndian)
              "run.frms6"%string (example_file LittleEndian) 2 2 2 H1 H2)
    as (_ & _ & _ & _ & _ & _ & Hlayout).
  exact (Hlayout H3).
Defined.

(** ** The size of a frame, by the product of the extents *)

Lemma getFrameSizeInBytes_product (frameWidth frameHeight : Z) :
  0 <= frameWidth * frameHeight ->
  Frms6Reader.getFrameSizeInBytes frameWidth frameHeight
  = Ok (frameWidth * frameHeight * 2).
Proof.
  intros H. unfold Frms6Reader.getFrameSizeInBytes. now apply calcsize_count_h.
Qed.

(** ** The fields of the frame headers *)

Lemma frame_field_slice (data : list byte) (off : Z) (o n : nat) :
  0 <= off -> (o + n <= 64)%nat ->
  bytes_slice 0 (Z.of_nat n) (skipn o (bytes_slice off 64 data))
  = bytes_slice (off + Z.of_nat o) (Z.of_nat n) data.
Proof.
  intros Hoff H. unfold bytes_slice. rewrite !Nat2Z.id.
  change (Z.to_nat 0) with 0%nat. cbn [skipn].
  change (Z.to_nat 64) with 64%nat.
  rewrite slice_of_prefix by exact H.
  rewrite skipn_skipn. do 2 f_equal. lia.
Qed.

(** The twelve values of the header of frame [k]. *)
Lemma unpack_frame_header_at host data X Y k :
  0 <= X -> 0 <= Y ->
  frame_offset X Y (Z.of_nat k + 1) <= Zlength data ->
  PyStruct.unpack host Frms6Reader.frameHeaderFormat
                  (frame_header data X Y (Z.of_nat k))
  = let uint o n :=
        PyStruct.VInt
          (uint_of_bytes host
             (bytes_slice (frame_offset X Y (Z.of_nat k) + o) n data)) in
    Ok [uint 0 1; uint 1 1; uint 2 1; uint 3 1; uint 4 4; uint 8 4; uint 12 4;
        PyStruct.VFloat 64
          (uint_of_bytes host
             (bytes_slice (frame_offset X Y (Z.of_nat k) + 16) 8 data));
        uint 24 2; uint 26 2; uint 28 4; uint 32 8].
Proof.
  intros HX HY Hend.
  pose proof (frame_offset_nonneg X Y (Z.of_nat k) HX HY ltac:(lia)) as Hoff.
  pose proof (frame_header_length data X Y (Z.of_nat k) HX HY ltac:(lia) Hend)
    as Hlen.
  assert (Hend64 : frame_offset X Y (Z.of_nat k) + 64 <= Zlength data).
  { rewrite frame_offset_add in Hend. unfold recordSize in Hend.
    rewrite frameHeaderSizeInBytes_eq in Hend.
    pose proof (Z.mul_nonneg_nonneg X Y HX HY). lia. }
  unfold PyStruct.unpack.
  let r := eval vm_compute in (PyStruct.prepare Frms6Reader.frameHeaderFormat) in
  change (PyStruct.prepare Frms6Reader.frameHeaderFormat) with r.
  cbn [bind]. rewrite Hlen. cbn [Z.eqb Pos.eqb].
  unfold frame_header. rewrite frameHeaderSizeInBytes_eq.
  set (off := frame_offset X Y (Z.of_nat k)) in *.
  pose proof (frame_field_slice data off 0 1 Hoff ltac:(lia)) as E0.
  pose proof (frame_field_slice data off 1 1 Hoff ltac:(lia)) as E1.
  pose proof (frame_field_slice data off 2 1 Hoff ltac:(lia)) as E2.
  pose proof (frame_field_slice data off 3 1 Hoff ltac:(lia)) as E3.
  pose proof (frame_field_slice data off 4 4 Hoff ltac:(lia)) as E4.
  pose proof (frame_field_slice data off 8 4 Hoff ltac:(lia)) as E8.
  pose proof (frame_field_slice data off 12 4 Hoff ltac:(lia)) as E12.
  pose proof (frame_field_slice data off 16 8 Hoff ltac:(lia)) as E16.
  pose proof (frame_field_slice data off 24 2 Hoff ltac:(lia)) as E24.
  pose proof (frame_field_slice data off 26 2 Hoff ltac:(lia)) as E26.
  pose proof (frame_field_slice data off 28 4 Hoff ltac:(lia)) as E28.
  pose proof (frame_field_slice data off 32 8 Hoff ltac:(lia)) as E32.
  assert (L16 : Zlength (bytes_slice (off + 16) 8 data) = 8)
    by (apply bytes_slice_length; lia).
  set (buf := bytes_slice off 64 data) in *.
  cbv -[buf off bytes_slice skipn firstn uint_of_bytes sint_of_bytes Zlength
        Z.mul Z.add] in *.
  rewrite E0, E1, E2, E3, E4, E8, E12, E16, E24, E26, E28, E32, L16.
  rewrite Z.add_0_r. reflexivity.
Qed.

Lemma getFrameHeaders_eq host fs fn data w h N :
  fs fn = Some data ->
  Frms6Reader.getDataShape host fs fn = Ok (w, h, N) ->
  frame_offset w h N <= Zlength data ->
  Frms6Reader.getFrameHeaders host fs fn
  = let column i :=
        map (fun k => header_item host data w h k i) (seq 0 (Z.to_nat N)) in
    Ok [("start", column 0%nat); ("info", column 1%nat); ("id", column 2%nat);
        ("height", column 3%nat); ("tv_sec", column 4%nat);
        ("tv_usec", column 5%nat); ("index", column 6%nat);
        ("temp", column 7%nat); ("maxHeight", column 8%nat)]%string.
Proof.
  intros Hfs Hshape Hend.
  destruct (getDataShape_inv host fs fn data w h N Hfs Hshape)
    as (Hlen & Hw & Hh & HN).
  assert (HX : 0 <= w) by (subst w; apply uint_of_bytes_nonneg).
  assert (HY : 0 <= h) by (subst h; apply uint_of_bytes_nonneg).
  unfold Frms6Reader.getFrameHeaders, Frms6Reader.getFrameHeaders_run.
  rewrite Hshape. cbn [bind].
  rewrite getFrameSizeInBytes_ok by assumption. cbn [bind].
  unfold py_open. rewrite Hfs. cbn [bind].
  rewrite seek_abs by (rewrite fileHeaderSizeInBytes_eq; lia). cbn [bind].
  unfold py_range. replace (h * w * 2) with (w * h * 2) by lia.
  change {| Frms6Reader.frameStart := []; Frms6Reader.frameInfo := [];
            Frms6Reader.frameId := []; Frms6Reader.frameHeight := [];
            Frms6Reader.frameTvSec := []; Frms6Reader.frameTvUsec := [];
            Frms6Reader.frameIndex := []; Frms6Reader.frameTemp := [];
            Frms6Reader.frameMaxHeight := [];
            Frms6Reader.scan_fh :=
              {| fh_data := data;
                 fh_pos := Frms6Reader.fileHeaderSizeInBytes;
                 fh_reads := [] |} |}
    with (scan_state_after host data w h 0).
  rewrite (scan_loop host data w h (Z.to_nat N) HX HY).
  - reflexivity.
  - intros _. now rewrite Z2Nat.id by lia.
  - lia.
Qed.

(** X5: the lists [getFrameHeaders] returns hold, for every frame in
    file order, the fields at fixed places of its 64-byte header: the
    four bytes 0 to 3, the 4-byte counts at 4, 8 and 12, the bits of the
    8-byte float at 16, and, under the key [maxHeight], the 2-byte field
    at 24 (the true starting line of the layout). *)
Theorem getFrameHeaders_field_offsets host fs fn data w h N :
  fs fn = Some data ->
  Frms6Reader.getDataShape host fs fn = Ok (w, h, N) ->
  frame_offset w h N <= Zlength data ->
  Frms6Reader.getFrameHeaders host fs fn
  = let uint o n k :=
        PyStruct.VInt
          (uint_of_bytes host
             (bytes_slice (frame_offset w h (Z.of_nat k) + o) n data)) in
    let temp k :=
        PyStruct.VFloat 64
          (uint_of_bytes host
             (bytes_slice (frame_offset w h (Z.of_nat k) + 16) 8 data)) in
    let column f := map f (seq 0 (Z.to_nat N)) in
    Ok [("start", column (uint 0 1)); ("info", column (uint 1 1));
        ("id", column (uint 2 1)); ("height", column (uint 3 1));
        ("tv_sec", column (uint 4 4)); ("tv_usec", column (uint 8 4));
        ("index", column (uint 12 4)); ("temp", column temp);
        ("maxHeight", column (uint 24 2))]%string.
Proof.
  intros Hfs Hshape Hend.
  destruct (getDataShape_inv host fs fn data w h N Hfs Hshape)
    as (Hlen & Hw & Hh & HN).
  assert (HX : 0 <= w) by (subst w; apply uint_of_bytes_nonneg).
  assert (HY : 0 <= h) by (subst h; apply uint_of_bytes_nonneg).
  pose proof (recordSize_pos w h HX HY) as Hrec.
  rewrite (getFrameHeaders_eq host fs fn data w h N Hfs Hshape Hend).
  cbv zeta.
  assert (Hitem : forall k, (k < Z.to_nat N)%nat ->
             PyStruct.unpack host Frms6Reader.frameHeaderFormat
               (frame_header data w h (Z.of_nat k))
             = _)
    by (intros k Hk; apply (unpack_frame_header_at host data w h k HX HY);
        unfold frame_offset in *;
        assert ((Z.of_nat k + 1) * recordSize w h <= N * recordSize w h)
          by (apply Z.mul_le_mono_nonneg_r; lia); lia).
  cbv zeta in Hitem.
  do 2 f_equal; [| f_equal; [| f_equal; [| f_equal; [| f_equal; [| f_equal;
    [| f_equal; [| f_equal; [| f_equal]]]]]]]];
    try (f_equal; apply map_ext_in; intros k Hk; apply in_seq in Hk;
         unfold header_item; rewrite (Hitem k ltac:(lia)); reflexivity).
Qed.

Lemma getFrameHeaders_field_offsets_witness :
  example_fs LittleEndian "run.frms6"%string = Some (example_file LittleEndian) /\
  Frms6Reader.getDataShape LittleEndian (example_fs LittleEndian) "run.frms6"
  = Ok (2, 2, 2) /\
  frame_offset 2 2 2 <= Zlength (example_file LittleEndian) /\
  (v <- Frms6Reader.getFrameHeaders LittleEndian (example_fs LittleEndian)
          "run.frms6" ;; dict_get v "index")
  = Ok [PyStruct.VInt 0; PyStruct.VInt 1].
Proof.
  assert (H1 : example_fs LittleEndian "run.frms6"%string
               = Some (example_file LittleEndian)) by reflexivity.
  assert (H2 : Frms6Reader.getDataShape LittleEndian (example_fs LittleEndian)
                 "run.frms6" = Ok (2, 2, 2)) by (vm_compute; reflexivity).
  assert (H3 : frame_offset 2 2 2 <= Zlength (example_file LittleEndian))
    by (vm_compute; discriminate).
  split; [exact H1 |]. split; [exact H2 |]. split; [exact H3 |].
  rewrite (getFrameHeaders_field_offsets LittleEndian (example_fs LittleEndian)
             "run.frms6"%string (example_file LittleEndian) 2 2 2 H1 H2 H3).
  vm_compute. reflexivity.
Defined.

(** ** Reading frames: failures, reads, and what is returned *)

Lemma read_eq data pos reads size :
  0 <= size ->
  read {| fh_data := data; fh_pos := pos; fh_reads := reads |} size
  = (bytes_slice pos size data,
     {| fh_data := data; fh_pos := pos + Zlength (bytes_slice pos size data);
        fh_reads := (pos, size) :: reads |}).
Proof.
  intros Hs. unfold read. cbn [fh_pos fh_data fh_reads].
  replace (size <? 0) with false by (symmetry; apply Z.ltb_ge; lia).
  reflexivity.
Qed.

Lemma samples16_length_div host n : forall buf,
  (List.length buf <= n)%nat ->
  List.length (samples16 host buf) = (List.length buf / 2)%nat.
Proof.
  induction n as [n IH] using lt_wf_ind. intros buf Hn.
  destruct buf as [|b0 [|b1 rest]]; [reflexivity | reflexivity |].
  cbn [samples16 List.length].
  rewrite (IH (List.length rest)) by (simpl in Hn; lia).
  change (S (S (List.length rest))) with (2 + List.length rest)%nat.
  replace (2 + List.length rest)%nat with (List.length rest + 1 * 2)%nat by lia.
  rewrite Nat.div_add by lia. lia.
Qed.

(** A turn of the loop on a file that ends inside the frame. *)
Lemma read_frame_truncated host data X Y j chunk pos reads :
  0 < X -> 0 < Y -> 0 <= pos ->
  Zlength data < pos + 64 + X * Y * 2 ->
  Frms6Reader.read_frame host (X * Y * 2) X Y j
    (chunk, {| fh_data := data; fh_pos := pos; fh_reads := reads |})
  = Raise ValueError.
Proof.
  intros HX HY Hpos Hshort.
  assert (HXY : 0 < X * Y) by (apply Z.mul_pos_pos; assumption).
  unfold Frms6Reader.read_frame. rewrite frameHeaderSizeInBytes_eq.
  rewrite seek_rel by lia. cbn [bind].
  rewrite read_eq by lia.
  set (got := bytes_slice (pos + 64) (X * Y * 2) data).
  assert (Hgot : (List.length got < Z.to_nat (X * Y * 2))%nat).
  { subst got. unfold bytes_slice. rewrite length_firstn, length_skipn.
    unfold Zlength in Hshort. lia. }
  unfold np_frombuffer_uint16.
  destruct (Zlength got mod 2 =? 0); [| reflexivity].
  cbn [bind]. unfold nd_reshape.
  rewrite check_shape_ok by (repeat constructor; lia).
  cbn [bind map nd_data size_of fold_right].
  rewrite (samples16_length_div host (List.length got)) by lia.
  replace (Z.to_nat Y * (Z.to_nat X * 1) =? List.length got / 2)%nat with false;
    [reflexivity |].
  symmetry. apply Nat.eqb_neq.
  assert (List.length got / 2 < Z.to_nat X * Z.to_nat Y)%nat; [| lia].
  apply Nat.Div0.div_lt_upper_bound.
  rewrite <- Z2Nat.inj_mul by lia.
  replace (X * Y * 2) with (2 * (X * Y)) in Hgot by lia.
  rewrite Z2Nat.inj_mul in Hgot by lia. change (Z.to_nat 2) with 2%nat in Hgot.
  lia.
Qed.

Lemma read_loop_truncated host data X Y n a :
  0 < X -> 0 < Y -> 0 <= frame_offset X Y a ->
  Zlength data < frame_offset X Y (a + Z.of_nat n) ->
  forall m j f reads, (j + m = n)%nat -> (0 < m)%nat ->
    for_each (map Z.of_nat (seq j m))
      (Frms6Reader.read_frame host (X * Y * 2) X Y)
      (nd_make UInt16 [Z.to_nat X; Z.to_nat Y; n] f,
       {| fh_data := data; fh_pos := frame_offset X Y (a + Z.of_nat j);
          fh_reads := reads |})
    = Raise ValueError.
Proof.
  intros HX HY Hoff Hshort.
  pose proof (recordSize_pos X Y ltac:(lia) ltac:(lia)) as Hrec.
  induction m as [|m IH]; intros j f reads Hjm Hm; [lia |].
  cbn [seq map for_each].
  assert (Hposj : 0 <= frame_offset X Y (a + Z.of_nat j))
    by (rewrite frame_offset_add; nia).
  destruct (Z.le_gt_cases (frame_offset X Y (a + Z.of_nat j + 1)) (Zlength data))
    as [Hfits | Hcut].
  - rewrite (read_frame_step host data X Y n a j reads f) by (try lia; assumption).
    cbn [bind].
    replace (a + Z.of_nat j + 1) with (a + Z.of_nat (S j)) in * by lia.
    apply IH; [lia |].
    destruct m; [| lia]. exfalso.
    replace (S j) with n in Hfits by lia. lia.
  - rewrite read_frame_truncated; try assumption; [reflexivity |].
    replace (a + Z.of_nat j + 1) with (a + Z.of_nat j + 1) in Hcut by lia.
    unfold frame_offset, recordSize in *.
    rewrite frameHeaderSizeInBytes_eq in *. lia.
Qed.

(** With positive extents, a range that reaches past the end of the
    file stops at the first frame that is not whole. *)
Lemma readData_truncated host fs fn data X Y a b :
  fs fn = Some data -> 0 < X -> 0 < Y -> 0 <= a < b ->
  Zlength data < frame_offset X Y b ->
  Frms6Reader.readData host fs fn (a, b) X Y = Raise ValueError.
Proof.
  intros Hfs HX HY [Ha Hab] Hshort.
  assert (Hoff : 0 <= frame_offset X Y a)
    by (apply frame_offset_nonneg; lia).
  unfold Frms6Reader.readData, Frms6Reader.readData_run.
  rewrite getFrameSizeInBytes_ok by lia. cbn [bind].
  unfold np_zeros. rewrite check_shape_ok by (repeat constructor; lia).
  cbn [bind map]. unfold py_open. rewrite Hfs. cbn [bind].
  fold (recordSize X Y). fold (frame_offset X Y a).
  rewrite seek_abs by exact Hoff. cbn [bind]. unfold py_range.
  replace (frame_offset X Y a) with (frame_offset X Y (a + Z.of_nat 0%nat))
    by (f_equal; lia).
  rewrite (read_loop_truncated host data X Y (Z.to_nat (b - a)) a HX HY Hoff);
    [reflexivity | | lia | lia].
  replace (a + Z.of_nat (Z.to_nat (b - a))) with b by lia. exact Hshort.
Qed.

(** X7: [readData] looks at the payloads of the frames of its range and
    at nothing else: two files that agree on those payloads give the same
    array, whatever their file headers and frame headers hold. *)
Theorem readData_ignores_headers host fs fn data fs' fn' data' X Y a b :
  fs fn = Some data -> fs' fn' = Some data' ->
  0 <= X -> 0 <= Y -> 0 <= a <= b ->
  frame_offset X Y b <= Zlength data ->
  frame_offset X Y b <= Zlength data' ->
  (forall k, a <= k < b ->
             frame_payload data X Y k = frame_payload data' X Y k) ->
  Frms6Reader.readData host fs fn (a, b) X Y
  = Frms6Reader.readData host fs' fn' (a, b) X Y.
Proof.
  intros Hfs Hfs' HX HY [Ha Hab] Hend Hend' Hsame.
  pose proof (frame_offset_nonneg X Y a HX HY Ha) as Hoff.
  rewrite (readData_ok host fs fn data X Y a b) by (try assumption; auto).
  rewrite (readData_ok host fs' fn' data' X Y a b) by (try assumption; auto).
  f_equal. apply nd_make_ext. intros idx Hb.
  apply in_bounds3 in Hb as (x & y & k & -> & _ & _ & Hk).
  unfold frame_sample. rewrite Hsame by lia. reflexivity.
Qed.

Lemma readData_ignores_headers_witness :
  example_fs LittleEndian "run.frms6"%string = Some (example_file LittleEndian) /\
  single_file "zero.frms6"
    (zeros 1088 ++ encode16 LittleEndian [1; 2; 3; 4]) "zero.frms6"%string
  = Some (zeros 1088 ++ encode16 LittleEndian [1; 2; 3; 4])%list /\
  Frms6Reader.readData LittleEndian (example_fs LittleEndian) "run.frms6"
                       (0, 1) 2 2
  = Frms6Reader.readData LittleEndian
      (single_file "zero.frms6" (zeros 1088 ++ encode16 LittleEndian [1; 2; 3; 4]))
      "zero.frms6" (0, 1) 2 2.
Proof.
  split; [reflexivity |]. split; [reflexivity |].
  apply (readData_ignores_headers LittleEndian (example_fs LittleEndian)
           "run.frms6"%string (example_file LittleEndian)
           (single_file "zero.frms6"
              (zeros 1088 ++ encode16 LittleEndian [1; 2; 3; 4]))
           "zero.frms6"%string
           (zeros 1088 ++ encode16 LittleEndian [1; 2; 3; 4])%list 2 2 0 1);
    try reflexivity; try lia; try (vm_compute; discriminate).
  intros k Hk. replace k with 0 by lia. vm_compute. reflexivity.
Defined.

(** X8: on a file that holds the frames of the range, [readData] issues
    one read per frame, in ascending order, each of exactly the payload
    of its frame (the frame headers are skipped, never read), and leaves
    the handle at the end of the last frame. *)
Theorem readData_reads_only_payloads host fs fn data X Y a b :
  fs fn = Some data -> 0 <= X -> 0 <= Y -> 0 <= a <= b ->
  frame_offset X Y b <= Zlength data ->
  exists chunk fh,
    Frms6Reader.readData_run host fs fn (a, b) X Y = Ok (chunk, fh) /\
    fh_pos fh = frame_offset X Y b /\
    rev (fh_reads fh)
    = map (fun k => (frame_offset X Y (a + Z.of_nat k)
                     + Frms6Reader.frameHeaderSizeInBytes, X * Y * 2))
          (seq 0 (Z.to_nat (b - a))) /\
    Forall (fun r => exists k, a <= k < b /\
                               fst r = frame_offset X Y k + 64 /\
                               fst r + snd r = frame_offset X Y (k + 1))
           (fh_reads fh).
Proof.
  intros Hfs HX HY [Ha Hab] Hend.
  pose proof (frame_offset_nonneg X Y a HX HY Ha) as Hoff.
  do 2 eexists. split.
  { apply (readData_run_ok host fs fn data); try assumption. auto. }
  cbn [fh_pos fh_reads]. split; [reflexivity |]. split.
  { unfold payload_reads. apply rev_involutive. }
  apply Forall_forall. intros [off size] Hin.
  unfold payload_reads in Hin. rewrite <- in_rev in Hin.
  apply in_map_iff in Hin as (k & E & Hk). apply in_seq in Hk.
  injection E as <- <-. exists (a + Z.of_nat k). cbn [fst snd].
  rewrite frameHeaderSizeInBytes_eq. split; [lia |]. split; [reflexivity |].
  unfold frame_offset, recordSize. rewrite frameHeaderSizeInBytes_eq. lia.
Qed.

Lemma readData_reads_only_payloads_witness :
  example_fs LittleEndian "run.frms6"%string = Some (example_file LittleEndian) /\
  frame_offset 2 2 2 <= Zlength (example_file LittleEndian) /\
  exists chunk fh,
    Frms6Reader.readData_run LittleEndian (example_fs LittleEndian) "run.frms6"
                             (0, 2) 2 2 = Ok (chunk, fh) /\
    fh_pos fh = frame_offset 2 2 2.
Proof.
  assert (H1 : example_fs LittleEndian "run.frms6"%string
               = Some (example_file LittleEndian)) by reflexivity.
  assert (H2 : frame_offset 2 2 2 <= Zlength (example_file LittleEndian))
    by (vm_compute; discriminate).
  split; [exact H1 |]. split; [exact H2 |].
  destruct (readData_reads_only_payloads LittleEndian (example_fs LittleEndian)
              "run.frms6"%string (example_file LittleEndian) 2 2 0 2 H1
              ltac:(lia) ltac:(lia) ltac:(lia) H2)
    as (chunk & fh & Hrun & Hpos & _).
  exists chunk, fh. split; assumption.
Defined.

Lemma samples16_uint16 host n : forall buf,
  (List.length buf <= n)%nat -> Forall is_uint16 (samples16 host buf).
Proof.
  induction n as [n IH] using lt_wf_ind. intros buf Hn.
  destruct buf as [|b0 [|b1 rest]]; [constructor | constructor |].
  cbn [samples16]. constructor.
  - cbn [is_uint16].
    pose proof (uint_of_bytes_bound host [b0; b1]) as H.
    change (256 ^ Zlength [b0; b1]) with 65536 in H. exact H.
  - apply (IH (List.length rest)); [simpl in Hn; lia | lia].
Qed.

Lemma nd_get_forall (P : scalar -> Prop) a idx :
  Forall P (nd_data a) -> P (SInt 0) -> P (nd_get a idx).
Proof.
  intros Hall H0. unfold nd_get.
  destruct (nth_in_or_default (offset_of (nd_shape a) idx) (nd_data a) (SInt 0))
    as [Hin | ->]; [| exact H0].
  rewrite Forall_forall in Hall. now apply Hall.
Qed.

Lemma nd_make_forall (P : scalar -> Prop) dt shape f :
  (forall idx, P (f idx)) -> Forall P (nd_data (nd_make dt shape f)).
Proof.
  intros H. apply Forall_forall. intros v Hv.
  cbn [nd_data nd_make] in Hv. apply in_map_iff in Hv as (idx & <- & _). apply H.
Qed.

Lemma for_each_invariant {S} (I : S -> Prop) (body : Z -> S -> result S) :
  (forall x s s', body x s = Ok s' -> I s -> I s') ->
  forall xs s s', for_each xs body s = Ok s' -> I s -> I s'.
Proof.
  intros Hstep. induction xs as [|x xs IH]; intros s s' H Hs.
  - cbn in H. injection H as <-. exact Hs.
  - cbn [for_each] in H. apply bind_ok in H as (s1 & H1 & H2).
    eapply IH; [exact H2 |]. eapply Hstep; eassumption.
Qed.

(** A turn of the loop keeps the array a 16-bit array of its shape. *)
Lemma read_frame_keeps_shape host fsz X Y nx ny n j chunk fh chunk' fh' :
  Frms6Reader.read_frame host fsz X Y j (chunk, fh) = Ok (chunk', fh') ->
  nd_dtype chunk = UInt16 /\ nd_shape chunk = [nx; ny; n] /\
  Forall is_uint16 (nd_data chunk) ->
  nd_dtype chunk' = UInt16 /\ nd_shape chunk' = [nx; ny; n] /\
  Forall is_uint16 (nd_data chunk').
Proof.
  intros H (Hdt & Hsh & Hall). unfold Frms6Reader.read_frame in H.
  apply bind_ok in H as (fh1 & _ & H).
  destruct (read fh1 fsz) as [raw fh2].
  apply bind_ok in H as (cf & Hcf & H).
  apply bind_ok in H as (cf2 & Hcf2 & H).
  apply bind_ok in H as (c3 & Hc3 & H).
  injection H as <- <-.
  assert (Hcf_all : Forall is_uint16 (nd_data cf2)).
  { unfold np_frombuffer_uint16 in Hcf.
    destruct (Zlength raw mod 2 =? 0); [| discriminate Hcf].
    injection Hcf as <-. unfold nd_reshape in Hcf2.
    apply bind_ok in Hcf2 as (shape & _ & Hcf2).
    cbn [nd_data] in Hcf2.
    destruct (_ =? _)%nat; [| discriminate Hcf2].
    injection Hcf2 as <-. cbn [nd_data].
    apply (samples16_uint16 host (List.length raw)). lia. }
  unfold nd_set_frame in Hc3. rewrite Hsh in Hc3. cbv zeta in Hc3.
  destruct (_ || _); [discriminate Hc3 |].
  destruct (list_eq_dec _ _ _); [| discriminate Hc3].
  injection Hc3 as <-. cbn [nd_dtype nd_shape nd_make].
  split; [exact Hdt |]. split; [reflexivity |].
  apply nd_make_forall. intros idx.
  assert (Hzero : is_uint16 (SInt 0)) by (cbn; lia).
  assert (Hv : forall i, is_uint16 (nd_get (np_transpose cf2) i)).
  { intros i. apply nd_get_forall; [| exact Hzero].
    apply nd_make_forall. intros i'. now apply nd_get_forall. }
  destruct idx as [|x [|y [|k [|? ?]]]]; try (now apply nd_get_forall).
  destruct (_ =? _)%nat; [apply Hv | now apply nd_get_forall].
Qed.

(** X9: whatever [readData] returns is a 16-bit array of shape
    (pixels_x, pixels_y, end - start), none of the three negative, with
    as many elements as the shape says and every element between 0 and
    65535. *)
Theorem readData_result_invariant host fs fn a b X Y chunk :
  Frms6Reader.readData host fs fn (a, b) X Y = Ok chunk ->
  0 <= X /\ 0 <= Y /\ a <= b /\
  nd_dtype chunk = UInt16 /\
  nd_shape chunk = [Z.to_nat X; Z.to_nat Y; Z.to_nat (b - a)] /\
  Zlength (nd_data chunk) = X * Y * (b - a) /\
  Forall is_uint16 (nd_data chunk).
Proof.
  intros H. unfold Frms6Reader.readData in H.
  apply bind_ok in H as ([c fh] & Hrun & H). injection H as ->.
  unfold Frms6Reader.readData_run in Hrun.
  apply bind_ok in Hrun as (fsz & _ & Hrun).
  apply bind_ok in Hrun as (c0 & Hc0 & Hrun).
  apply bind_ok in Hrun as (fh0 & _ & Hrun).
  apply bind_ok in Hrun as (fh1 & _ & Hrun).
  unfold np_zeros in Hc0. apply bind_ok in Hc0 as (shape & Hshape & Hc0).
  injection Hc0 as <-. unfold check_shape in Hshape.
  destruct (forallb _ _) eqn:Hdims; [| discriminate Hshape].
  injection Hshape as <-. cbn [forallb] in Hdims.
  apply andb_prop in Hdims as [HX Hdims]. apply andb_prop in Hdims as [HY Hdims].
  apply andb_prop in Hdims as [Hn _].
  apply Z.leb_le in HX, HY, Hn. cbn [map] in Hrun.
  assert (Hinv : nd_dtype chunk = UInt16 /\
                 nd_shape chunk = [Z.to_nat X; Z.to_nat Y; Z.to_nat (b - a)] /\
                 Forall is_uint16 (nd_data chunk)).
  { refine (for_each_invariant
              (fun s => nd_dtype (fst s) = UInt16 /\
                        nd_shape (fst s)
                        = [Z.to_nat X; Z.to_nat Y; Z.to_nat (b - a)] /\
                        Forall is_uint16 (nd_data (fst s)))
              _ _ _ _ (chunk, fh) Hrun _).
    - intros j [c1 f1] [c2 f2] Hstep Hc1.
      exact (read_frame_keeps_shape host _ X Y _ _ _ j c1 f1 c2 f2 Hstep Hc1).
    - cbn [fst nd_dtype nd_shape nd_make]. split; [reflexivity |].
      split; [reflexivity |]. apply nd_make_forall. intros _. cbn. lia. }
  destruct Hinv as (Hdt & Hsh & Hall).
  repeat (split; [first [assumption | lia] |]).
  split; [| exact Hall].
  assert (Hlen : forall s : ndarray * file_handle,
             for_each (py_range (b - a))
               (Frms6Reader.read_frame host fsz X Y)
               (nd_make UInt16 [Z.to_nat X; Z.to_nat Y; Z.to_nat (b - a)]
                  (fun _ => SInt 0), fh1) = Ok s ->
             List.length (nd_data (fst s))
             = size_of [Z.to_nat X; Z.to_nat Y; Z.to_nat (b - a)]).
  { intros s Hs.
    enough (Hboth : nd_shape (fst s)
                    = [Z.to_nat X; Z.to_nat Y; Z.to_nat (b - a)] /\
                    List.length (nd_data (fst s))
                    = size_of [Z.to_nat X; Z.to_nat Y; Z.to_nat (b - a)])
      by exact (proj2 Hboth).
    refine (for_each_invariant
              (fun s => nd_shape (fst s)
                        = [Z.to_nat X; Z.to_nat Y; Z.to_nat (b - a)] /\
                        List.length (nd_data (fst s))
                        = size_of [Z.to_nat X; Z.to_nat Y; Z.to_nat (b - a)])
              _ _ _ _ s Hs _).
    - intros j [c1 f1] [c2 f2] Hstep [Hs1 _]. cbn [fst] in *.
      unfold Frms6Reader.read_frame in Hstep.
      apply bind_ok in Hstep as (? & _ & Hstep).
      destruct (read _ _) as [raw ?].
      apply bind_ok in Hstep as (? & _ & Hstep).
      apply bind_ok in Hstep as (? & _ & Hstep).
      apply bind_ok in Hstep as (c3 & Hc3 & Hstep).
      injection Hstep as <- <-.
      unfold nd_set_frame in Hc3. rewrite Hs1 in Hc3. cbv zeta in Hc3.
      destruct (_ || _); [discriminate Hc3 |].
      destruct (list_eq_dec _ _ _); [| discriminate Hc3].
      injection Hc3 as <-. cbn [nd_shape nd_data nd_make].
      split; [reflexivity |]. now rewrite length_map, length_indices.
    - cbn [fst nd_shape nd_data nd_make]. split; [reflexivity |].
      now rewrite length_map, length_indices. }
  specialize (Hlen (chunk, fh) Hrun). cbn [fst] in Hlen.
  unfold Zlength. rewrite Hlen. cbn [size_of fold_right].
  rewrite !Nat2Z.inj_mul, !Z2Nat.id by lia. lia.
Qed.

Lemma readData_result_invariant_witness :
  Frms6Reader.readData BigEndian (example_fs BigEndian) "run.frms6" (-1, 1) 2 2
  = Ok (nd_make UInt16 [2; 2; 2]%nat
          (fun idx => match idx with
                      | [x; y; 1%nat] => SInt (Z.of_nat (2 * y + x + 1))
                      | _ => SInt 0
                      end)) /\
  Forall is_uint16
    (nd_data (nd_make UInt16 [2; 2; 2]%nat
                (fun idx => match idx with
                            | [x; y; 1%nat] => SInt (Z.of_nat (2 * y + x + 1))
                            | _ => SInt 0
                            end))).
Proof.
  assert (H : Frms6Reader.readData BigEndian (example_fs BigEndian) "run.frms6"
                (-1, 1) 2 2
              = Ok (nd_make UInt16 [2; 2; 2]%nat
                      (fun idx => match idx with
                                  | [x; y; 1%nat] => SInt (Z.of_nat (2 * y + x + 1))
                                  | _ => SInt 0
                                  end)))
    by (vm_compute; reflexivity).
  split; [exact H |].
  exact (proj2 (proj2 (proj2 (proj2 (proj2 (proj2
           (readData_result_invariant _ _ _ _ _ _ _ _ H))))))).
Defined.

(** ** The container reader: shapes, elements, failures *)

Lemma slice_all_none shape k :
  slice_all shape (repeat None k) = map (fun n => (0%nat, n)) shape.
Proof.
  revert k. induction shape as [|n rest IH]; intros k; [reflexivity |].
  destruct k as [|k]; cbn [repeat slice_all slice_bounds map].
  - f_equal. apply (IH 0%nat).
  - f_equal. apply IH.
Qed.

Lemma slice_bounds_within n s :
  (fst (slice_bounds n s) + snd (slice_bounds n s) <= n)%nat.
Proof.
  destruct s as [[a b] |]; cbn [slice_bounds fst snd]; [| lia].
  destruct (Z.ltb_spec a 0), (Z.ltb_spec b 0); lia.
Qed.

(** A slice of a 3-D array, axis by axis. *)
Lemma nd_slice3 a nx ny ni s0 s1 s2 :
  nd_shape a = [nx; ny; ni] ->
  nd_slice a [s0; s1; s2]
  = Ok (nd_make (nd_dtype a)
          [snd (slice_bounds nx s0); snd (slice_bounds ny s1);
           snd (slice_bounds ni s2)]
          (fun idx =>
             nd_get a (shift_index [fst (slice_bounds nx s0);
                                    fst (slice_bounds ny s1);
                                    fst (slice_bounds ni s2)] idx))).
Proof. intros H. unfold nd_slice. rewrite H. reflexivity. Qed.

Lemma nd_get_asarray_make dt shape f idx :
  in_bounds shape idx = true ->
  nd_get (np_asarray_float64 (nd_make dt shape f)) idx = to_float64 (f idx).
Proof.
  intros H. unfold nd_get, np_asarray_float64, nd_make. cbn [nd_shape nd_data].
  apply nth_error_nth.
  rewrite !nth_error_map, (nth_error_indices _ _ H). reflexivity.
Qed.

(** X11: without options, what the container reader returns has the
    shape [getDataSize] reports for the same file and path (for a stored
    array of three or more axes), and as many elements as that shape
    holds. *)
Theorem readData_shape_matches_getDataSize
        (lib : h5_request -> result h5file) filename path kw shape :
  getDataSize lib filename path = Ok shape ->
  (3 <= List.length shape)%nat ->
  image_range kw = None -> x_range kw = None -> y_range kw = None ->
  simulated kw = false ->
  exists arr,
    readData lib filename path kw = Ok arr /\
    nd_shape arr = shape /\
    List.length (nd_data arr) = size_of shape.
Proof.
  intros Hsize Hrank Hi Hx Hy Hsim. unfold getDataSize in Hsize.
  apply bind_ok in Hsize as (f & Hf & Hsize).
  apply bind_ok in Hsize as (ds & Hds & Hsize). injection Hsize as <-.
  unfold readData. cbv zeta. rewrite Hf. cbn [bind].
  rewrite Hi, Hds, Hsim. cbn [bind]. rewrite Hx, Hy.
  unfold nd_slice.
  replace (List.length (A := slice_spec) [None; None; None]
           <=? List.length (nd_shape ds))%nat
    with true by (symmetry; apply Nat.leb_le; exact Hrank).
  cbn [bind]. eexists. split; [reflexivity |].
  cbn [nd_shape nd_data np_asarray_float64 nd_make].
  pose proof (slice_all_none (nd_shape ds) 3) as E. cbn [repeat] in E.
  rewrite E, map_map. cbn [snd]. rewrite map_id.
  split; [reflexivity |]. now rewrite !length_map, length_indices.
Qed.

Lemma readData_shape_matches_getDataSize_witness :
  getDataSize example_h5 "a.h5" "/stream" = Ok [2; 3; 4]%nat /\
  exists arr,
    readData example_h5 "a.h5" "/stream" no_kwargs = Ok arr /\
    nd_shape arr = [2; 3; 4]%nat.
Proof.
  assert (H : getDataSize example_h5 "a.h5" "/stream" = Ok [2; 3; 4]%nat)
    by reflexivity.
  split; [exact H |].
  destruct (readData_shape_matches_getDataSize example_h5 "a.h5" "/stream"
              no_kwargs [2; 3; 4]%nat H ltac:(simpl; lia)
              eq_refl eq_refl eq_refl eq_refl)
    as (arr & Hrun & Hshape & _).
  exists arr. split; assumption.
Defined.

(** X12: on a stored 3-D array that is not flagged simulated, the
    container reader returns the block cut out by the three ranges
    (each clamped to its axis as a Python slice is; a missing range is
    the whole axis): element [x, y, k] of the result is the stored
    element [x0 + x, y0 + y, k0 + k], as a 64-bit float. *)
Theorem readData_slices_stored_array
        (lib : h5_request -> result h5file) filename path kw f ds nx ny ni :
  lib (container_request filename) = Ok f ->
  dict_get f path = Ok ds ->
  nd_shape ds = [nx; ny; ni] ->
  simulated kw = false ->
  (x_range kw = None <-> y_range kw = None) ->
  let bx := slice_bounds nx (x_range kw) in
  let by_ := slice_bounds ny (y_range kw) in
  let bi := slice_bounds ni (image_range kw) in
  exists arr,
    readData lib filename path kw = Ok arr /\
    nd_dtype arr = Float64 /\
    nd_shape arr = [snd bx; snd by_; snd bi] /\
    forall x y k,
      (x < snd bx)%nat -> (y < snd by_)%nat -> (k < snd bi)%nat ->
      in_bounds [nx; ny; ni] [fst bx + x; fst by_ + y; fst bi + k]%nat = true /\
      nd_item arr [x; y; k]
      = Ok (to_float64 (nd_get ds [fst bx + x; fst by_ + y; fst bi + k]%nat)).
Proof.
  intros Hf Hds Hshape Hsim Hranges bx by_ bi.
  pose proof (slice_bounds_within nx (x_range kw)) as Wx.
  pose proof (slice_bounds_within ny (y_range kw)) as Wy.
  pose proof (slice_bounds_within ni (image_range kw)) as Wi.
  fold bx in Wx. fold by_ in Wy. fold bi in Wi.
  assert (Hpix : forall din,
             nd_shape din = [nx; ny; snd bi] ->
             match x_range kw, y_range kw with
             | None, None => nd_slice din [None; None; None]
             | Some xr, Some yr => nd_slice din [Some xr; Some yr; None]
             | _, _ => Raise TypeError
             end
             = Ok (nd_make (nd_dtype din) [snd bx; snd by_; snd bi]
                     (fun idx => nd_get din (shift_index [fst bx; fst by_; 0%nat] idx)))).
  { intros din Hdin. subst bx by_.
    destruct (x_range kw) as [xr |], (y_range kw) as [yr |].
    - now rewrite (nd_slice3 din nx ny (snd bi)).
    - destruct Hranges as [_ Hr]. discriminate (Hr eq_refl).
    - destruct Hranges as [Hr _]. discriminate (Hr eq_refl).
    - now rewrite (nd_slice3 din nx ny (snd bi)). }
  unfold readData. rewrite Hf, Hsim. cbn [bind negb].
  destruct (image_range kw) as [[lo hi] |] eqn:Hir.
  - rewrite Hds. cbn [bind].
    rewrite (nd_slice3 ds nx ny ni) by exact Hshape. cbn [bind].
    change (slice_bounds ni (Some (lo, hi))) with bi.
    rewrite Hpix by reflexivity. cbn [bind].
    eexists. split; [reflexivity |]. split; [reflexivity |].
    split; [reflexivity |].
    intros x y k Hx Hy Hk.
    assert (Hin : in_bounds [nx; ny; ni] [fst bx + x; fst by_ + y; fst bi + k]%nat
                  = true) by (apply in_bounds3_intro; lia).
    split; [exact Hin |].
    unfold nd_item. cbn [nd_shape np_asarray_float64 nd_make].
    rewrite in_bounds3_intro by assumption.
    rewrite nd_get_asarray_make by now apply in_bounds3_intro.
    cbn [shift_index nd_dtype nd_make].
    rewrite nd_get_make by (apply in_bounds3_intro; cbn [slice_bounds snd]; lia).
    cbn [shift_index slice_bounds fst Nat.add]. reflexivity.
  - rewrite Hds. cbn [bind].
    rewrite Hpix by exact Hshape. cbn [bind].
    eexists. split; [reflexivity |]. split; [reflexivity |].
    split; [reflexivity |].
    intros x y k Hx Hy Hk.
    assert (Hin : in_bounds [nx; ny; ni] [fst bx + x; fst by_ + y; fst bi + k]%nat
                  = true) by (apply in_bounds3_intro; lia).
    split; [exact Hin |].
    unfold nd_item. cbn [nd_shape np_asarray_float64 nd_make].
    rewrite in_bounds3_intro by assumption.
    rewrite nd_get_asarray_make by now apply in_bounds3_intro.
    cbn [shift_index]. reflexivity.
Qed.

Lemma readData_slices_stored_array_witness :
  example_h5 (container_request "a.h5") = Ok [("/stream"%string, example_dataset)] /\
  nd_shape example_dataset = [2; 3; 4]%nat /\
  exists arr,
    readData example_h5 "a.h5" "/stream"
      {| image_range := Some (1, 3); x_range := Some (0, 1);
         y_range := Some (1, -1); pixels_x := None; pixels_y := None;
         simulated := false |} = Ok arr /\
    nd_shape arr = [1; 1; 2]%nat /\
    nd_item arr [0; 0; 1]%nat
    = Ok (to_float64 (nd_get example_dataset [0; 1; 2]%nat)).
Proof.
  split; [reflexivity |]. split; [reflexivity |].
  destruct (readData_slices_stored_array example_h5 "a.h5" "/stream"
              {| image_range := Some (1, 3); x_range := Some (0, 1);
                 y_range := Some (1, -1); pixels_x := None; pixels_y := None;
                 simulated := false |}
              [("/stream"%string, example_dataset)] example_dataset
              2 3 4 eq_refl eq_refl eq_refl eq_refl
              ltac:(split; intros H; discriminate H))
    as (arr & Hrun & _ & Hshape & Helem).
  exists arr. split; [exact Hrun |]. split; [exact Hshape |].
  exact (proj2 (Helem 0 0 1 ltac:(vm_compute; lia) ltac:(vm_compute; lia)
                      ltac:(vm_compute; lia)))%nat.
Defined.

Lemma filter_keeps_all {A} (p : A -> bool) (l : list A) :
  (forall x, In x l -> p x = true) -> filter p l = l.
Proof.
  induction l as [|x l IH]; intros H; [reflexivity |].
  cbn [filter]. rewrite (H x (or_introl eq_refl)). f_equal.
  apply IH. intros y Hy. apply H. now right.
Qed.

Lemma np_squeeze_id a :
  (forall n, In n (nd_shape a) -> n <> 1%nat) -> np_squeeze a = a.
Proof.
  intros H. destruct a as [dt shape data]. unfold np_squeeze.
  cbn [nd_dtype nd_shape nd_data] in *. f_equal.
  apply filter_keeps_all. intros n Hn.
  apply negb_true_iff, Nat.eqb_neq, H, Hn.
Qed.

Lemma np_rollaxis_eq a axis n :
  nth_error (nd_shape a) axis = Some n ->
  np_rollaxis a axis
  = Ok (nd_make (nd_dtype a) (n :: remove_at axis (nd_shape a))
          (fun idx =>
             match idx with
             | i :: rest => nd_get a (insert_at axis i rest)
             | [] => SInt 0
             end)).
Proof. intros H. unfold np_rollaxis. now rewrite H. Qed.

(** The three [rollaxis] calls of the simulated branch, on a 3-D array:
    the axes come out reversed. *)
Lemma rollaxis_three a A B C :
  nd_shape a = [A; B; C] ->
  exists r,
    (r1 <- np_rollaxis a 2 ;; r2 <- np_rollaxis r1 2 ;;
     r3 <- np_rollaxis r2 1 ;; Ok r3) = Ok r /\
    nd_dtype r = nd_dtype a /\
    nd_shape r = [C; B; A] /\
    forall c b a', (c < C)%nat -> (b < B)%nat -> (a' < A)%nat ->
                   nd_get r [c; b; a'] = nd_get a [a'; b; c].
Proof.
  intros H.
  rewrite (np_rollaxis_eq a 2 C) by (rewrite H; reflexivity).
  rewrite H. cbn [bind remove_at].
  set (r1 := nd_make (nd_dtype a) [C; A; B] _).
  rewrite (np_rollaxis_eq r1 2 B) by reflexivity.
  cbn [bind remove_at nd_shape nd_dtype r1 nd_make].
  fold r1.
  set (r2 := nd_make (nd_dtype a) [B; C; A] _).
  rewrite (np_rollaxis_eq r2 1 C) by reflexivity.
  cbn [bind remove_at nd_shape nd_dtype r2 nd_make].
  fold r2.
  eexists. split; [reflexivity |]. split; [reflexivity |]. split; [reflexivity |].
  intros c b a' Hc Hb Ha.
  rewrite nd_get_make by now apply in_bounds3_intro.
  cbn [insert_at]. unfold r2.
  rewrite nd_get_make by now apply in_bounds3_intro.
  cbn [insert_at]. unfold r1.
  rewrite nd_get_make by now apply in_bounds3_intro.
  reflexivity.
Qed.

(** What the simulated branch slices along the first axis. *)
Lemma simulated_image_slice ds ni ny nx (ir : option (Z * Z)) :
  nd_shape ds = [ni; ny; nx] ->
  exists din,
    match ir with
    | Some (lo, hi) => nd_slice ds [Some (lo, hi); None; None]
    | None => Ok ds
    end = Ok din /\
    nd_dtype din = nd_dtype ds /\
    nd_shape din = [snd (slice_bounds ni ir); ny; nx] /\
    forall i y x,
      (i < snd (slice_bounds ni ir))%nat -> (y < ny)%nat -> (x < nx)%nat ->
      nd_get din [i; y; x] = nd_get ds [fst (slice_bounds ni ir) + i; y; x]%nat.
Proof.
  intros H. destruct ir as [[lo hi] |].
  - rewrite (nd_slice3 ds ni ny nx) by exact H.
    eexists. split; [reflexivity |]. split; [reflexivity |].
    split; [reflexivity |]. intros i y x Hi Hy Hx.
    rewrite nd_get_make
      by (apply in_bounds3_intro; [exact Hi | exact Hy | exact Hx]).
    reflexivity.
  - exists ds. split; [reflexivity |]. split; [reflexivity |].
    split; [exact H |]. intros; reflexivity.
Qed.

(** X13: flagged simulated, the stored array is taken as (image, y, x)
    and comes back as (x, y, image): element [x, y, k] of the result is
    the stored element [k0 + k, y0 + y, x0 + x], as a 64-bit float, the
    three ranges clamped as Python slices (no axis of length one being
    left to squeeze). *)
Theorem readData_simulated_reverses_axes
        (lib : h5_request -> result h5file) filename path kw f ds ni ny nx :
  lib (container_request filename) = Ok f ->
  dict_get f path = Ok ds ->
  nd_shape ds = [ni; ny; nx] ->
  simulated kw = true ->
  (x_range kw = None <-> y_range kw = None) ->
  let bi := slice_bounds ni (image_range kw) in
  let by_ := slice_bounds ny (y_range kw) in
  let bx := slice_bounds nx (x_range kw) in
  snd bi <> 1%nat -> ny <> 1%nat -> nx <> 1%nat ->
  exists arr,
    readData lib filename path kw = Ok arr /\
    nd_dtype arr = Float64 /\
    nd_shape arr = [snd bx; snd by_; snd bi] /\
    forall x y k,
      (x < snd bx)%nat -> (y < snd by_)%nat -> (k < snd bi)%nat ->
      in_bounds [ni; ny; nx] [fst bi + k; fst by_ + y; fst bx + x]%nat = true /\
      nd_item arr [x; y; k]
      = Ok (to_float64 (nd_get ds [fst bi + k; fst by_ + y; fst bx + x]%nat)).
Proof.
  intros Hf Hds Hshape Hsim Hranges bi by_ bx Hci Hny Hnx.
  pose proof (slice_bounds_within nx (x_range kw)) as Wx.
  pose proof (slice_bounds_within ny (y_range kw)) as Wy.
  pose proof (slice_bounds_within ni (image_range kw)) as Wi.
  fold bx in Wx. fold by_ in Wy. fold bi in Wi.
  destruct (simulated_image_slice ds ni ny nx (image_range kw) Hshape)
    as (din & Hdin & Hdt & Hsh & Hget).
  fold bi in Hsh, Hget.
  assert (Hsq : np_squeeze din = din).
  { apply np_squeeze_id. rewrite Hsh. intros n [<- | [<- | [<- | []]]]; assumption. }
  destruct (rollaxis_three din (snd bi) ny nx Hsh) as (r & Hroll & Hrdt & Hrsh & Hrget).
  unfold readData. cbv zeta. rewrite Hf, Hsim. cbn [bind negb].
  assert (Hfirst : match image_range kw with
                   | Some (lo, hi) =>
                       ds0 <- dict_get f path ;;
                       nd_slice ds0 [Some (lo, hi); None; None]
                   | None => dict_get f path
                   end = Ok din).
  { rewrite Hds. destruct (image_range kw) as [[lo hi] |]; exact Hdin. }
  rewrite Hfirst. cbn [bind]. rewrite Hsq.
  assert (Hroll' : (din0 <- np_rollaxis din 2 ;; din1 <- np_rollaxis din0 2 ;;
                    din2 <- np_rollaxis din1 1 ;; Ok din2) = Ok r) by exact Hroll.
  rewrite Hroll'. cbn [bind].
  assert (Hpix : match x_range kw, y_range kw with
                 | None, None => nd_slice r [None; None; None]
                 | Some xr, Some yr => nd_slice r [Some xr; Some yr; None]
                 | _, _ => Raise TypeError
                 end
                 = Ok (nd_make (nd_dtype r) [snd bx; snd by_; snd bi]
                         (fun idx => nd_get r (shift_index [fst bx; fst by_; 0%nat] idx)))).
  { subst bx by_.
    destruct (x_range kw) as [xr |], (y_range kw) as [yr |].
    - now rewrite (nd_slice3 r nx ny (snd bi)).
    - destruct Hranges as [_ Hr]. discriminate (Hr eq_refl).
    - destruct Hranges as [Hr _]. discriminate (Hr eq_refl).
    - now rewrite (nd_slice3 r nx ny (snd bi)). }
  rewrite Hpix. cbn [bind].
  eexists. split; [reflexivity |]. split; [reflexivity |]. split; [reflexivity |].
  intros x y k Hx Hy Hk.
  split; [apply in_bounds3_intro; lia |].
  unfold nd_item. cbn [nd_shape np_asarray_float64 nd_make].
  rewrite in_bounds3_intro by assumption.
  rewrite nd_get_asarray_make by now apply in_bounds3_intro.
  cbn [shift_index Nat.add].
  rewrite Hrget by lia. rewrite Hget by lia. reflexivity.
Qed.

Lemma readData_simulated_reverses_axes_witness :
  nd_shape example_dataset = [2; 3; 4]%nat /\
  exists arr,
    readData example_h5 "a.h5" "/stream"
      {| image_range := None; x_range := None; y_range := None;
         pixels_x := None; pixels_y := None; simulated := true |} = Ok arr /\
    nd_shape arr = [4; 3; 2]%nat /\
    nd_item arr [3; 1; 0]%nat
    = Ok (to_float64 (nd_get example_dataset [0; 1; 3]%nat)).
Proof.
  split; [reflexivity |].
  destruct (readData_simulated_reverses_axes example_h5 "a.h5" "/stream"
              {| image_range := None; x_range := None; y_range := None;
                 pixels_x := None; pixels_y := None; simulated := true |}
              [("/stream"%string, example_dataset)] example_dataset
              2 3 4 eq_refl eq_refl eq_refl eq_refl
              ltac:(split; reflexivity)
              ltac:(vm_compute; lia) ltac:(lia) ltac:(lia))%nat
    as (arr & Hrun & _ & Hshape & Helem).
  exists arr. split; [exact Hrun |]. split; [exact Hshape |].
  exact (proj2 (Helem 3 1 0 ltac:(vm_compute; lia) ltac:(vm_compute; lia)
                      ltac:(vm_compute; lia)))%nat.
Defined.

(** X14: flagged simulated, a request that keeps exactly one image (a
    range of one image, or a stored array of one image) fails with an
    axis error: the single image axis is squeezed away and the first
    [rollaxis] finds two axes where it moves the third. *)
Theorem readData_simulated_single_image_fails
        (lib : h5_request -> result h5file) filename path kw f ds ni ny nx :
  lib (container_request filename) = Ok f ->
  dict_get f path = Ok ds ->
  nd_shape ds = [ni; ny; nx] ->
  simulated kw = true ->
  snd (slice_bounds ni (image_range kw)) = 1%nat ->
  ny <> 1%nat -> nx <> 1%nat ->
  readData lib filename path kw = Raise AxisError.
Proof.
  intros Hf Hds Hshape Hsim Hone Hny Hnx.
  destruct (simulated_image_slice ds ni ny nx (image_range kw) Hshape)
    as (din & Hdin & _ & Hsh & _).
  unfold readData. cbv zeta. rewrite Hf, Hsim. cbn [bind negb].
  assert (Hfirst : match image_range kw with
                   | Some (lo, hi) =>
                       ds0 <- dict_get f path ;;
                       nd_slice ds0 [Some (lo, hi); None; None]
                   | None => dict_get f path
                   end = Ok din).
  { rewrite Hds. destruct (image_range kw) as [[lo hi] |]; exact Hdin. }
  rewrite Hfirst. cbn [bind].
  unfold np_rollaxis at 3, np_squeeze. cbn [nd_shape].
  rewrite Hsh, Hone. cbn [filter Nat.eqb negb].
  replace (ny =? 1)%nat with false by (symmetry; now apply Nat.eqb_neq).
  replace (nx =? 1)%nat with false by (symmetry; now apply Nat.eqb_neq).
  reflexivity.
Qed.

Lemma readData_simulated_single_image_fails_witness :
  nd_shape example_dataset = [2; 3; 4]%nat /\
  snd (slice_bounds 2 (Some (1, 2))) = 1%nat /\
  readData example_h5 "a.h5" "/stream"
    {| image_range := Some (1, 2); x_range := None; y_range := None;
       pixels_x := None; pixels_y := None; simulated := true |}
  = Raise AxisError.
Proof.
  split; [reflexivity |]. split; [reflexivity |].
  apply (readData_simulated_single_image_fails example_h5 "a.h5" "/stream"
           {| image_range := Some (1, 2); x_range := None; y_range := None;
              pixels_x := None; pixels_y := None; simulated := true |}
           [("/stream"%string, example_dataset)] example_dataset 2 3 4);
    first [reflexivity | lia].
Defined.

(** X15: with one of the two pixel ranges given and the other left out,
    the container reader never returns: when nothing fails before, the
    missing range is indexed and raises [TypeError]. *)
Theorem readData_one_pixel_range_fails
        (lib : h5_request -> result h5file) filename path kw :
  ~ (x_range kw = None <-> y_range kw = None) ->
  is_ok (readData lib filename path kw) = false /\
  (forall f ds,
      lib (container_request filename) = Ok f ->
      dict_get f path = Ok ds ->
      (3 <= List.length (nd_shape ds))%nat ->
      simulated kw = false ->
      readData lib filename path kw = Raise TypeError).
Proof.
  intros Hone.
  assert (Hlast : forall din : ndarray,
             match x_range kw, y_range kw with
             | None, None => nd_slice din [None; None; None]
             | Some xr, Some yr => nd_slice din [Some xr; Some yr; None]
             | _, _ => Raise TypeError
             end = Raise TypeError).
  { intros din. destruct (x_range kw), (y_range kw); try reflexivity;
      exfalso; apply Hone; split; intros H; first [discriminate H | reflexivity]. }
  split.
  - unfold readData. cbv zeta.
    destruct (lib (container_request filename)) as [f |]; [| reflexivity].
    cbn [bind].
    destruct (match image_range kw with
              | Some (lo, hi) => _
              | None => _
              end) as [din |]; [| reflexivity].
    cbn [bind].
    destruct (if simulated kw then _ else _) as [din' |]; [| reflexivity].
    cbn [bind]. now rewrite Hlast.
  - intros f ds Hf Hds Hrank Hsim. unfold readData. cbv zeta.
    rewrite Hf, Hsim. cbn [bind negb].
    destruct (image_range kw) as [[lo hi] |].
    + rewrite Hds. cbn [bind].
      destruct (nd_slice_ok ds [None; None; Some (lo, hi)] Hrank) as (b & Hb & _).
      rewrite Hb. cbn [bind]. now rewrite Hlast.
    + rewrite Hds. cbn [bind]. now rewrite Hlast.
Qed.

Lemma readData_one_pixel_range_fails_witness :
  readData example_h5 "a.h5" "/stream"
    {| image_range := None; x_range := Some (0, 1); y_range := None;
       pixels_x := None; pixels_y := None; simulated := false |}
  = Raise TypeError.
Proof.
  apply (proj2 (readData_one_pixel_range_fails example_h5 "a.h5" "/stream"
                  {| image_range := None; x_range := Some (0, 1); y_range := None;
                     pixels_x := None; pixels_y := None; simulated := false |}
                  ltac:(intros [_ H]; discriminate (H eq_refl)))
               [("/stream"%string, example_dataset)] example_dataset);
    first [reflexivity | simpl; lia].
Defined.

(** ** Widening to 64-bit floats *)

Lemma int_true_divide_opp n d f :
  0 < n -> 0 < d -> int_true_divide n d = Ok f ->
  int_true_divide (- n) d = Ok {| f_man := - f_man f; f_exp := f_exp f |}.
Proof.
  intros Hn Hd. unfold int_true_divide.
  replace (d =? 0) with false by (symmetry; apply Z.eqb_neq; lia).
  replace (n =? 0) with false by (symmetry; apply Z.eqb_neq; lia).
  replace (- n =? 0) with false by (symmetry; apply Z.eqb_neq; lia).
  rewrite Z.abs_opp, Z.sgn_opp, !Z.sgn_pos by lia.
  set (q := pos_true_divide (Z.abs n) (Z.abs d)).
  intros H.
  assert (E : f = {| f_man := 1 * 1 * f_man q; f_exp := f_exp q |}) by congruence.
  rewrite E. cbn [f_man f_exp]. f_equal. f_equal. lia.
Qed.

(** X16: the widening to 64-bit floats the container reader ends with
    loses nothing on stored integers below 2^53 in magnitude (16-bit
    detector counts among them): the float that comes back is an integer
    and is the stored value. *)
Theorem widening_to_float64_is_exact z :
  - 2 ^ 53 < z < 2 ^ 53 ->
  exists f,
    to_float64 (SInt z) = SFloat f /\
    float_is_integer f = true /\
    int_of_float f = z.
Proof.
  intros [Hlo Hhi]. cbn [to_float64]. unfold float_of_int.
  destruct (Z.le_gt_cases 0 z) as [Hz | Hz].
  - destruct (int_true_divide_exactness z 1 ltac:(lia) ltac:(lia))
      as (f & Hdiv & Hint & Hquot).
    rewrite Hdiv. exists f. split; [reflexivity |].
    split; [apply Hint, Z.mod_1_r |].
    rewrite (Hquot (Z.mod_1_r z)). apply Z.div_1_r.
  - destruct (int_true_divide_exactness (- z) 1 ltac:(lia) ltac:(lia))
      as (f & Hdiv & Hint & Hquot).
    pose proof (int_true_divide_opp (- z) 1 f ltac:(lia) ltac:(lia) Hdiv) as Hneg.
    rewrite Z.opp_involutive in Hneg. rewrite Hneg.
    eexists. split; [reflexivity |].
    assert (Hf : float_is_integer f = true) by apply Hint, Z.mod_1_r.
    assert (Hv : int_of_float f = - z)
      by (rewrite (Hquot (Z.mod_1_r _)); apply Z.div_1_r).
    unfold float_is_integer, int_of_float in *. cbn [f_man f_exp].
    destruct (Z.leb_spec 0 (f_exp f)) as [He | He].
    + split; [reflexivity | lia].
    + assert (HT : 2 ^ (- f_exp f) <> 0).
      { pose proof (Z.pow_pos_nonneg 2 (- f_exp f) ltac:(lia) ltac:(lia)). lia. }
      apply Z.eqb_eq in Hf. split.
      * apply Z.eqb_eq. now apply Z.mod_opp_l_z.
      * rewrite Z.quot_opp_l by exact HT. lia.
Qed.

Lemma widening_to_float64_is_exact_witness :
  - 2 ^ 53 < 65535 < 2 ^ 53 /\
  exists f,
    to_float64 (SInt 65535) = SFloat f /\
    float_is_integer f = true /\ int_of_float f = 65535.
Proof.
  split; [lia |]. apply widening_to_float64_is_exact. lia.
Defined.

(** ** The shape of a file, then its frames *)

Lemma getDataShape_layout host fs fn data w h N :
  fs fn = Some data ->
  Frms6Reader.getDataShape host fs fn = Ok (w, h, N) ->
  Zlength data - 1024 < 2 ^ 53 ->
  0 <= w /\ 0 <= h /\ 0 <= N /\ Zlength data = frame_offset w h N.
Proof.
  intros Hfs H Hbound.
  destruct (getDataShape_inv host fs fn data w h N Hfs H) as (Hlen & Hw & Hh & HN).
  assert (HX : 0 <= w) by (subst w; apply uint_of_bytes_nonneg).
  assert (HY : 0 <= h) by (subst h; apply uint_of_bytes_nonneg).
  repeat (split; [assumption |]).
  rewrite (getDataShape_eq host fs fn data Hfs Hlen) in H.
  rewrite <- Hw, <- Hh in H.
  pose proof (recordSize_pos w h HX HY) as Hrec.
  destruct (int_true_divide_exactness (Zlength data - 1024) (recordSize w h)
              ltac:(lia) Hrec) as (f & Hdiv & Hint & Hquot).
  rewrite Hdiv in H. cbn [bind] in H.
  destruct (float_is_integer f) eqn:Hf; [| discriminate H].
  cbn [negb] in H. injection H as HNf.
  assert (Hz : (Zlength data - 1024) mod recordSize w h = 0)
    by (apply Hint; reflexivity).
  rewrite (Hquot Hz) in HNf.
  unfold frame_offset. rewrite fileHeaderSizeInBytes_eq.
  pose proof (Z.div_exact (Zlength data - 1024) (recordSize w h) ltac:(lia)) as [_ Hex].
  specialize (Hex Hz). rewrite HNf in Hex. lia.
Qed.

(** X17: what [getDataShape] returns is what [readData] needs: on a
    file smaller than 2^53 + 1024 bytes, reading the range from 0 to the
    frame count with the width and height returned gives the whole
    file, a (width, height, count) array whose element [x, y, k] is
    sample [y * width + x] of the payload of frame [k]. *)
Theorem readData_after_getDataShape host fs fn data w h N :
  fs fn = Some data ->
  Frms6Reader.getDataShape host fs fn = Ok (w, h, N) ->
  Zlength data - 1024 < 2 ^ 53 ->
  exists chunk,
    Frms6Reader.readData host fs fn (0, N) w h = Ok chunk /\
    nd_shape chunk = [Z.to_nat w; Z.to_nat h; Z.to_nat N] /\
    forall x y k,
      (x < Z.to_nat w)%nat -> (y < Z.to_nat h)%nat -> (k < Z.to_nat N)%nat ->
      nd_item chunk [x; y; k]
      = Ok (nth (y * Z.to_nat w + x)
                (samples16 host (frame_payload data w h (Z.of_nat k)))
                (SInt 0)).
Proof.
  intros Hfs Hshape Hbound.
  destruct (getDataShape_layout host fs fn data w h N Hfs Hshape Hbound)
    as (HX & HY & HN & Hlen).
  eexists. split.
  { apply (readData_ok host fs fn data); try assumption; try lia.
    apply frame_offset_nonneg; lia. }
  rewrite Z.sub_0_r. split; [reflexivity |].
  intros x y k Hx Hy Hk. unfold nd_item, chunk_of. cbn [nd_shape nd_make].
  rewrite in_bounds3_intro by assumption.
  rewrite nd_get_make by now apply in_bounds3_intro.
  reflexivity.
Qed.

Lemma readData_after_getDataShape_witness :
  example_fs BigEndian "run.frms6"%string = Some (example_file BigEndian) /\
  Frms6Reader.getDataShape BigEndian (example_fs BigEndian) "run.frms6"
  = Ok (2, 2, 2) /\
  Zlength (example_file BigEndian) - 1024 < 2 ^ 53 /\
  exists chunk,
    Frms6Reader.readData BigEndian (example_fs BigEndian) "run.frms6" (0, 2) 2 2
    = Ok chunk /\
    nd_shape chunk = [2; 2; 2]%nat.
Proof.
  assert (H1 : example_fs BigEndian "run.frms6"%string
               = Some (example_file BigEndian)) by reflexivity.
  assert (H2 : Frms6Reader.getDataShape BigEndian (example_fs BigEndian)
                 "run.frms6" = Ok (2, 2, 2)) by (vm_compute; reflexivity).
  assert (H3 : Zlength (example_file BigEndian) - 1024 < 2 ^ 53)
    by (vm_compute; reflexivity).
  split; [exact H1 |]. split; [exact H2 |]. split; [exact H3 |].
  destruct (readData_after_getDataShape BigEndian (example_fs BigEndian)
              "run.frms6"%string (example_file BigEndian) 2 2 2 H1 H2 H3)
    as (chunk & Hrun & Hsh & _).
  exists chunk. split; assumption.
Defined.

(** * The reader within the limits of the runtime *)

(** The properties above hold of the reader over unbounded integers.
    Those that say what a returned array holds carry over to an
    interpreter with limits, since a call that returns within the limits
    returns the same without them ([limits_readData_refines]).  Those that
    say that a call returns, or how it fails, need the limits; they
    follow. *)

(** ** [calcsize] with the overflow checks *)

Lemma ssize_max_eq : Limits.ssize_max = 9223372036854775807.
Proof. reflexivity. Qed.

(** The two header layouts are far from the limit: their sizes are the
    same with the checks. *)
Lemma limits_calcsize_headers :
  Limits.calcsize Frms6Reader.fileHeaderFormat
  = Ok Frms6Reader.fileHeaderSizeInBytes /\
  Limits.calcsize Frms6Reader.frameHeaderFormat
  = Ok Frms6Reader.frameHeaderSizeInBytes.
Proof. split; reflexivity. Qed.

Lemma limits_scan_digit t d rest num items size :
  0 <= d < 10 ->
  Limits.scan t (digit_char d :: rest) num items size
  = match num with
    | None => Limits.scan t rest (Some d) items size
    | Some n =>
        if Limits.ssize_max <? 10 * n + d then Raise StructError
        else Limits.scan t rest (Some (10 * n + d)) items size
    end.
Proof.
  intros H. destruct (digit_char_is_digit d H) as [H1 H2].
  cbn [Limits.scan]. rewrite H1, H2. reflexivity.
Qed.

Lemma limits_scan_digits t f n acc items size :
  0 <= n < 10 ^ Z.of_nat (S f) ->
  Limits.scan t (digits_acc (S f) n acc) None items size
  = if Limits.ssize_max <? n then Raise StructError
    else Limits.scan t acc (Some n) items size.
Proof.
  revert n acc. induction f as [|f IH]; intros n acc Hn.
  - change (10 ^ Z.of_nat 1) with 10 in Hn.
    cbn [digits_acc].
    replace (n <? 10) with true by (symmetry; apply Z.ltb_lt; lia).
    rewrite limits_scan_digit by (apply Z.mod_pos_bound; lia).
    rewrite Z.mod_small by lia.
    replace (Limits.ssize_max <? n) with false; [reflexivity |].
    symmetry. apply Z.ltb_ge. rewrite ssize_max_eq. lia.
  - change (digits_acc (S (S f)) n acc)
      with (let acc' := digit_char (n mod 10) :: acc in
            if n <? 10 then acc' else digits_acc (S f) (n / 10) acc').
    cbv zeta. destruct (Z.ltb_spec n 10) as [Hlt | Hge].
    + rewrite limits_scan_digit by (apply Z.mod_pos_bound; lia).
      rewrite Z.mod_small by lia.
      replace (Limits.ssize_max <? n) with false; [reflexivity |].
      symmetry. apply Z.ltb_ge. rewrite ssize_max_eq. lia.
    + pose proof (Z.div_mod n 10 ltac:(lia)) as Hdm.
      pose proof (Z.mod_pos_bound n 10 ltac:(lia)) as Hmod.
      rewrite IH.
      * destruct (Z.ltb_spec Limits.ssize_max (n / 10)) as [Hbig | Hsmall].
        -- replace (Limits.ssize_max <? n) with true; [reflexivity |].
           symmetry. apply Z.ltb_lt. lia.
        -- rewrite limits_scan_digit by exact Hmod.
           replace (10 * (n / 10) + n mod 10) with n by lia. reflexivity.
      * split; [apply Z.div_pos; lia |].
        apply Z.div_lt_upper_bound; [lia |].
        rewrite (Nat2Z.inj_succ (S f)), Z.pow_succ_r in Hn by lia. lia.
Qed.

(** [calcsize] of a count followed by [h], with the limit of the
    interpreter. *)
Lemma limits_calcsize_count_h n :
  0 <= n ->
  Limits.calcsize (str_of_int n ++ "h")
  = if Limits.ssize_max <? n * 2 then Raise StructError else Ok (n * 2).
Proof.
  intros Hn. unfold Limits.calcsize, str_of_int.
  replace (n <? 0) with false by (symmetry; apply Z.ltb_ge; lia).
  rewrite Z.abs_eq by lia.
  rewrite list_ascii_of_string_app, list_ascii_of_string_of_list_ascii.
  rewrite digits_acc_app. simpl app.
  destruct (digits_acc_head (Z.to_nat (Z.log2 n)) n ["h"%char] Hn)
    as (d & rest & E & Hd).
  rewrite E, (whichtable_digit _ _ Hd), <- E.
  rewrite limits_scan_digits by (split; [lia | apply lt_pow10_log2; lia]).
  destruct (Z.ltb_spec Limits.ssize_max n) as [Hbig | Hsmall].
  - replace (Limits.ssize_max <? n * 2) with true; [reflexivity |].
    symmetry. apply Z.ltb_lt. lia.
  - cbn [Limits.scan].
    change (PyStruct.is_digit "h"%char) with false.
    change (PyStruct.is_space "h"%char) with false. cbn [andb].
    change (PyStruct.getentry _ "h"%char)
      with (Some {| PyStruct.e_size := 2; PyStruct.e_align := 2 |}).
    cbn [PyStruct.e_size]. change (PyStruct.align 0 _) with 0.
    replace (Limits.ssize_max <? 0) with false by reflexivity.
    change ((Limits.ssize_max - 0) / 2) with 4611686018427387903.
    rewrite ssize_max_eq in *.
    destruct (Z.ltb_spec 4611686018427387903 n) as [Hover | Hfits].
    + replace (9223372036854775807 <? n * 2) with true; [reflexivity |].
      symmetry. apply Z.ltb_lt. lia.
    + replace (9223372036854775807 <? n * 2) with false; [cbn; f_equal; lia |].
      symmetry. apply Z.ltb_ge. lia.
Qed.

Lemma limits_calcsize_negative n :
  n < 0 -> Limits.calcsize (str_of_int n ++ "h") = Raise StructError.
Proof.
  intros Hneg. unfold Limits.calcsize, str_of_int.
  replace (n <? 0) with true by (symmetry; apply Z.ltb_lt; lia).
  rewrite list_ascii_of_string_app, list_ascii_of_string_of_list_ascii.
  reflexivity.
Qed.

(** ** [str] and [getFrameSizeInBytes] with their limits *)

Lemma ssize_max_digits : Limits.ssize_max < 10 ^ 640.
Proof. vm_compute. reflexivity. Qed.

(** An int of at most 640 digits is printed, whatever the setting. *)
Lemma limits_str_of_int_ok pf n :
  Z.abs n < 10 ^ 640 -> Limits.str_of_int pf n = Ok (str_of_int n).
Proof.
  intros H. unfold Limits.str_of_int.
  replace (10 ^ Z.max (max_str_digits pf) 640 <=? Z.abs n) with false;
    [now rewrite andb_false_r |].
  symmetry. apply Z.leb_gt. eapply Z.lt_le_trans; [exact H |].
  apply Z.pow_le_mono_r; lia.
Qed.

Lemma limits_str_of_int_refines pf n s :
  Limits.str_of_int pf n = Ok s -> s = str_of_int n.
Proof.
  unfold Limits.str_of_int. destruct (_ && _); [discriminate |].
  intros H. now injection H as <-.
Qed.

Lemma limits_str_of_int_long pf n :
  0 < max_str_digits pf -> 10 ^ Z.max (max_str_digits pf) 640 <= Z.abs n ->
  Limits.str_of_int pf n = Raise ValueError.
Proof.
  intros HL Hn. unfold Limits.str_of_int.
  replace (0 <? max_str_digits pf) with true
    by (symmetry; apply Z.ltb_lt; exact HL).
  replace (10 ^ Z.max (max_str_digits pf) 640 <=? Z.abs n) with true
    by (symmetry; apply Z.leb_le; exact Hn).
  reflexivity.
Qed.

Lemma limits_getFrameSizeInBytes_ok pf (frameWidth frameHeight : Z) :
  0 <= frameWidth * frameHeight ->
  frameWidth * frameHeight * 2 <= Limits.ssize_max ->
  Limits.getFrameSizeInBytes pf frameWidth frameHeight
  = Ok (frameWidth * frameHeight * 2).
Proof.
  intros H Hfit. unfold Limits.getFrameSizeInBytes.
  rewrite limits_str_of_int_ok by (pose proof ssize_max_digits; lia).
  cbn [bind]. rewrite limits_calcsize_count_h by exact H.
  replace (Limits.ssize_max <? frameWidth * frameHeight * 2) with false;
    [reflexivity | symmetry; apply Z.ltb_ge; exact Hfit].
Qed.

(** No size comes back for a negative product, nor for a frame beyond
    [sys.maxsize]. *)
Lemma limits_getFrameSizeInBytes_fails pf (frameWidth frameHeight : Z) :
  frameWidth * frameHeight < 0
  \/ Limits.ssize_max < frameWidth * frameHeight * 2 ->
  exists e, Limits.getFrameSizeInBytes pf frameWidth frameHeight = Raise e /\
            (Z.abs (frameWidth * frameHeight) < 10 ^ 640 -> e = StructError).
Proof.
  intros Hbad. unfold Limits.getFrameSizeInBytes.
  destruct (Limits.str_of_int pf (frameWidth * frameHeight)) as [s | e] eqn:E.
  - apply limits_str_of_int_refines in E. subst s. cbn [bind].
    exists StructError. split; [| reflexivity].
    destruct (Z.lt_ge_cases (frameWidth * frameHeight) 0) as [Hneg | Hpos].
    + now apply limits_calcsize_negative.
    + rewrite limits_calcsize_count_h by exact Hpos.
      replace (Limits.ssize_max <? frameWidth * frameHeight * 2) with true;
        [reflexivity | symmetry; apply Z.ltb_lt; lia].
  - exists e. split; [reflexivity |]. intros Hshort.
    rewrite limits_str_of_int_ok in E by exact Hshort. discriminate E.
Qed.

(** Where the limited call returns, the unbounded one returns the
    same. *)
Lemma limits_getFrameSizeInBytes_refines pf (frameWidth frameHeight n : Z) :
  Limits.getFrameSizeInBytes pf frameWidth frameHeight = Ok n ->
  Frms6Reader.getFrameSizeInBytes frameWidth frameHeight = Ok n.
Proof.
  intros H.
  destruct (Z.lt_ge_cases (frameWidth * frameHeight) 0) as [Hneg | Hpos].
  - destruct (limits_getFrameSizeInBytes_fails pf frameWidth frameHeight
                (or_introl Hneg)) as (e & He & _).
    congruence.
  - unfold Limits.getFrameSizeInBytes in H.
    apply bind_ok in H as (s & Hs & H).
    apply limits_str_of_int_refines in Hs. subst s.
    rewrite limits_calcsize_count_h in H by exact Hpos.
    destruct (_ <? _); [discriminate H |]. injection H as <-.
    now apply getFrameSizeInBytes_product.
Qed.

(** ** [seek], [read] and [np.zeros] with their limits *)

Lemma limits_seek_ok pf data pos reads off whence :
  - Limits.ssize_max - 1 <= off <= Limits.ssize_max ->
  0 <= (if whence =? 1 then pos + off else off) <= maxbytes pf ->
  Limits.seek pf {| fh_data := data; fh_pos := pos; fh_reads := reads |}
              off whence
  = seek {| fh_data := data; fh_pos := pos; fh_reads := reads |} off whence.
Proof.
  intros Hoff Htarget. unfold Limits.seek, seek. cbn [fh_pos fh_data fh_reads].
  replace (off <? - Limits.ssize_max - 1) with false
    by (symmetry; apply Z.ltb_ge; lia).
  replace (Limits.ssize_max <? off) with false
    by (symmetry; apply Z.ltb_ge; lia).
  cbn [orb].
  replace ((if whence =? 1 then pos + off else off) <? 0) with false
    by (symmetry; apply Z.ltb_ge; lia).
  replace (maxbytes pf <? (if whence =? 1 then pos + off else off)) with false
    by (symmetry; apply Z.ltb_ge; lia).
  reflexivity.
Qed.

Lemma limits_seek_refines pf fh off whence fh' :
  Limits.seek pf fh off whence = Ok fh' -> seek fh off whence = Ok fh'.
Proof.
  unfold Limits.seek, seek. destruct (_ || _); [discriminate |].
  destruct (Z.ltb_spec (if whence =? 1 then fh_pos fh + off else off) 0);
    cbn [orb]; [discriminate |].
  destruct (_ <? _); [discriminate | exact (fun H => H)].
Qed.

Lemma limits_read_ok pf fh size :
  0 <= size -> size <= memory pf -> size <= Limits.ssize_max - 33 ->
  Limits.read pf fh size = Ok (read fh size).
Proof.
  intros H0 Hm Hs. unfold Limits.read.
  replace (size <? -1) with false by (symmetry; apply Z.ltb_ge; lia).
  replace (Limits.ssize_max - 33 <? size) with false
    by (symmetry; apply Z.ltb_ge; lia).
  replace (memory pf <? size) with false by (symmetry; apply Z.ltb_ge; lia).
  reflexivity.
Qed.

Lemma limits_read_refines pf fh size r :
  Limits.read pf fh size = Ok r -> r = read fh size.
Proof.
  unfold Limits.read. repeat (destruct (_ <? _); [discriminate |]).
  intros H. now injection H as <-.
Qed.

Lemma limits_nbytes_negative dims :
  Exists (fun d => d < 0) dims ->
  forall nbytes, Limits.nbytes_checked dims nbytes = Raise ValueError.
Proof.
  induction 1 as [d rest Hd | d rest _ IH]; intros nbytes;
    cbn [Limits.nbytes_checked].
  - destruct (Z.eqb_spec d 0); [lia |].
    replace (d <? 0) with true by (symmetry; apply Z.ltb_lt; lia).
    reflexivity.
  - destruct (d =? 0); [apply IH |].
    destruct (d <? 0); [reflexivity |].
    destruct (_ <? _); [reflexivity | apply IH].
Qed.

(** A negative extent is a [ValueError], whatever the others are. *)
Lemma limits_np_zeros_negative pf dims dt :
  Exists (fun d => d < 0) dims ->
  Limits.np_zeros pf dims dt = Raise ValueError.
Proof.
  intros H. unfold Limits.np_zeros. destruct (forallb _ _); [| reflexivity].
  now rewrite limits_nbytes_negative.
Qed.

Lemma limits_np_zeros_refines pf dims dt a :
  Limits.np_zeros pf dims dt = Ok a -> np_zeros dims dt = Ok a.
Proof.
  unfold Limits.np_zeros. destruct (forallb _ _); [| discriminate].
  destruct (Limits.nbytes_checked _ _); [| discriminate]. cbn [bind].
  destruct (_ && _); [discriminate | exact (fun H => H)].
Qed.

(** The size check on extents that are not negative: an extent of
    zero counts as one. *)
Lemma limits_nbytes_nonneg dims :
  Forall (fun d => 0 <= d) dims ->
  forall nbytes, 1 <= nbytes <= Limits.ssize_max ->
    Limits.nbytes_checked dims nbytes
    = if Limits.ssize_max
         <? nbytes * fold_right (fun d p => Z.max d 1 * p) 1 dims
      then Raise ValueError
      else Ok (nbytes * fold_right (fun d p => Z.max d 1 * p) 1 dims).
Proof.
  induction 1 as [|d rest Hd Hrest IH]; intros nbytes Hnb.
  - cbn [Limits.nbytes_checked fold_right]. rewrite Z.mul_1_r.
    replace (Limits.ssize_max <? nbytes) with false; [reflexivity |].
    symmetry. apply Z.ltb_ge. lia.
  - cbn [Limits.nbytes_checked fold_right].
    set (P := fold_right (fun d p => Z.max d 1 * p) 1 rest) in *.
    assert (HP : 1 <= P).
    { subst P. clear. induction rest as [|e rest IH]; cbn [fold_right]; nia. }
    destruct (Z.eqb_spec d 0) as [-> | Hnz].
    + rewrite IH by exact Hnb. change (Z.max 0 1) with 1.
      now rewrite Z.mul_1_l.
    + replace (d <? 0) with false by (symmetry; apply Z.ltb_ge; lia).
      rewrite Z.max_l by lia.
      destruct (Z.ltb_spec Limits.ssize_max (nbytes * d)) as [Hover | Hfits].
      * replace (Limits.ssize_max <? nbytes * (d * P)) with true;
          [reflexivity |].
        symmetry. apply Z.ltb_lt. nia.
      * rewrite IH by nia. now rewrite Z.mul_assoc.
Qed.

(** [np.zeros] of three extents that are not negative. *)
Lemma limits_np_zeros_eq pf X Y n :
  0 <= X -> 0 <= Y -> 0 <= n ->
  Limits.np_zeros pf [X; Y; n] UInt16
  = if Limits.ssize_max <? 2 * Z.max X 1 * Z.max Y 1 * Z.max n 1
    then Raise ValueError
    else if (0 <? X * Y * n) && (memory pf <? 2 * X * Y * n)
         then Raise MemoryError
         else np_zeros [X; Y; n] UInt16.
Proof.
  intros HX HY Hn.
  unfold Limits.np_zeros.
  rewrite limits_nbytes_nonneg
    by (first [repeat constructor; assumption
              | rewrite ssize_max_eq; cbn; lia]).
  cbn [forallb Limits.itemsize existsb fold_right].
  replace (2 * (Z.max X 1 * (Z.max Y 1 * (Z.max n 1 * 1))))
    with (2 * Z.max X 1 * Z.max Y 1 * Z.max n 1) by ring.
  generalize (np_zeros [X; Y; n] UInt16) as r. intros r.
  assert (HP : X <= 2 * Z.max X 1 * Z.max Y 1 * Z.max n 1 /\
               Y <= 2 * Z.max X 1 * Z.max Y 1 * Z.max n 1 /\
               n <= 2 * Z.max X 1 * Z.max Y 1 * Z.max n 1).
  { assert (X <= Z.max X 1 /\ 1 <= Z.max X 1) by lia.
    assert (Y <= Z.max Y 1 /\ 1 <= Z.max Y 1) by lia.
    assert (n <= Z.max n 1 /\ 1 <= Z.max n 1) by lia.
    assert (1 <= Z.max X 1 * Z.max Y 1) by nia.
    assert (1 <= Z.max Y 1 * Z.max n 1) by nia.
    assert (1 <= Z.max X 1 * Z.max n 1) by nia.
    repeat split; nia. }
  destruct (Z.ltb_spec Limits.ssize_max
              (2 * Z.max X 1 * Z.max Y 1 * Z.max n 1)) as [Hover | Hfits].
  - now destruct (forallb _ _) || destruct (_ && _).
  - assert (Hr : forall d, 0 <= d ->
                 d <= 2 * Z.max X 1 * Z.max Y 1 * Z.max n 1 ->
                 (- Limits.ssize_max - 1 <=? d) && (d <=? Limits.ssize_max)
                 = true).
    { intros d H0 Hd. apply andb_true_intro.
      split; apply Z.leb_le; rewrite ssize_max_eq in *; lia. }
    rewrite !Hr by (try assumption; apply HP).
    cbn [andb bind].
    destruct (Z.eqb_spec 0 X) as [<- | HXnz]; [reflexivity |].
    destruct (Z.eqb_spec 0 Y) as [<- | HYnz];
      [now rewrite Z.mul_0_r |].
    destruct (Z.eqb_spec 0 n) as [<- | Hnnz];
      [now rewrite Z.mul_0_r |].
    cbn [orb negb andb]. rewrite !Z.max_l by lia.
    replace (0 <? X * Y * n) with true; [reflexivity |].
    symmetry. apply Z.ltb_lt. assert (0 < X * Y) by nia. nia.
Qed.

(** ** The loop of [readData] within the limits *)

(** A turn of the loop moves the handle past one frame header and at
    most one payload. *)
Lemma read_frame_pos host fsz X Y j chunk fh chunk' fh' :
  0 <= fsz ->
  Frms6Reader.read_frame host fsz X Y j (chunk, fh) = Ok (chunk', fh') ->
  fh_pos fh + 64 <= fh_pos fh' <= fh_pos fh + 64 + fsz.
Proof.
  intros Hsz H. unfold Frms6Reader.read_frame in H.
  rewrite frameHeaderSizeInBytes_eq in H.
  apply bind_ok in H as (fh1 & Hseek & H).
  unfold seek in Hseek. cbn [Z.eqb Pos.eqb] in Hseek.
  destruct (_ <? _); [discriminate Hseek |]. injection Hseek as <-.
  unfold read in H. cbn [fh_pos fh_data fh_reads] in H.
  replace (fsz <? 0) with false in H by (symmetry; apply Z.ltb_ge; lia).
  apply bind_ok in H as (? & _ & H).
  apply bind_ok in H as (? & _ & H).
  apply bind_ok in H as (? & _ & H).
  injection H as _ <-. cbn [fh_pos].
  unfold Zlength. rewrite length_firstn.
  pose proof (Nat.le_min_l (Z.to_nat fsz)
                (List.length (skipn (Z.to_nat (fh_pos fh + 64)) (fh_data fh)))).
  lia.
Qed.

(** A turn of the loop within the limits is the turn of the loop. *)
Lemma limits_read_frame_eq pf host fsz X Y j chunk fh :
  0 <= fsz -> fsz <= memory pf -> fsz <= Limits.ssize_max - 33 ->
  0 <= fh_pos fh + 64 <= maxbytes pf ->
  Limits.read_frame pf host fsz X Y j (chunk, fh)
  = Frms6Reader.read_frame host fsz X Y j (chunk, fh).
Proof.
  intros H0 Hm Hs Hpos. unfold Limits.read_frame, Frms6Reader.read_frame.
  rewrite frameHeaderSizeInBytes_eq. destruct fh as [data pos reads].
  cbn [fh_pos] in Hpos.
  rewrite limits_seek_ok
    by (first [rewrite ssize_max_eq; lia | cbn [Z.eqb Pos.eqb]; lia]).
  destruct (seek _ 64 1) as [fh1 | e]; [| reflexivity].
  cbn [bind]. rewrite limits_read_ok by assumption.
  cbn [bind]. now destruct (read fh1 fsz).
Qed.

Lemma limits_read_frame_refines pf host fsz X Y j s s' :
  Limits.read_frame pf host fsz X Y j s = Ok s' ->
  Frms6Reader.read_frame host fsz X Y j s = Ok s'.
Proof.
  destruct s as [chunk fh]. unfold Limits.read_frame, Frms6Reader.read_frame.
  intros H. apply bind_ok in H as (fh1 & Hseek & H).
  rewrite (limits_seek_refines _ _ _ _ _ Hseek). cbn [bind].
  apply bind_ok in H as ([raw fh2] & Hread & H).
  apply limits_read_refines in Hread. rewrite <- Hread. exact H.
Qed.

Lemma for_each_refines {S} (body body' : Z -> S -> result S) :
  (forall x s s', body x s = Ok s' -> body' x s = Ok s') ->
  forall xs s s', for_each xs body s = Ok s' -> for_each xs body' s = Ok s'.
Proof.
  intros Hstep. induction xs as [|x xs IH]; intros s s' H; [exact H |].
  cbn [for_each] in H |- *. apply bind_ok in H as (s1 & H1 & H2).
  rewrite (Hstep _ _ _ H1). cbn [bind]. now apply IH.
Qed.

(** The loop within the limits, from a handle that stays below the
    largest offset. *)
Lemma limits_read_loop pf host fsz X Y :
  0 <= fsz -> fsz <= memory pf -> fsz <= Limits.ssize_max - 33 ->
  forall xs chunk fh,
    0 <= fh_pos fh ->
    fh_pos fh + Zlength xs * (64 + fsz) <= maxbytes pf ->
    for_each xs (Limits.read_frame pf host fsz X Y) (chunk, fh)
    = for_each xs (Frms6Reader.read_frame host fsz X Y) (chunk, fh).
Proof.
  intros H0 Hm Hs. induction xs as [|x xs IH]; intros chunk fh Hpos Hend;
    [reflexivity |].
  cbn [for_each]. unfold Zlength in Hend. cbn [List.length] in Hend.
  rewrite limits_read_frame_eq by (try assumption; nia).
  destruct (Frms6Reader.read_frame host fsz X Y x (chunk, fh))
    as [[chunk' fh'] | e] eqn:E; [| reflexivity].
  cbn [bind]. apply read_frame_pos in E; [| exact H0].
  apply IH; [lia |]. unfold Zlength. nia.
Qed.

(** Within the limits, [readData] is what it is without them. *)
Lemma limits_readData_run_eq pf host fs fn X Y a b :
  0 <= X -> 0 <= Y -> a <= b ->
  2 * Z.max X 1 * Z.max Y 1 * Z.max (b - a) 1 <= Limits.ssize_max ->
  (a < b -> 2 * X * Y * (b - a) <= memory pf) ->
  (a < b -> X * Y * 2 <= Limits.ssize_max - 33) ->
  0 <= frame_offset X Y a -> frame_offset X Y b <= maxbytes pf ->
  maxbytes pf <= Limits.ssize_max ->
  Limits.readData_run pf host fs fn (a, b) X Y
  = Frms6Reader.readData_run host fs fn (a, b) X Y.
Proof.
  intros HX HY Hab Hfit Hmem Hobj Hoff Hend Hmax.
  assert (HXY : 0 <= X * Y) by (apply Z.mul_nonneg_nonneg; assumption).
  pose proof (recordSize_pos X Y HX HY) as Hrec.
  assert (Hcalc : X * Y * 2 <= Limits.ssize_max).
  { assert (X * Y <= Z.max X 1 * Z.max Y 1) by nia.
    assert (1 <= Z.max (b - a) 1) by lia. nia. }
  unfold Limits.readData_run, Frms6Reader.readData_run.
  rewrite limits_getFrameSizeInBytes_ok, getFrameSizeInBytes_ok by assumption.
  cbn [bind]. rewrite limits_np_zeros_eq by lia.
  replace (Limits.ssize_max <? 2 * Z.max X 1 * Z.max Y 1 * Z.max (b - a) 1)
    with false by (symmetry; apply Z.ltb_ge; exact Hfit).
  replace ((0 <? X * Y * (b - a)) && (memory pf <? 2 * X * Y * (b - a)))
    with false.
  2:{ symmetry. apply andb_false_iff.
      destruct (Z.ltb_spec 0 (X * Y * (b - a))) as [Hpos | Hzero];
        [right | now left].
      apply Z.ltb_ge, Hmem. nia. }
  destruct (np_zeros [X; Y; b - a] UInt16) as [chunk | e]; [| reflexivity].
  cbn [bind]. unfold py_open. destruct (fs fn) as [data |]; [| reflexivity].
  cbn [bind]. fold (recordSize X Y). fold (frame_offset X Y a).
  assert (Hle : frame_offset X Y a <= frame_offset X Y b).
  { unfold frame_offset. nia. }
  rewrite limits_seek_ok
    by (first [rewrite ssize_max_eq in *; lia | cbn [Z.eqb]; lia]).
  rewrite seek_abs by exact Hoff. cbn [bind].
  destruct (Z.eq_dec a b) as [-> | Hne].
  - rewrite Z.sub_diag. reflexivity.
  - assert (Hlt : a < b) by lia.
    specialize (Hmem Hlt). specialize (Hobj Hlt).
    apply limits_read_loop; cbn [fh_pos].
    + lia.
    + nia.
    + exact Hobj.
    + exact Hoff.
    + unfold py_range, Zlength. rewrite length_map, length_seq, Z2Nat.id by lia.
      unfold frame_offset, recordSize in *.
      rewrite frameHeaderSizeInBytes_eq in *. nia.
Qed.

(** Where [readData] returns within the limits, it returns the same
    without them. *)
Lemma limits_readData_run_refines pf host fs fn range X Y r :
  Limits.readData_run pf host fs fn range X Y = Ok r ->
  Frms6Reader.readData_run host fs fn range X Y = Ok r.
Proof.
  destruct range as [a b].
  unfold Limits.readData_run, Frms6Reader.readData_run. intros H.
  apply bind_ok in H as (fsz & Hfsz & H).
  rewrite (limits_getFrameSizeInBytes_refines _ _ _ _ Hfsz). cbn [bind].
  apply bind_ok in H as (chunk & Hchunk & H).
  rewrite (limits_np_zeros_refines _ _ _ _ Hchunk). cbn [bind].
  apply bind_ok in H as (fh & Hopen & H). rewrite Hopen. cbn [bind].
  apply bind_ok in H as (fh1 & Hseek & H).
  rewrite (limits_seek_refines _ _ _ _ _ Hseek). cbn [bind].
  revert H. apply for_each_refines. intros x s s'.
  apply limits_read_frame_refines.
Qed.

Lemma limits_readData_refines pf host fs fn range X Y chunk :
  Limits.readData pf host fs fn range X Y = Ok chunk ->
  Frms6Reader.readData host fs fn range X Y = Ok chunk.
Proof.
  unfold Limits.readData, Frms6Reader.readData. intros H.
  apply bind_ok in H as ([c fh] & Hrun & H).
  now rewrite (limits_readData_run_refines _ _ _ _ _ _ _ _ Hrun).
Qed.

(** [readData] within the limits, on a file that holds the frames of
    the range. *)
Lemma limits_readData_run_ok pf host fs fn data X Y a b :
  fs fn = Some data -> 0 <= X -> 0 <= Y -> a <= b ->
  2 * Z.max X 1 * Z.max Y 1 * Z.max (b - a) 1 <= Limits.ssize_max ->
  (a < b -> 2 * X * Y * (b - a) <= memory pf) ->
  (a < b -> X * Y * 2 <= Limits.ssize_max - 33) ->
  0 <= frame_offset X Y a -> frame_offset X Y b <= maxbytes pf ->
  maxbytes pf <= Limits.ssize_max ->
  (a < b -> frame_offset X Y b <= Zlength data) ->
  Limits.readData_run pf host fs fn (a, b) X Y
  = Ok (chunk_of host data X Y a (Z.to_nat (b - a)),
        {| fh_data := data; fh_pos := frame_offset X Y b;
           fh_reads := payload_reads X Y a (Z.to_nat (b - a)) |}).
Proof.
  intros Hfs HX HY Hab Hfit Hmem Hobj Hoff Hend Hmax Hdata.
  rewrite limits_readData_run_eq by assumption.
  now apply readData_run_ok.
Qed.

(** The seek of [readData] to an offset outside the file system. *)
Lemma limits_readData_seek_fails pf host fs fn data X Y a b :
  fs fn = Some data -> 0 <= X -> 0 <= Y -> a <= b ->
  2 * Z.max X 1 * Z.max Y 1 * Z.max (b - a) 1 <= Limits.ssize_max ->
  (0 < X * Y * (b - a) -> 2 * X * Y * (b - a) <= memory pf) ->
  frame_offset X Y a < 0 \/ maxbytes pf < frame_offset X Y a ->
  Limits.readData pf host fs fn (a, b) X Y
  = Raise (if (frame_offset X Y a <? - Limits.ssize_max - 1)
              || (Limits.ssize_max <? frame_offset X Y a)
           then ValueError else OSError).
Proof.
  intros Hfs HX HY Hab Hfit Hmem Hout.
  assert (HXY : 0 <= X * Y) by (apply Z.mul_nonneg_nonneg; assumption).
  assert (Hcalc : X * Y * 2 <= Limits.ssize_max).
  { assert (X * Y <= Z.max X 1 * Z.max Y 1) by nia.
    assert (1 <= Z.max (b - a) 1) by lia. nia. }
  unfold Limits.readData, Limits.readData_run.
  rewrite limits_getFrameSizeInBytes_ok by assumption.
  cbn [bind]. rewrite limits_np_zeros_eq by lia.
  replace (Limits.ssize_max <? 2 * Z.max X 1 * Z.max Y 1 * Z.max (b - a) 1)
    with false by (symmetry; apply Z.ltb_ge; exact Hfit).
  replace ((0 <? X * Y * (b - a)) && (memory pf <? 2 * X * Y * (b - a)))
    with false.
  2:{ symmetry. apply andb_false_iff.
      destruct (Z.ltb_spec 0 (X * Y * (b - a))) as [Hpos | Hzero];
        [right | now left].
      apply Z.ltb_ge, Hmem, Hpos. }
  unfold np_zeros.
  rewrite check_shape_ok by (repeat constructor; lia).
  cbn [bind]. unfold py_open. rewrite Hfs. cbn [bind].
  fold (recordSize X Y). fold (frame_offset X Y a).
  unfold Limits.seek. cbn [Z.eqb].
  destruct (_ || _); [reflexivity |].
  replace ((frame_offset X Y a <? 0) || (maxbytes pf <? frame_offset X Y a))
    with true; [reflexivity |].
  symmetry. apply orb_true_iff.
  destruct Hout; [left | right]; now apply Z.ltb_lt.
Qed.

(** ** The size of a frame *)

(** C8, as the code has it: for non-negative [width] and [height],
    [getFrameSizeInBytes] returns [width * height * 2] as long as that is
    at most [sys.maxsize], 2^63 - 1 on a 64-bit interpreter.  Beyond,
    no size comes back: [struct.calcsize] raises [struct.error] (for a
    product of up to 640 digits; the [str] of a longer one can fail
    first). *)
Theorem getFrameSizeInBytes_spec pf (frameWidth frameHeight : Z) :
  0 <= frameWidth -> 0 <= frameHeight ->
  Limits.ssize_max = 2 ^ 63 - 1 /\
  (frameWidth * frameHeight * 2 <= Limits.ssize_max ->
   Limits.getFrameSizeInBytes pf frameWidth frameHeight
   = Ok (frameWidth * frameHeight * 2)) /\
  (Limits.ssize_max < frameWidth * frameHeight * 2 ->
   (forall n, Limits.getFrameSizeInBytes pf frameWidth frameHeight <> Ok n) /\
   (frameWidth * frameHeight < 10 ^ 640 ->
    Limits.getFrameSizeInBytes pf frameWidth frameHeight = Raise StructError)).
Proof.
  intros Hw Hh.
  assert (H : 0 <= frameWidth * frameHeight)
    by (apply Z.mul_nonneg_nonneg; assumption).
  split; [reflexivity |]. split.
  - now apply limits_getFrameSizeInBytes_ok.
  - intros Hover.
    destruct (limits_getFrameSizeInBytes_fails pf frameWidth frameHeight
                (or_intror Hover)) as (e & He & Hstruct).
    split; [intros n; rewrite He; discriminate |].
    intros Hshort. rewrite He. f_equal. apply Hstruct. lia.
Qed.

Lemma getFrameSizeInBytes_spec_witness :
  0 <= 264 /\ 0 <= 1024 /\ 264 * 1024 * 2 <= Limits.ssize_max /\
  Limits.getFrameSizeInBytes example_platform 264 1024 = Ok (264 * 1024 * 2).
Proof.
  assert (H : 264 * 1024 * 2 <= Limits.ssize_max)
    by (vm_compute; discriminate).
  split; [lia |]. split; [lia |]. split; [exact H |].
  exact (proj1 (proj2 (getFrameSizeInBytes_spec example_platform 264 1024
                         ltac:(lia) ltac:(lia))) H).
Defined.

(** A frame of 2^62 by 4 samples: both extents are non-negative, and
    no size comes back. *)
Lemma getFrameSizeInBytes_struct_limit :
  0 <= 2 ^ 62 /\ 0 <= 4 /\
  Limits.getFrameSizeInBytes example_platform (2 ^ 62) 4 = Raise StructError /\
  Limits.getFrameSizeInBytes example_platform (2 ^ 62) 4
  <> Ok (2 ^ 62 * 4 * 2).
Proof.
  split; [lia |]. split; [lia |].
  assert (H : Limits.getFrameSizeInBytes example_platform (2 ^ 62) 4
              = Raise StructError)
    by (vm_compute; reflexivity).
  split; [exact H |]. rewrite H. discriminate.
Qed.

(** X4: [getFrameSizeInBytes] looks at the product of its arguments
    only.  It returns twice the product when that lies between 0 and
    [sys.maxsize] (two negative extents included); for a negative
    product, and for one beyond, no size comes back, and the failure is
    a [struct.error] as long as the product has at most 640 digits; a
    product of more digits than the interpreter prints fails in [str]
    ([ValueError]). *)
Theorem getFrameSizeInBytes_by_product pf (frameWidth frameHeight : Z) :
  (0 <= frameWidth * frameHeight ->
   frameWidth * frameHeight * 2 <= Limits.ssize_max ->
   Limits.getFrameSizeInBytes pf frameWidth frameHeight
   = Ok (frameWidth * frameHeight * 2)) /\
  (frameWidth * frameHeight < 0
   \/ Limits.ssize_max < frameWidth * frameHeight * 2 ->
   (forall n, Limits.getFrameSizeInBytes pf frameWidth frameHeight <> Ok n) /\
   (Z.abs (frameWidth * frameHeight) < 10 ^ 640 ->
    Limits.getFrameSizeInBytes pf frameWidth frameHeight = Raise StructError)) /\
  (0 < max_str_digits pf ->
   10 ^ Z.max (max_str_digits pf) 640 <= Z.abs (frameWidth * frameHeight) ->
   Limits.getFrameSizeInBytes pf frameWidth frameHeight = Raise ValueError).
Proof.
  split; [| split].
  - apply limits_getFrameSizeInBytes_ok.
  - intros Hbad.
    destruct (limits_getFrameSizeInBytes_fails pf frameWidth frameHeight Hbad)
      as (e & He & Hstruct).
    split; [intros n; rewrite He; discriminate |].
    intros Hshort. rewrite He. f_equal. now apply Hstruct.
  - intros HL Hlong. unfold Limits.getFrameSizeInBytes.
    now rewrite limits_str_of_int_long.
Qed.

Lemma getFrameSizeInBytes_by_product_witness :
  0 <= -3 * -4 /\ -3 * -4 * 2 <= Limits.ssize_max /\ 3 * -4 < 0 /\
  Z.abs (3 * -4) < 10 ^ 640 /\
  Limits.ssize_max < - 2 ^ 31 * - 2 ^ 31 * 2 /\
  Z.abs (- 2 ^ 31 * - 2 ^ 31) < 10 ^ 640 /\
  Limits.getFrameSizeInBytes example_platform (-3) (-4) = Ok (-3 * -4 * 2) /\
  Limits.getFrameSizeInBytes example_platform 3 (-4) = Raise StructError /\
  Limits.getFrameSizeInBytes example_platform (- 2 ^ 31) (- 2 ^ 31)
  = Raise StructError.
Proof.
  assert (H1 : -3 * -4 * 2 <= Limits.ssize_max) by (vm_compute; discriminate).
  assert (H2 : Limits.ssize_max < - 2 ^ 31 * - 2 ^ 31 * 2)
    by (vm_compute; reflexivity).
  assert (H3 : Z.abs (3 * -4) < 10 ^ 640) by (vm_compute; reflexivity).
  assert (H4 : Z.abs (- 2 ^ 31 * - 2 ^ 31) < 10 ^ 640)
    by (vm_compute; reflexivity).
  split; [lia |]. split; [exact H1 |]. split; [lia |]. split; [exact H3 |].
  split; [exact H2 |]. split; [exact H4 |].
  split; [| split].
  - apply (proj1 (getFrameSizeInBytes_by_product example_platform (-3) (-4)));
      [lia | exact H1].
  - apply (proj1 (proj2 (getFrameSizeInBytes_by_product example_platform
                           3 (-4))));
      [left; lia | exact H3].
  - apply (proj1 (proj2 (getFrameSizeInBytes_by_product example_platform
                           (- 2 ^ 31) (- 2 ^ 31))));
      [right; exact H2 | exact H4].
Defined.

(** ** Ranges *)

(** C9, as the code has it: on an existing file, with extents that are
    not negative and pass the size checks, a range whose start equals
    its end gives the all-zero 16-bit array of shape (pixels_x,
    pixels_y, 0) without a read when the byte offset of the start lies
    between 0 and the largest offset of the file system; at any other
    offset the seek fails. *)
Theorem readData_empty_range pf host fs fn data X Y s :
  fs fn = Some data -> 0 <= X -> 0 <= Y ->
  2 * Z.max X 1 * Z.max Y 1 <= Limits.ssize_max ->
  maxbytes pf <= Limits.ssize_max ->
  (0 <= frame_offset X Y s <= maxbytes pf ->
   exists chunk fh,
     Limits.readData_run pf host fs fn (s, s) X Y = Ok (chunk, fh) /\
     Limits.readData pf host fs fn (s, s) X Y = Ok chunk /\
     Limits.np_zeros pf [X; Y; 0] UInt16 = Ok chunk /\
     nd_dtype chunk = UInt16 /\
     nd_shape chunk = [Z.to_nat X; Z.to_nat Y; 0%nat] /\
     Forall (fun v => v = SInt 0) (nd_data chunk) /\
     fh_reads fh = []) /\
  (frame_offset X Y s < 0 \/ maxbytes pf < frame_offset X Y s ->
   Limits.readData pf host fs fn (s, s) X Y
   = Raise (if (frame_offset X Y s <? - Limits.ssize_max - 1)
               || (Limits.ssize_max <? frame_offset X Y s)
            then ValueError else OSError)).
Proof.
  intros Hfs HX HY Hfit Hmax.
  assert (Hfit' : 2 * Z.max X 1 * Z.max Y 1 * Z.max (s - s) 1
                  <= Limits.ssize_max).
  { rewrite Z.sub_diag. change (Z.max 0 1) with 1. lia. }
  split.
  - intros [Hoff Hend].
    pose proof (limits_readData_run_ok pf host fs fn data X Y s s Hfs HX HY
                  ltac:(lia) Hfit' ltac:(lia) ltac:(lia) Hoff Hend Hmax
                  ltac:(lia)) as Hrun.
    rewrite Z.sub_diag in Hrun. change (Z.to_nat 0) with 0%nat in Hrun.
    do 2 eexists. split; [exact Hrun |]. split.
    { unfold Limits.readData. now rewrite Hrun. }
    split.
    { rewrite limits_np_zeros_eq by lia.
      rewrite Z.sub_diag in Hfit'.
      replace (Limits.ssize_max <? 2 * Z.max X 1 * Z.max Y 1 * Z.max 0 1)
        with false by (symmetry; apply Z.ltb_ge; exact Hfit').
      rewrite Z.mul_0_r. cbn [Z.ltb Z.compare andb].
      unfold np_zeros. rewrite check_shape_ok by (repeat constructor; lia).
      cbn [bind map]. f_equal. apply nd_make_ext. intros idx Hb.
      apply in_bounds3 in Hb as (x & y & k & _ & _ & _ & Hk). lia. }
    split; [reflexivity |]. split; [reflexivity |]. split; [| reflexivity].
    apply Forall_forall. intros v Hv. unfold chunk_of in Hv.
    cbn [nd_data nd_make] in Hv.
    apply in_map_iff in Hv as (idx & _ & Hin).
    apply In_indices, in_bounds3 in Hin as (x & y & k & _ & _ & _ & Hk). lia.
  - intros Hout.
    apply (limits_readData_seek_fails pf host fs fn data); try assumption;
      lia.
Qed.
Lemma readData_empty_range_witness :
  example_fs LittleEndian "run.frms6"%string = Some (example_file LittleEndian) /\
  2 * Z.max 2 1 * Z.max 2 1 <= Limits.ssize_max /\
  maxbytes example_platform <= Limits.ssize_max /\
  0 <= frame_offset 2 2 1 <= maxbytes example_platform /\
  exists chunk fh,
    Limits.readData_run example_platform LittleEndian (example_fs LittleEndian)
                        "run.frms6" (1, 1) 2 2 = Ok (chunk, fh) /\
    nd_shape chunk = [2; 2; 0]%nat /\ fh_reads fh = [].
Proof.
  assert (H1 : example_fs LittleEndian "run.frms6"%string
               = Some (example_file LittleEndian)) by reflexivity.
  assert (H2 : 2 * Z.max 2 1 * Z.max 2 1 <= Limits.ssize_max)
    by (vm_compute; discriminate).
  assert (H3 : maxbytes example_platform <= Limits.ssize_max)
    by (vm_compute; discriminate).
  assert (H4 : 0 <= frame_offset 2 2 1 <= maxbytes example_platform)
    by (split; vm_compute; discriminate).
  split; [exact H1 |]. split; [exact H2 |]. split; [exact H3 |].
  split; [exact H4 |].
  destruct (proj1 (readData_empty_range example_platform LittleEndian
                     (example_fs LittleEndian) "run.frms6"%string
                     (example_file LittleEndian) 2 2 1 H1
                     ltac:(lia) ltac:(lia) H2 H3) H4)
    as (chunk & fh & Hrun & _ & _ & _ & Hshape & _ & Hreads).
  exists chunk, fh. repeat split; assumption.
Defined.

(** Ranges whose start equals their end, with extents that are not
    negative, on which [readData] raises: the seek fails below the start
    of the file, past the largest offset of the file system and outside
    the 64-bit offsets, and the size of a frame can be too long for
    [struct]. *)
Lemma readData_empty_range_failures :
  Limits.readData example_platform LittleEndian (example_fs LittleEndian)
                  "run.frms6" (-100, -100) 2 2 = Raise OSError /\
  Limits.readData example_platform LittleEndian (example_fs LittleEndian)
                  "run.frms6" (10 ^ 12, 10 ^ 12) 2 2 = Raise OSError /\
  Limits.readData example_platform LittleEndian (example_fs LittleEndian)
                  "run.frms6" (2 ^ 62, 2 ^ 62) 2 2 = Raise ValueError /\
  Limits.readData example_platform LittleEndian (example_fs LittleEndian)
                  "run.frms6" (0, 0) (2 ^ 62) 4 = Raise StructError.
Proof. repeat split; vm_compute; reflexivity. Qed.

(** C4, as the code has it: [readData] checks no range.  With extents
    that are not negative and a frame size within [sys.maxsize], a range
    whose start is greater than its end fails when the array is
    allocated ([ValueError]); a range whose array can be allocated, at a
    negative byte offset, fails at the seek ([OSError], or [ValueError]
    below -2^63); and every other range the file and the machine hold is
    read, a start equal to the end or below zero included. *)
Theorem readData_invalid_range pf host fs fn X Y a b :
  0 <= X -> 0 <= Y -> X * Y * 2 <= Limits.ssize_max ->
  (b < a -> Limits.readData pf host fs fn (a, b) X Y = Raise ValueError) /\
  (forall data,
      fs fn = Some data -> a <= b ->
      2 * Z.max X 1 * Z.max Y 1 * Z.max (b - a) 1 <= Limits.ssize_max ->
      2 * X * Y * (b - a) <= memory pf ->
      frame_offset X Y a < 0 ->
      Limits.readData pf host fs fn (a, b) X Y
      = Raise (if frame_offset X Y a <? - Limits.ssize_max - 1
               then ValueError else OSError)) /\
  (forall data,
      fs fn = Some data -> a <= b ->
      2 * Z.max X 1 * Z.max Y 1 * Z.max (b - a) 1 <= Limits.ssize_max ->
      2 * X * Y * (b - a) <= memory pf ->
      memory pf <= Limits.ssize_max - 33 ->
      0 <= frame_offset X Y a -> frame_offset X Y b <= maxbytes pf ->
      maxbytes pf <= Limits.ssize_max ->
      (a < b -> frame_offset X Y b <= Zlength data) ->
      Limits.readData pf host fs fn (a, b) X Y
      = Ok (chunk_of host data X Y a (Z.to_nat (b - a)))).
Proof.
  intros HX HY Hcalc.
  assert (HXY : 0 <= X * Y) by (apply Z.mul_nonneg_nonneg; assumption).
  split; [| split].
  - intros Hba. unfold Limits.readData, Limits.readData_run.
    rewrite limits_getFrameSizeInBytes_ok by assumption. cbn [bind].
    rewrite limits_np_zeros_negative; [reflexivity |].
    apply Exists_cons_tl, Exists_cons_tl, Exists_cons_hd. lia.
  - intros data Hfs Hab Hfit Hmem Hoff.
    rewrite (limits_readData_seek_fails pf host fs fn data)
      by (try assumption; auto).
    replace (Limits.ssize_max <? frame_offset X Y a) with false
      by (symmetry; apply Z.ltb_ge; rewrite ssize_max_eq; lia).
    now rewrite orb_false_r.
  - intros data Hfs Hab Hfit Hmem Hobj Hoff Hend Hmax Hdata.
    unfold Limits.readData.
    rewrite (limits_readData_run_ok pf host fs fn data); try assumption;
      try reflexivity; try (intros _; assumption).
    intros Hlt. nia.
Qed.

Lemma readData_invalid_range_witness :
  0 <= 2 /\ 2 * 2 * 2 <= Limits.ssize_max /\ 3 < 5 /\
  Limits.readData example_platform LittleEndian (example_fs LittleEndian)
                  "run.frms6" (5, 3) 2 2 = Raise ValueError.
Proof.
  assert (H : 2 * 2 * 2 <= Limits.ssize_max) by (vm_compute; discriminate).
  split; [lia |]. split; [exact H |]. split; [lia |].
  apply (proj1 (readData_invalid_range example_platform LittleEndian
                  (example_fs LittleEndian) "run.frms6"%string 2 2 5 3
                  ltac:(lia) ltac:(lia) H)).
  lia.
Defined.

(** Ranges the code accepts although their start is not below their
    end, or a bound is negative. *)
Lemma readData_accepts_invalid_ranges :
  is_ok (Limits.readData example_platform LittleEndian
           (example_fs LittleEndian) "run.frms6" (1, 1) 2 2) = true /\
  is_ok (Limits.readData example_platform LittleEndian
           (example_fs LittleEndian) "run.frms6" (-1, 0) 2 2) = true.
Proof. split; vm_compute; reflexivity. Qed.

(** ** Failures *)

(** X6: with positive extents, a range that reaches past the end of the
    file never gives an array, whole or partial; and when the machine
    holds the array and the offsets of the range, the failure is the
    [ValueError] of the first frame that is not whole (from the buffer
    or from the reshape). *)
Theorem readData_truncated_file pf host fs fn data X Y a b :
  fs fn = Some data -> 0 < X -> 0 < Y -> 0 <= a < b ->
  Zlength data < frame_offset X Y b ->
  (forall chunk, Limits.readData pf host fs fn (a, b) X Y <> Ok chunk) /\
  (2 * X * Y * (b - a) <= memory pf ->
   memory pf <= Limits.ssize_max - 33 ->
   frame_offset X Y b <= maxbytes pf ->
   maxbytes pf <= Limits.ssize_max ->
   Limits.readData pf host fs fn (a, b) X Y = Raise ValueError).
Proof.
  intros Hfs HX HY [Ha Hab] Hshort.
  pose proof (readData_truncated host fs fn data X Y a b Hfs HX HY
                (conj Ha Hab) Hshort) as Hideal.
  split.
  - intros chunk H. apply limits_readData_refines in H. congruence.
  - intros Hmem Hobj Hend Hmax. rewrite <- Hideal.
    unfold Limits.readData, Frms6Reader.readData.
    assert (HXY : 0 < X * Y) by nia.
    assert (Hfit : 2 * Z.max X 1 * Z.max Y 1 * Z.max (b - a) 1
                   <= Limits.ssize_max)
      by (rewrite !Z.max_l by lia; lia).
    assert (Hone : X * Y * 2 <= Limits.ssize_max - 33) by nia.
    now rewrite (limits_readData_run_eq pf host fs fn X Y a b)
      by (first [assumption | lia | intros _; assumption
                | apply frame_offset_nonneg; lia]).
Qed.

Lemma readData_truncated_file_witness :
  example_fs LittleEndian "run.frms6"%string = Some (example_file LittleEndian) /\
  Zlength (example_file LittleEndian) < frame_offset 2 2 3 /\
  2 * 2 * 2 * (3 - 1) <= memory example_platform /\
  memory example_platform <= Limits.ssize_max - 33 /\
  frame_offset 2 2 3 <= maxbytes example_platform /\
  maxbytes example_platform <= Limits.ssize_max /\
  Limits.readData example_platform LittleEndian (example_fs LittleEndian)
                  "run.frms6" (1, 3) 2 2 = Raise ValueError.
Proof.
  assert (H1 : example_fs LittleEndian "run.frms6"%string
               = Some (example_file LittleEndian)) by reflexivity.
  assert (H2 : Zlength (example_file LittleEndian) < frame_offset 2 2 3)
    by (vm_compute; reflexivity).
  assert (H3 : 2 * 2 * 2 * (3 - 1) <= memory example_platform)
    by (vm_compute; discriminate).
  assert (H4 : memory example_platform <= Limits.ssize_max - 33)
    by (vm_compute; discriminate).
  assert (H5 : frame_offset 2 2 3 <= maxbytes example_platform)
    by (vm_compute; discriminate).
  assert (H6 : maxbytes example_platform <= Limits.ssize_max)
    by (vm_compute; discriminate).
  repeat (split; [assumption |]).
  exact (proj2 (readData_truncated_file example_platform LittleEndian
                  (example_fs LittleEndian) "run.frms6"%string
                  (example_file LittleEndian) 2 2 1 3 H1
                  ltac:(lia) ltac:(lia) ltac:(lia) H2) H3 H4 H5 H6).
Defined.

(** X10: the order in which [readData] fails on its arguments, all of
    it before the file is opened.  First the size of a frame: a product
    of the extents too long to print fails in [str] ([ValueError]), and
    a product that is negative, or a frame beyond [sys.maxsize], raises
    [struct.error].  Then the array: a negative extent, an end before the
    start, or an array beyond the largest size raises [ValueError], and
    an array beyond the memory raises [MemoryError].  A missing file
    shows only on arguments that pass all of that. *)
Theorem readData_argument_errors pf host fs fn a b X Y :
  (0 < max_str_digits pf ->
   10 ^ Z.max (max_str_digits pf) 640 <= Z.abs (X * Y) ->
   Limits.readData pf host fs fn (a, b) X Y = Raise ValueError) /\
  (X * Y < 0 \/ Limits.ssize_max < X * Y * 2 ->
   Z.abs (X * Y) < 10 ^ 640 ->
   Limits.readData pf host fs fn (a, b) X Y = Raise StructError) /\
  (0 <= X * Y -> X * Y * 2 <= Limits.ssize_max ->
   X < 0 \/ Y < 0 \/ b < a ->
   Limits.readData pf host fs fn (a, b) X Y = Raise ValueError) /\
  (0 <= X -> 0 <= Y -> a <= b -> X * Y * 2 <= Limits.ssize_max ->
   Limits.ssize_max < 2 * Z.max X 1 * Z.max Y 1 * Z.max (b - a) 1 ->
   Limits.readData pf host fs fn (a, b) X Y = Raise ValueError) /\
  (0 < X -> 0 < Y -> a < b ->
   2 * X * Y * (b - a) <= Limits.ssize_max ->
   memory pf < 2 * X * Y * (b - a) ->
   Limits.readData pf host fs fn (a, b) X Y = Raise MemoryError) /\
  (0 <= X -> 0 <= Y -> a <= b ->
   2 * Z.max X 1 * Z.max Y 1 * Z.max (b - a) 1 <= Limits.ssize_max ->
   2 * X * Y * (b - a) <= memory pf ->
   fs fn = None ->
   Limits.readData pf host fs fn (a, b) X Y = Raise FileNotFoundError).
Proof.
  unfold Limits.readData, Limits.readData_run.
  split; [| split; [| split; [| split; [| split]]]].
  - intros HL Hlong. unfold Limits.getFrameSizeInBytes.
    now rewrite limits_str_of_int_long.
  - intros Hbad Hshort.
    destruct (limits_getFrameSizeInBytes_fails pf X Y Hbad)
      as (e & He & Hstruct).
    rewrite He, (Hstruct Hshort). reflexivity.
  - intros H Hcalc Hbad.
    rewrite limits_getFrameSizeInBytes_ok by assumption. cbn [bind].
    rewrite limits_np_zeros_negative; [reflexivity |].
    destruct Hbad as [Hbad | [Hbad | Hbad]].
    + now apply Exists_cons_hd.
    + now apply Exists_cons_tl, Exists_cons_hd.
    + apply Exists_cons_tl, Exists_cons_tl, Exists_cons_hd. lia.
  - intros HX HY Hab Hcalc Hover.
    rewrite limits_getFrameSizeInBytes_ok
      by (try assumption; now apply Z.mul_nonneg_nonneg).
    cbn [bind]. rewrite limits_np_zeros_eq by lia.
    replace (Limits.ssize_max <? 2 * Z.max X 1 * Z.max Y 1 * Z.max (b - a) 1)
      with true by (symmetry; apply Z.ltb_lt; exact Hover).
    reflexivity.
  - intros HX HY Hab Hfit Hmem.
    assert (HXY : 0 < X * Y) by nia.
    rewrite limits_getFrameSizeInBytes_ok by nia.
    cbn [bind]. rewrite limits_np_zeros_eq by lia.
    rewrite !Z.max_l by lia.
    replace (Limits.ssize_max <? 2 * X * Y * (b - a)) with false
      by (symmetry; apply Z.ltb_ge; exact Hfit).
    replace (0 <? X * Y * (b - a)) with true
      by (symmetry; apply Z.ltb_lt; nia).
    replace (memory pf <? 2 * X * Y * (b - a)) with true
      by (symmetry; apply Z.ltb_lt; exact Hmem).
    reflexivity.
  - intros HX HY Hab Hfit Hmem Hfs.
    assert (HXY : 0 <= X * Y) by (apply Z.mul_nonneg_nonneg; assumption).
    assert (Hcalc : X * Y * 2 <= Limits.ssize_max).
    { assert (X * Y <= Z.max X 1 * Z.max Y 1) by nia.
      assert (1 <= Z.max (b - a) 1) by lia. nia. }
    rewrite limits_getFrameSizeInBytes_ok by assumption.
    cbn [bind]. rewrite limits_np_zeros_eq by lia.
    replace (Limits.ssize_max <? 2 * Z.max X 1 * Z.max Y 1 * Z.max (b - a) 1)
      with false by (symmetry; apply Z.ltb_ge; exact Hfit).
    replace (memory pf <? 2 * X * Y * (b - a)) with false
      by (symmetry; apply Z.ltb_ge; exact Hmem).
    rewrite andb_false_r. unfold np_zeros.
    rewrite check_shape_ok by (repeat constructor; lia).
    cbn [bind]. unfold py_open. now rewrite Hfs.
Qed.

Lemma readData_argument_errors_witness :
  -2 * 2 < 0 /\ Z.abs (-2 * 2) < 10 ^ 640 /\
  0 <= -2 * -2 /\ -2 * -2 * 2 <= Limits.ssize_max /\
  Limits.ssize_max < 2 ^ 31 * 2 ^ 31 * 2 /\
  Z.abs (2 ^ 31 * 2 ^ 31) < 10 ^ 640 /\
  2 * 2 * 2 * (2 ^ 45 - 0) <= Limits.ssize_max /\
  memory example_platform < 2 * 2 * 2 * (2 ^ 45 - 0) /\
  2 * Z.max 2 1 * Z.max 2 1 * Z.max (1 - 0) 1 <= Limits.ssize_max /\
  2 * 2 * 2 * (1 - 0) <= memory example_platform /\
  Limits.readData example_platform LittleEndian (example_fs LittleEndian)
                  "run.frms6" (0, 1) (-2) 2 = Raise StructError /\
  Limits.readData example_platform LittleEndian (example_fs LittleEndian)
                  "run.frms6" (0, 1) (2 ^ 31) (2 ^ 31) = Raise StructError /\
  Limits.readData example_platform LittleEndian (example_fs LittleEndian)
                  "run.frms6" (0, 1) (-2) (-2) = Raise ValueError /\
  Limits.readData example_platform LittleEndian (example_fs LittleEndian)
                  "none.frms6" (0, 2 ^ 45) 2 2 = Raise MemoryError /\
  Limits.readData example_platform LittleEndian (example_fs LittleEndian)
                  "none.frms6" (0, 1) 2 2 = Raise FileNotFoundError.
Proof.
  assert (H0 : Z.abs (-2 * 2) < 10 ^ 640) by (vm_compute; reflexivity).
  assert (H1 : -2 * -2 * 2 <= Limits.ssize_max) by (vm_compute; discriminate).
  assert (H2 : Limits.ssize_max < 2 ^ 31 * 2 ^ 31 * 2)
    by (vm_compute; reflexivity).
  assert (H2' : Z.abs (2 ^ 31 * 2 ^ 31) < 10 ^ 640)
    by (vm_compute; reflexivity).
  assert (H3 : 2 * 2 * 2 * (2 ^ 45 - 0) <= Limits.ssize_max)
    by (vm_compute; discriminate).
  assert (H4 : memory example_platform < 2 * 2 * 2 * (2 ^ 45 - 0))
    by (vm_compute; reflexivity).
  assert (H5 : 2 * Z.max 2 1 * Z.max 2 1 * Z.max (1 - 0) 1 <= Limits.ssize_max)
    by (vm_compute; discriminate).
  assert (H6 : 2 * 2 * 2 * (1 - 0) <= memory example_platform)
    by (vm_compute; discriminate).
  split; [lia |]. split; [exact H0 |]. split; [lia |].
  repeat (split; [assumption |]).
  split; [| split; [| split; [| split]]].
  - apply (proj1 (proj2 (readData_argument_errors example_platform
                           LittleEndian (example_fs LittleEndian)
                           "run.frms6"%string 0 1 (-2) 2)));
      [left; lia | exact H0].
  - apply (proj1 (proj2 (readData_argument_errors example_platform
                           LittleEndian (example_fs LittleEndian)
                           "run.frms6"%string 0 1 (2 ^ 31) (2 ^ 31))));
      [right; exact H2 | exact H2'].
  - apply (proj1 (proj2 (proj2 (readData_argument_errors example_platform
                                  LittleEndian (example_fs LittleEndian)
                                  "run.frms6"%string 0 1 (-2) (-2)))));
      [lia | exact H1 | left; lia].
  - apply (proj1 (proj2 (proj2 (proj2 (proj2
             (readData_argument_errors example_platform LittleEndian
                (example_fs LittleEndian) "none.frms6"%string
                0 (2 ^ 45) 2 2)))))); [lia | lia | lia | exact H3 | exact H4].
  - apply (proj2 (proj2 (proj2 (proj2 (proj2
             (readData_argument_errors example_platform LittleEndian
                (example_fs LittleEndian) "none.frms6"%string 0 1 2 2))))));
      [lia | lia | lia | exact H5 | exact H6 | reflexivity].
Defined.
